(** * Event-coordination agents: a shallow embedding and its properties

    The development follows the Python sources module by module:

    - [Py]     : the few Python notions the sources rely on (insertion-ordered
                 dictionaries, truthiness, the stable descending sort);
    - [Sess]   : [models/coordination_session.py];
    - [Base]   : [agents/base_agent.py];
    - [Coord]  : [agents/coordination_agent.py];
    - [Sched]  : [agents/scheduling_agent.py];
    - [Venue]  : [models/venue.py] and [agents/venue_agent.py];
    - [SessView], [Life], [Flow], [SchedView], [VenueView] : the read-only
                 methods of the session, the lifecycle of the base agent,
                 the phase driving of the coordination agent, and the
                 evaluation and selection steps of the two worker agents.

    Conventions.  A [datetime] is the number of microseconds since the
    epoch (naive UTC), an integer of [Z].  Every reading of the clock
    ([datetime.utcnow()]) and every drawn identifier ([uuid4()]) made by one
    call is supplied by the caller through an [Env]; one call sees one
    clock reading.  A Python [float] is idealised as an exact rational of
    [Q]: sums, products and quotients are those of the source, without
    rounding.  Awaited calls are run to completion in program order.
    [str.lower()] follows the case tables of Unicode; it is a parameter of
    the development (the class [Py.Unicode]), so that what is proved of the
    code that calls it holds whatever those tables are. *)

From Stdlib Require Import ZArith QArith Qminmax Lqa.
From Stdlib Require Import List String Bool Lia Sorted Permutation.
Import ListNotations.

Set Implicit Arguments.
Set Warnings "-register-all".

Local Open Scope string_scope.
Local Open Scope list_scope.
Local Open Scope Z_scope.

(** String concatenation, as in an f-string; [++] stays the list append. *)
Infix "+++" := String.append (right associativity, at level 60).

(* ================================================================== *)
(** * Part I: the embedding                                            *)
(* ================================================================== *)

(** ** Python notions *)

Module Py.

(** The values stored under [Dict[str, Any]] fields. *)
Inductive Any : Type :=
| ANone
| ABool (b : bool)
| AInt (z : Z)
| AFloat (q : Q)
| AStr (s : string)
| AList (l : list Any)
| ADict (d : list (string * Any)).

(** A [dict] keeps its keys in insertion order and holds each key once. *)
Definition Dict (V : Type) : Type := list (string * V).

Fixpoint dict_get {V : Type} (k : string) (d : Dict V) : option V :=
  match d with
  | [] => None
  | (k', v) :: d' => if String.eqb k k' then Some v else dict_get k d'
  end.

(** [d[k] = v]: an existing key keeps its position, a new one goes last. *)
Fixpoint dict_set {V : Type} (k : string) (v : V) (d : Dict V) : Dict V :=
  match d with
  | [] => [(k, v)]
  | (k', v') :: d' =>
      if String.eqb k k' then (k', v) :: d' else (k', v') :: dict_set k v d'
  end.

Definition dict_contains {V : Type} (k : string) (d : Dict V) : bool :=
  match dict_get k d with Some _ => true | None => false end.

Definition dict_keys {V : Type} (d : Dict V) : list string := map fst d.
Definition dict_values {V : Type} (d : Dict V) : list V := map snd d.

(** Truthiness of [str] and of [Optional[str]]. *)
Definition truthy_str (s : string) : bool := negb (String.eqb s "").

Definition truthy_opt_str (o : option string) : bool :=
  match o with Some s => truthy_str s | None => false end.

Definition truthy_opt_dict {V : Type} (o : option (Dict V)) : bool :=
  match o with Some (_ :: _) => true | _ => false end.

(** [str.lower()].  Python lowers a string by the case tables of Unicode,
    which are not reproduced here: the function is taken as it is given,
    and what is proved of the code that calls it holds for every such
    function. *)
Class Unicode : Type := { str_lower : string -> string }.

(** The lowering of the ASCII letters alone.  It is what [str.lower()]
    does on a string that holds no other cased letter; the examples use
    it on such strings. *)
Definition lower_ascii (c : Ascii.ascii) : Ascii.ascii :=
  let n := Ascii.nat_of_ascii c in
  if (Nat.leb 65 n && Nat.leb n 90)%bool then Ascii.ascii_of_nat (n + 32)
  else c.

Fixpoint ascii_lower (s : string) : string :=
  match s with
  | EmptyString => EmptyString
  | String c s' => String (lower_ascii c) (ascii_lower s')
  end.

(** [str in list_of_str]. *)
Definition str_in (s : string) (l : list string) : bool :=
  existsb (String.eqb s) l.

(** [l.sort(key=key, reverse=True)]: descending by key, and stable (equal
    keys keep their original relative order, also under [reverse]). *)
Section Sort.
Variable A : Type.
Variable key : A -> Q.

Fixpoint insert_desc (x : A) (l : list A) : list A :=
  match l with
  | [] => [x]
  | y :: l' =>
      if Qle_bool (key y) (key x) then x :: y :: l'
      else y :: insert_desc x l'
  end.

Definition sort_desc (l : list A) : list A :=
  fold_right insert_desc [] l.

(** The order of a sorted output: [x] may stand before [y]. *)
Definition desc (x y : A) : Prop := (key y <= key x)%Q.
End Sort.

End Py.

(** What a call draws from its surroundings: the clock and a fresh uuid. *)
Record Env : Type := mkEnv { now : Z; uuid : string }.

(** ** [models/coordination_session.py] *)

Module Sess.

Inductive CoordinationPhase : Type :=
| INITIALIZATION
| PARTICIPANT_COLLECTION
| SCHEDULE_COORDINATION
| VENUE_COORDINATION
| CALENDAR_INTEGRATION
| FINAL_CONFIRMATION
| ANNOUNCEMENT
| COMPLETED.

Definition phase_value (p : CoordinationPhase) : string :=
  match p with
  | INITIALIZATION => "initialization"
  | PARTICIPANT_COLLECTION => "participant_collection"
  | SCHEDULE_COORDINATION => "schedule_coordination"
  | VENUE_COORDINATION => "venue_coordination"
  | CALENDAR_INTEGRATION => "calendar_integration"
  | FINAL_CONFIRMATION => "final_confirmation"
  | ANNOUNCEMENT => "announcement"
  | COMPLETED => "completed"
  end.

Definition phase_eqb (p q : CoordinationPhase) : bool :=
  match p, q with
  | INITIALIZATION, INITIALIZATION
  | PARTICIPANT_COLLECTION, PARTICIPANT_COLLECTION
  | SCHEDULE_COORDINATION, SCHEDULE_COORDINATION
  | VENUE_COORDINATION, VENUE_COORDINATION
  | CALENDAR_INTEGRATION, CALENDAR_INTEGRATION
  | FINAL_CONFIRMATION, FINAL_CONFIRMATION
  | ANNOUNCEMENT, ANNOUNCEMENT
  | COMPLETED, COMPLETED => true
  | _, _ => false
  end.

Inductive AgentStatus : Type :=
| IDLE | ACTIVE | WAITING | DONE | ERROR | TIMEOUT.
(** [DONE] is [AgentStatus.COMPLETED]; the name [COMPLETED] is the phase. *)

Definition status_eqb (a b : AgentStatus) : bool :=
  match a, b with
  | IDLE, IDLE | ACTIVE, ACTIVE | WAITING, WAITING
  | DONE, DONE | ERROR, ERROR | TIMEOUT, TIMEOUT => true
  | _, _ => false
  end.

Record ErrorEntry : Type := mkErrorEntry {
  err_timestamp : Z;
  err_agent_name : string;
  error_type : string;
  error_message : string;
  stack_trace : option string;
  context_data : Py.Dict Py.Any;
  recovery_action : option string;
  resolved : bool
}.

Record AgentInstance : Type := mkAgentInstance {
  agent_name : string;
  agent_id : string;
  status : AgentStatus;
  started_at : option Z;
  completed_at : option Z;
  last_heartbeat : option Z;
  current_task : option string;
  progress_percentage : Z;
  result_data : Py.Dict Py.Any;
  error_count : Z
}.

(** The value of one entry of [WorkflowCheckpoint.agent_states]. *)
Record AgentState : Type := mkAgentState {
  st_status : AgentStatus;
  st_progress : Z;
  st_current_task : option string
}.

Record WorkflowCheckpoint : Type := mkCheckpoint {
  checkpoint_id : string;
  phase : CoordinationPhase;
  cp_timestamp : Z;
  data_snapshot : Py.Dict Py.Any;
  agent_states : Py.Dict AgentState;
  decision_points : list string
}.

(** The fields of a session that no method of the class assigns. *)
Record SessionSettings : Type := mkSettings {
  session_id : string;
  event_id : string;
  intermediate_confirmations : Py.Dict bool;
  automation_level : string;
  timeout_settings : Py.Dict Z;
  conversation_context : Py.Dict Py.Any;
  thread_ts : string;
  last_user_interaction : option Z;
  shared_state : Py.Dict Py.Any;
  total_processing_time : Z;
  created_at : Z;
  expires_at : option Z
}.

Record CoordinationSession : Type := mkSession {
  settings : SessionSettings;
  current_phase : CoordinationPhase;
  previous_phase : option CoordinationPhase;
  active_agents : list AgentInstance;
  completed_agents : list string;
  workflow_data : Py.Dict Py.Any;
  error_log : list ErrorEntry;
  activity_log : list (Z * string);
  last_activity : Z;
  checkpoints : list WorkflowCheckpoint;
  updated_at : Z;
  is_paused : bool;
  pause_reason : option string
}.

(** Field assignments. *)

Definition set_phases (cur : CoordinationPhase)
    (prev : option CoordinationPhase) (s : CoordinationSession) : CoordinationSession :=
  mkSession s.(settings) cur prev s.(active_agents) s.(completed_agents)
    s.(workflow_data) s.(error_log) s.(activity_log) s.(last_activity)
    s.(checkpoints) s.(updated_at) s.(is_paused) s.(pause_reason).

Definition set_active_agents (l : list AgentInstance)
    (s : CoordinationSession) : CoordinationSession :=
  mkSession s.(settings) s.(current_phase) s.(previous_phase) l
    s.(completed_agents) s.(workflow_data) s.(error_log) s.(activity_log)
    s.(last_activity) s.(checkpoints) s.(updated_at) s.(is_paused)
    s.(pause_reason).

Definition set_completed_agents (l : list string)
    (s : CoordinationSession) : CoordinationSession :=
  mkSession s.(settings) s.(current_phase) s.(previous_phase)
    s.(active_agents) l s.(workflow_data) s.(error_log) s.(activity_log)
    s.(last_activity) s.(checkpoints) s.(updated_at) s.(is_paused)
    s.(pause_reason).

Definition set_error_log (l : list ErrorEntry)
    (s : CoordinationSession) : CoordinationSession :=
  mkSession s.(settings) s.(current_phase) s.(previous_phase)
    s.(active_agents) s.(completed_agents) s.(workflow_data) l
    s.(activity_log) s.(last_activity) s.(checkpoints) s.(updated_at)
    s.(is_paused) s.(pause_reason).

Definition set_activity_log (l : list (Z * string))
    (s : CoordinationSession) : CoordinationSession :=
  mkSession s.(settings) s.(current_phase) s.(previous_phase)
    s.(active_agents) s.(completed_agents) s.(workflow_data) s.(error_log)
    l s.(last_activity) s.(checkpoints) s.(updated_at) s.(is_paused)
    s.(pause_reason).

Definition set_checkpoints (l : list WorkflowCheckpoint)
    (s : CoordinationSession) : CoordinationSession :=
  mkSession s.(settings) s.(current_phase) s.(previous_phase)
    s.(active_agents) s.(completed_agents) s.(workflow_data) s.(error_log)
    s.(activity_log) s.(last_activity) l s.(updated_at) s.(is_paused)
    s.(pause_reason).

Definition set_pause (b : bool) (r : option string)
    (s : CoordinationSession) : CoordinationSession :=
  mkSession s.(settings) s.(current_phase) s.(previous_phase)
    s.(active_agents) s.(completed_agents) s.(workflow_data) s.(error_log)
    s.(activity_log) s.(last_activity) s.(checkpoints) s.(updated_at) b r.

(** [update_timestamp] *)
Definition update_timestamp (e : Env) (s : CoordinationSession)
    : CoordinationSession :=
  mkSession s.(settings) s.(current_phase) s.(previous_phase)
    s.(active_agents) s.(completed_agents) s.(workflow_data) s.(error_log)
    s.(activity_log) e.(now) s.(checkpoints) e.(now) s.(is_paused)
    s.(pause_reason).

(** [l[-n:]] for a positive [n]. *)
Definition last_n {A : Type} (n : nat) (l : list A) : list A :=
  skipn (List.length l - n) l.

(** [log_activity]: the entry keeps the clock reading next to the text
    (the source formats it as [%H:%M:%S]); the log is cut to its last
    1000 entries. *)
Definition log_activity (e : Env) (message : string)
    (s : CoordinationSession) : CoordinationSession :=
  let l := s.(activity_log) ++ [(e.(now), message)] in
  set_activity_log
    (if Nat.ltb 1000 (List.length l) then last_n 1000 l else l) s.

(** The legal-transition table of [transition_to_phase]. *)
Definition valid_transitions (p : CoordinationPhase)
    : list CoordinationPhase :=
  match p with
  | INITIALIZATION => [PARTICIPANT_COLLECTION]
  | PARTICIPANT_COLLECTION => [SCHEDULE_COORDINATION]
  | SCHEDULE_COORDINATION => [VENUE_COORDINATION; CALENDAR_INTEGRATION]
  | VENUE_COORDINATION => [CALENDAR_INTEGRATION]
  | CALENDAR_INTEGRATION => [FINAL_CONFIRMATION]
  | FINAL_CONFIRMATION => [ANNOUNCEMENT]
  | ANNOUNCEMENT => [COMPLETED]
  | COMPLETED => []
  end.

Definition phase_in (p : CoordinationPhase) (l : list CoordinationPhase)
    : bool :=
  existsb (phase_eqb p) l.

(** The value [create_checkpoint] stores for one instance. *)
Definition state_of (a : AgentInstance) : AgentState :=
  mkAgentState a.(status) a.(progress_percentage) a.(current_task).

(** The dict comprehension of [create_checkpoint]: one entry per agent
    name, a later instance of a name overwriting an earlier one. *)
Definition snapshot_agents (l : list AgentInstance) : Py.Dict AgentState :=
  fold_left (fun d a => Py.dict_set a.(agent_name) (state_of a) d) l [].

(** The last instance of a name in the list of tracked instances. *)
Fixpoint last_named (name : string) (l : list AgentInstance)
    : option AgentInstance :=
  match l with
  | [] => None
  | a :: l' =>
      match last_named name l' with
      | Some b => Some b
      | None => if String.eqb name a.(agent_name) then Some a else None
      end
  end.

(** [create_checkpoint] *)
Definition create_checkpoint (e : Env) (description : string)
    (s : CoordinationSession) : CoordinationSession :=
  let checkpoint :=
    mkCheckpoint e.(uuid) s.(current_phase) e.(now) s.(workflow_data)
      (snapshot_agents s.(active_agents)) [description] in
  log_activity e ("チェックポイント作成: " +++ description)
    (set_checkpoints (s.(checkpoints) ++ [checkpoint]) s).

Definition option_phase_value (o : option CoordinationPhase) : string :=
  match o with Some p => phase_value p | None => "None" end.

(** [transition_to_phase] *)
Definition transition_to_phase (e : Env) (new_phase : CoordinationPhase)
    (s : CoordinationSession) : bool * CoordinationSession :=
  if phase_in new_phase (valid_transitions s.(current_phase)) then
    let s1 := set_phases new_phase (Some s.(current_phase)) s in
    let s2 :=
      create_checkpoint e
        ("フェーズ遷移: " +++ option_phase_value s1.(previous_phase)
           +++ " → " +++ phase_value new_phase) s1 in
    (true, update_timestamp e s2)
  else (false, s).

(** [add_agent]: returns the new instance's id. *)
Definition add_agent (e : Env) (name : string) (s : CoordinationSession)
    : string * CoordinationSession :=
  let agent := mkAgentInstance name e.(uuid) IDLE None None None None 0 [] 0 in
  let s1 := set_active_agents (s.(active_agents) ++ [agent]) s in
  let s2 :=
    log_activity e
      ("エージェント追加: " +++ name +++ " (ID: " +++ e.(uuid) +++ ")") s1 in
  (e.(uuid), update_timestamp e s2).

(** The loops of the agent methods visit the list in order and return at
    the first instance that passes the test, after updating it in place. *)
Fixpoint update_first (test : AgentInstance -> bool)
    (f : AgentInstance -> AgentInstance) (l : list AgentInstance)
    : option (list AgentInstance) :=
  match l with
  | [] => None
  | a :: l' =>
      if test a then Some (f a :: l')
      else match update_first test f l' with
           | Some l'' => Some (a :: l'')
           | None => None
           end
  end.

Definition named (name : string) (st : AgentStatus) (a : AgentInstance)
    : bool :=
  String.eqb a.(agent_name) name && status_eqb a.(status) st.

Definition or_task (task : option string) (old : option string)
    : option string :=
  if Py.truthy_opt_str task then task else old.

(** [start_agent] *)
Definition start_agent (e : Env) (name : string) (task : option string)
    (s : CoordinationSession) : bool * CoordinationSession :=
  let started a :=
    mkAgentInstance a.(agent_name) a.(agent_id) ACTIVE (Some e.(now))
      a.(completed_at) (Some e.(now)) (or_task task a.(current_task))
      a.(progress_percentage) a.(result_data) a.(error_count) in
  match update_first (named name IDLE) started s.(active_agents) with
  | Some l =>
      let s1 := set_active_agents l s in
      let label :=
        match task with
        | Some t => if Py.truthy_str t then t else "一般タスク"
        | None => "一般タスク"
        end in
      let s2 := log_activity e ("エージェント開始: " +++ name +++ " - " +++ label) s1 in
      (true, update_timestamp e s2)
  | None => (false, s)
  end.

(** [complete_agent] *)
Definition complete_agent (e : Env) (name : string)
    (result : option (Py.Dict Py.Any)) (s : CoordinationSession)
    : bool * CoordinationSession :=
  let completed a :=
    mkAgentInstance a.(agent_name) a.(agent_id) DONE a.(started_at)
      (Some e.(now)) a.(last_heartbeat) a.(current_task) 100
      (match result with
       | Some (x :: r) => x :: r
       | _ => a.(result_data)
       end)
      a.(error_count) in
  match update_first (named name ACTIVE) completed s.(active_agents) with
  | Some l =>
      let s1 := set_active_agents l s in
      let s2 := set_completed_agents (s1.(completed_agents) ++ [name]) s1 in
      let s3 := log_activity e ("エージェント完了: " +++ name) s2 in
      (true, update_timestamp e s3)
  | None => (false, s)
  end.

(** [log_error] *)
Definition log_error (e : Env) (name type_ message : string)
    (context : option (Py.Dict Py.Any)) (trace : option string)
    (s : CoordinationSession) : CoordinationSession :=
  let entry :=
    mkErrorEntry e.(now) name type_ message trace
      (match context with Some c => c | None => [] end) None false in
  let s1 := set_error_log (s.(error_log) ++ [entry]) s in
  let s2 :=
    log_activity e
      ("エラー発生: " +++ name +++ " - " +++ type_ +++ ": " +++ message) s1 in
  update_timestamp e s2.

(** [fail_agent] *)
Definition fail_agent (e : Env) (name : string) (message : string)
    (s : CoordinationSession) : bool * CoordinationSession :=
  let failed a :=
    mkAgentInstance a.(agent_name) a.(agent_id) ERROR a.(started_at)
      a.(completed_at) a.(last_heartbeat) a.(current_task)
      a.(progress_percentage) a.(result_data) (a.(error_count) + 1) in
  match update_first (fun a => String.eqb a.(agent_name) name) failed
          s.(active_agents) with
  | Some l =>
      let s1 := set_active_agents l s in
      let s2 := log_error e name "AgentError" message None None s1 in
      (true, update_timestamp e s2)
  | None => (false, s)
  end.

(** [update_agent_progress] *)
Definition update_agent_progress (e : Env) (name : string) (progress : Z)
    (task : option string) (s : CoordinationSession)
    : bool * CoordinationSession :=
  let updated a :=
    mkAgentInstance a.(agent_name) a.(agent_id) a.(status) a.(started_at)
      a.(completed_at) (Some e.(now)) (or_task task a.(current_task))
      progress a.(result_data) a.(error_count) in
  match update_first (named name ACTIVE) updated s.(active_agents) with
  | Some l => (true, update_timestamp e (set_active_agents l s))
  | None => (false, s)
  end.

(** [pause_session] and [resume_session] *)
Definition pause_session (e : Env) (reason : string)
    (s : CoordinationSession) : CoordinationSession :=
  update_timestamp e
    (log_activity e ("セッション一時停止: " +++ reason)
       (set_pause true (Some reason) s)).

Definition resume_session (e : Env) (s : CoordinationSession)
    : CoordinationSession :=
  update_timestamp e
    (log_activity e "セッション再開" (set_pause false None s)).

(** The calls a holder of the session can make on it: the mutating
    methods of the class. *)
Inductive Op : Type :=
| OpUpdateTimestamp
| OpTransition (target : CoordinationPhase)
| OpAddAgent (name : string)
| OpStartAgent (name : string) (task : option string)
| OpCompleteAgent (name : string) (result : option (Py.Dict Py.Any))
| OpFailAgent (name message : string)
| OpUpdateProgress (name : string) (progress : Z) (task : option string)
| OpLogError (name type_ message : string)
    (context : option (Py.Dict Py.Any)) (trace : option string)
| OpLogActivity (message : string)
| OpCreateCheckpoint (description : string)
| OpPause (reason : string)
| OpResume.

Definition apply_op (eo : Env * Op) (s : CoordinationSession)
    : CoordinationSession :=
  let (e, o) := eo in
  match o with
  | OpUpdateTimestamp => update_timestamp e s
  | OpTransition p => snd (transition_to_phase e p s)
  | OpAddAgent n => snd (add_agent e n s)
  | OpStartAgent n t => snd (start_agent e n t s)
  | OpCompleteAgent n r => snd (complete_agent e n r s)
  | OpFailAgent n m => snd (fail_agent e n m s)
  | OpUpdateProgress n p t => snd (update_agent_progress e n p t s)
  | OpLogError n t m c tr => log_error e n t m c tr s
  | OpLogActivity m => log_activity e m s
  | OpCreateCheckpoint d => create_checkpoint e d s
  | OpPause r => pause_session e r s
  | OpResume => resume_session e s
  end.

(** A sequence of calls, each with the environment it runs in. *)
Definition run (ops : list (Env * Op)) (s : CoordinationSession)
    : CoordinationSession :=
  fold_left (fun s eo => apply_op eo s) ops s.

(** A session as [CoordinationSession(event_id=..., thread_ts=...)]
    builds it. *)
Definition new_session (e : Env) (event thread : string)
    : CoordinationSession :=
  mkSession
    (mkSettings e.(uuid) event [] "semi_auto" [] [] thread None [] 0
       e.(now) None)
    INITIALIZATION None [] [] [] [] [] e.(now) [] e.(now) false None.

End Sess.

(** ** [agents/base_agent.py] *)

Module Base.

Inductive AgentStatus : Type :=
| INITIALIZING | IDLE | ACTIVE | WAITING | COMPLETED | ERROR | TIMEOUT | PAUSED.

Inductive MessageType : Type :=
| COMMAND | QUERY | RESPONSE | EVENT | STATUS_UPDATE | ERROR_REPORT | HEARTBEAT.

Definition message_type_eqb (a b : MessageType) : bool :=
  match a, b with
  | COMMAND, COMMAND | QUERY, QUERY | RESPONSE, RESPONSE | EVENT, EVENT
  | STATUS_UPDATE, STATUS_UPDATE | ERROR_REPORT, ERROR_REPORT
  | HEARTBEAT, HEARTBEAT => true
  | _, _ => false
  end.

Inductive MessagePriority : Type := LOW | NORMAL | HIGH | URGENT.

Record AgentMessage : Type := mkMessage {
  message_id : string;
  sender_id : string;
  recipient_id : option string;
  message_type : MessageType;
  priority : MessagePriority;
  subject : string;
  payload : Py.Dict Py.Any;
  correlation_id : option string;
  timestamp : Z;
  expires_at : option Z;
  retry_count : Z;
  event_id : option string;
  session_id : option string;
  user_context : Py.Dict Py.Any
}.

(** [AgentMessage.is_expired]:
    [expires_at is not None and utcnow() > expires_at]. *)
Definition is_expired (e : Env) (m : AgentMessage) : bool :=
  match m.(expires_at) with
  | Some t => Z.ltb t e.(now)
  | None => false
  end.

(** [AgentMessage(sender_id=..., message_type=..., subject=..., payload=...)]
    with the defaults of the other fields; [recipient_id] is given where the
    source gives it. *)
Definition new_message (e : Env) (sender : string) (recipient : option string)
    (type_ : MessageType) (subject_ : string) (payload_ : Py.Dict Py.Any)
    : AgentMessage :=
  mkMessage e.(uuid) sender recipient type_ NORMAL subject_ payload_ None
    e.(now) None 0 None None [].

Definition set_sender_id (v : string) (m : AgentMessage) : AgentMessage :=
  mkMessage m.(message_id) v m.(recipient_id) m.(message_type) m.(priority)
    m.(subject) m.(payload) m.(correlation_id) m.(timestamp) m.(expires_at)
    m.(retry_count) m.(event_id) m.(session_id) m.(user_context).

Definition set_event_id (v : option string) (m : AgentMessage) : AgentMessage :=
  mkMessage m.(message_id) m.(sender_id) m.(recipient_id) m.(message_type)
    m.(priority) m.(subject) m.(payload) m.(correlation_id) m.(timestamp)
    m.(expires_at) m.(retry_count) v m.(session_id) m.(user_context).

Definition set_session_id (v : option string) (m : AgentMessage)
    : AgentMessage :=
  mkMessage m.(message_id) m.(sender_id) m.(recipient_id) m.(message_type)
    m.(priority) m.(subject) m.(payload) m.(correlation_id) m.(timestamp)
    m.(expires_at) m.(retry_count) m.(event_id) v m.(user_context).

Record AgentMetrics : Type := mkMetrics {
  metrics_agent_id : string;
  messages_sent : Z;
  messages_received : Z;
  errors_count : Z;
  total_processing_time_ms : Z;
  last_activity : option Z;
  uptime_seconds : Z
}.

Definition record_message_sent (e : Env) (m : AgentMetrics) : AgentMetrics :=
  mkMetrics m.(metrics_agent_id) (m.(messages_sent) + 1) m.(messages_received)
    m.(errors_count) m.(total_processing_time_ms) (Some e.(now))
    m.(uptime_seconds).

Definition record_message_received (e : Env) (m : AgentMetrics)
    : AgentMetrics :=
  mkMetrics m.(metrics_agent_id) m.(messages_sent) (m.(messages_received) + 1)
    m.(errors_count) m.(total_processing_time_ms) (Some e.(now))
    m.(uptime_seconds).

Definition record_error (e : Env) (m : AgentMetrics) : AgentMetrics :=
  mkMetrics m.(metrics_agent_id) m.(messages_sent) m.(messages_received)
    (m.(errors_count) + 1) m.(total_processing_time_ms) (Some e.(now))
    m.(uptime_seconds).

Definition record_processing_time (e : Env) (duration_ms : Z) (m : AgentMetrics)
    : AgentMetrics :=
  mkMetrics m.(metrics_agent_id) m.(messages_sent) m.(messages_received)
    m.(errors_count) (m.(total_processing_time_ms) + duration_ms)
    (Some e.(now)) m.(uptime_seconds).

(** A raised exception: its type name and its text. *)
Record Exn : Type := mkExn { exn_type : string; exn_text : string }.

(** What awaiting a registered handler yields: a response (or [None]) after
    some milliseconds, or an exception.  Handlers are supplied by the
    subclasses; the substrate only sees this outcome. *)
Inductive HandlerResult : Type :=
| Returns (response : option AgentMessage) (elapsed_ms : Z)
| Raises (ex : Exn).

Definition Handler : Type := AgentMessage -> HandlerResult.

(** An error callback either returns ([true]) or raises ([false]). *)
Definition ErrorHandler : Type := Exn -> bool.

(** The attached message bus, seen through what was published on it.
    [publish] is the external bus: it is taken to return normally. *)
Record Bus : Type := mkBus { published : list AgentMessage }.

Record BaseAgent : Type := mkAgent {
  agent_id : string;
  name : string;
  description : string;
  agent_event_id : option string;
  agent_session_id : option string;
  status : AgentStatus;
  created_at : Z;
  last_heartbeat : Z;
  metrics : AgentMetrics;
  message_handlers : list (MessageType * Handler);
  error_handlers : list ErrorHandler;
  pending_messages : list AgentMessage;
  message_bus : option Bus
}.

(** [BaseAgent.__init__] *)
Definition new_agent (e : Env) (id name_ description_ : string)
    (event session : option string) : BaseAgent :=
  mkAgent id name_ description_ event session INITIALIZING e.(now) e.(now)
    (mkMetrics id 0 0 0 0 None 0) [] [] [] None.

(** What a call of the substrate does to the outside, in order. *)
Inductive Effect : Type :=
| HandlerCalled (type_ : MessageType) (m : AgentMessage)
| ErrorHandlerCalled (position : nat) (ex : Exn)
| Published (m : AgentMessage).

Definition set_metrics (v : AgentMetrics) (a : BaseAgent) : BaseAgent :=
  mkAgent a.(agent_id) a.(name) a.(description) a.(agent_event_id)
    a.(agent_session_id) a.(status) a.(created_at) a.(last_heartbeat) v
    a.(message_handlers) a.(error_handlers) a.(pending_messages)
    a.(message_bus).

Definition set_pending_messages (v : list AgentMessage) (a : BaseAgent)
    : BaseAgent :=
  mkAgent a.(agent_id) a.(name) a.(description) a.(agent_event_id)
    a.(agent_session_id) a.(status) a.(created_at) a.(last_heartbeat)
    a.(metrics) a.(message_handlers) a.(error_handlers) v a.(message_bus).

Definition set_message_bus (v : option Bus) (a : BaseAgent) : BaseAgent :=
  mkAgent a.(agent_id) a.(name) a.(description) a.(agent_event_id)
    a.(agent_session_id) a.(status) a.(created_at) a.(last_heartbeat)
    a.(metrics) a.(message_handlers) a.(error_handlers) a.(pending_messages)
    v.

Definition set_message_handlers (v : list (MessageType * Handler))
    (a : BaseAgent) : BaseAgent :=
  mkAgent a.(agent_id) a.(name) a.(description) a.(agent_event_id)
    a.(agent_session_id) a.(status) a.(created_at) a.(last_heartbeat)
    a.(metrics) v a.(error_handlers) a.(pending_messages) a.(message_bus).


(** [self.message_handlers.get(message_type)] *)
Fixpoint handler_get (t : MessageType) (d : list (MessageType * Handler))
    : option Handler :=
  match d with
  | [] => None
  | (t', h) :: d' => if message_type_eqb t t' then Some h else handler_get t d'
  end.

(** [self.message_handlers[message_type] = handler]: the last registration
    of a type replaces the earlier one. *)
Fixpoint handler_set (t : MessageType) (h : Handler)
    (d : list (MessageType * Handler)) : list (MessageType * Handler) :=
  match d with
  | [] => [(t, h)]
  | (t', h') :: d' =>
      if message_type_eqb t t' then (t', h) :: d'
      else (t', h') :: handler_set t h d'
  end.

Definition register_handler (t : MessageType) (h : Handler) (a : BaseAgent)
    : BaseAgent :=
  set_message_handlers (handler_set t h a.(message_handlers)) a.


(** The three assignments at the head of [send_message]: the sender is
    always overwritten; the event and session ids are filled in when the
    message has none and the agent has one. *)
Definition stamp (a : BaseAgent) (m : AgentMessage) : AgentMessage :=
  let m1 := set_sender_id a.(agent_id) m in
  let m2 :=
    if negb (Py.truthy_opt_str m1.(event_id))
       && Py.truthy_opt_str a.(agent_event_id)
    then set_event_id a.(agent_event_id) m1 else m1 in
  if negb (Py.truthy_opt_str m2.(session_id))
     && Py.truthy_opt_str a.(agent_session_id)
  then set_session_id a.(agent_session_id) m2 else m2.

(** [send_message]: the message object is updated in place, so the stamped
    message is what the caller holds afterwards; it is returned next to the
    agent and the effects. *)
Definition send_message (e : Env) (m : AgentMessage) (a : BaseAgent)
    : BaseAgent * AgentMessage * list Effect :=
  let m' := stamp a m in
  match a.(message_bus) with
  | Some bus =>
      let a1 := set_message_bus (Some (mkBus (bus.(published) ++ [m']))) a in
      (set_metrics (record_message_sent e a1.(metrics)) a1, m', [Published m'])
  | None =>
      let a1 := set_pending_messages (a.(pending_messages) ++ [m']) a in
      (set_metrics (record_message_sent e a1.(metrics)) a1, m', [])
  end.

(** [set_message_bus]: the pending messages stay where they are. *)
Definition attach_message_bus (bus : Bus) (a : BaseAgent) : BaseAgent :=
  set_message_bus (Some bus) a.

(** [report_error] *)
Definition report_error (e : Env) (ex : Exn) (a : BaseAgent)
    : BaseAgent * list Effect :=
  let error_message :=
    new_message e a.(agent_id) None ERROR_REPORT
      ("エラー報告: " +++ ex.(exn_type))
      [("error_type", Py.AStr ex.(exn_type));
       ("error_message", Py.AStr ex.(exn_text));
       ("context", Py.ADict []);
       ("timestamp", Py.AInt e.(now))] in
  let '(a1, _, fx) := send_message e error_message a in
  (set_metrics (record_error e a1.(metrics)) a1, fx).

(** The loop of [_handle_error] over the error callbacks: it stops at the
    first callback that raises, and tells whether all returned. *)
Fixpoint run_error_handlers (position : nat) (ex : Exn)
    (hs : list ErrorHandler) : bool * list Effect :=
  match hs with
  | [] => (true, [])
  | h :: hs' =>
      if h ex then
        let (ok, fx) := run_error_handlers (S position) ex hs' in
        (ok, ErrorHandlerCalled position ex :: fx)
      else (false, [ErrorHandlerCalled position ex])
  end.

(** [_handle_error]: the callbacks, then the report; an exception of a
    callback is swallowed and skips the report. *)
Definition handle_error (e : Env) (ex : Exn) (a : BaseAgent)
    : BaseAgent * list Effect :=
  let (ok, fx) := run_error_handlers 0 ex a.(error_handlers) in
  if ok then
    let (a1, fx') := report_error e ex a in (a1, fx ++ fx')
  else (a, fx).

(** [handle_message] *)
Definition handle_message (e : Env) (m : AgentMessage) (a : BaseAgent)
    : BaseAgent * option AgentMessage * list Effect :=
  if is_expired e m then (a, None, [])
  else
    let a1 := set_metrics (record_message_received e a.(metrics)) a in
    match handler_get m.(message_type) a1.(message_handlers) with
    | Some handler =>
        match handler m with
        | Returns response elapsed_ms =>
            (set_metrics (record_processing_time e elapsed_ms a1.(metrics)) a1,
             response, [HandlerCalled m.(message_type) m])
        | Raises ex =>
            let (a2, fx) := handle_error e ex a1 in
            (a2, None, HandlerCalled m.(message_type) m :: fx)
        end
    | None => (a1, None, [])
    end.

End Base.

(** ** [agents/coordination_agent.py] *)

Module Coord.

(** The coordination agent after [initialize]: its session is loaded.
    [managed_agents] maps a name to the [AgentInstance] object that
    [_handle_agent_registration] also appended to the session's
    [active_agents]; the two containers share the object.  The shared
    object is addressed here by its position in [active_agents], a list
    that is only ever appended to.  [persisted] counts the calls of
    [session_repository.update], the external document store. *)
Record CoordinationAgent : Type := mkCoord {
  base : Base.BaseAgent;
  event_id : string;
  session_id : string;
  coordination_session : Sess.CoordinationSession;
  managed_agents : Py.Dict nat;
  persisted : nat
}.

(** [self.agent_dependencies.get(agent_name, [])] *)
Definition agent_dependencies (agent_name : string) : list string :=
  if String.eqb agent_name "participant_agent" then []
  else if String.eqb agent_name "scheduling_agent" then ["participant_agent"]
  else if String.eqb agent_name "venue_agent" then ["scheduling_agent"]
  else if String.eqb agent_name "calendar_agent"
       then ["scheduling_agent"; "venue_agent"]
  else [].

(** [self.phase_transitions] *)
Definition phase_transitions (p : Sess.CoordinationPhase)
    : option Sess.CoordinationPhase :=
  match p with
  | Sess.INITIALIZATION => Some Sess.PARTICIPANT_COLLECTION
  | Sess.PARTICIPANT_COLLECTION => Some Sess.SCHEDULE_COORDINATION
  | Sess.SCHEDULE_COORDINATION => Some Sess.VENUE_COORDINATION
  | Sess.VENUE_COORDINATION => Some Sess.CALENDAR_INTEGRATION
  | Sess.CALENDAR_INTEGRATION => Some Sess.FINAL_CONFIRMATION
  | Sess.FINAL_CONFIRMATION => Some Sess.ANNOUNCEMENT
  | Sess.ANNOUNCEMENT => Some Sess.COMPLETED
  | Sess.COMPLETED => None
  end.

(** [CoordinationAgent(event_id, session_id)] followed by [initialize] on
    an empty repository; [thread] is the provisional [thread_ts] that
    [_initialize_impl] formats from the clock. *)
Definition new_coordination_agent (e : Env) (event session thread : string)
    : CoordinationAgent :=
  mkCoord
    (Base.new_agent e ("coordination_agent_" +++ event) "調整エージェント"
       "イベント調整ワークフローの全体調整とエージェント間協調を管理"
       (Some event) (Some session))
    event session
    (Sess.new_session (mkEnv e.(now) session) event thread)
    [] 1.

Definition set_session (s : Sess.CoordinationSession) (c : CoordinationAgent)
    : CoordinationAgent :=
  mkCoord c.(base) c.(event_id) c.(session_id) s c.(managed_agents)
    c.(persisted).

Definition set_base (b : Base.BaseAgent) (c : CoordinationAgent)
    : CoordinationAgent :=
  mkCoord b c.(event_id) c.(session_id) c.(coordination_session)
    c.(managed_agents) c.(persisted).

Definition set_managed_agents (d : Py.Dict nat) (c : CoordinationAgent)
    : CoordinationAgent :=
  mkCoord c.(base) c.(event_id) c.(session_id) c.(coordination_session) d
    c.(persisted).

(** [await self.session_repository.update(self.coordination_session)] *)
Definition persist (c : CoordinationAgent) : CoordinationAgent :=
  mkCoord c.(base) c.(event_id) c.(session_id) c.(coordination_session)
    c.(managed_agents) (S c.(persisted)).

(** [self.managed_agents[name]], the shared object; [None] when the name is
    not a key. *)
Definition managed (c : CoordinationAgent) (agent_name : string)
    : option Sess.AgentInstance :=
  match Py.dict_get agent_name c.(managed_agents) with
  | Some i => nth_error c.(coordination_session).(Sess.active_agents) i
  | None => None
  end.

(** An assignment to a field of the object at a position of the list. *)
Fixpoint update_at (i : nat) (f : Sess.AgentInstance -> Sess.AgentInstance)
    (l : list Sess.AgentInstance) : list Sess.AgentInstance :=
  match l, i with
  | [], _ => []
  | a :: l', O => f a :: l'
  | a :: l', S i' => a :: update_at i' f l'
  end.

Definition set_status (st : Sess.AgentStatus) (a : Sess.AgentInstance)
    : Sess.AgentInstance :=
  Sess.mkAgentInstance a.(Sess.agent_name) a.(Sess.agent_id) st
    a.(Sess.started_at) a.(Sess.completed_at) a.(Sess.last_heartbeat)
    a.(Sess.current_task) a.(Sess.progress_percentage) a.(Sess.result_data)
    a.(Sess.error_count).

(** [_handle_agent_registration]: a new Idle instance is appended to the
    session and bound to the name; the answer carries its id. *)
Definition handle_agent_registration (e : Env) (agent_name : string)
    (c : CoordinationAgent) : string * CoordinationAgent :=
  let s := c.(coordination_session) in
  let agent_instance :=
    Sess.mkAgentInstance agent_name e.(uuid) Sess.IDLE None None None None 0
      [] 0 in
  let position := List.length s.(Sess.active_agents) in
  let c1 :=
    set_session
      (Sess.set_active_agents (s.(Sess.active_agents) ++ [agent_instance]) s)
      c in
  let c2 :=
    set_managed_agents (Py.dict_set agent_name position c1.(managed_agents))
      c1 in
  (e.(uuid), persist c2).

(** How the dependency loop of [_start_agent] ends. *)
Inductive DependencyCheck : Type :=
| Satisfied
| Unregistered (dep : string)
| NotCompleted (dep : string).

Fixpoint check_dependencies (c : CoordinationAgent) (deps : list string)
    : DependencyCheck :=
  match deps with
  | [] => Satisfied
  | dep :: rest =>
      match managed c dep with
      | None => Unregistered dep
      | Some dep_agent =>
          if Sess.status_eqb dep_agent.(Sess.status) Sess.DONE
          then check_dependencies c rest
          else NotCompleted dep
      end
  end.

Definition opt_task (task : option string) : Py.Any :=
  match task with Some t => Py.AStr t | None => Py.ANone end.

(** [_start_agent] *)
Definition start_agent (e : Env) (agent_name : string) (task : option string)
    (c : CoordinationAgent) : bool * CoordinationAgent :=
  match Py.dict_get agent_name c.(managed_agents), managed c agent_name with
  | Some position, Some _ =>
      match check_dependencies c (agent_dependencies agent_name) with
      | Unregistered _ => (false, c)
      | NotCompleted _ =>
          let s := c.(coordination_session) in
          let s' :=
            Sess.set_active_agents
              (update_at position (set_status Sess.WAITING)
                 s.(Sess.active_agents)) s in
          (false, persist (set_session s' c))
      | Satisfied =>
          match Sess.start_agent e agent_name task c.(coordination_session) with
          | (true, s') =>
              let c1 := persist (set_session s' c) in
              let start_message :=
                Base.new_message e c1.(base).(Base.agent_id)
                  (Some (agent_name +++ "_" +++ c1.(event_id))) Base.COMMAND
                  ("エージェント開始: " +++ agent_name)
                  [("command", Py.AStr "start");
                   ("task", opt_task task);
                   ("event_id", Py.AStr c1.(event_id));
                   ("session_id", Py.AStr c1.(session_id))] in
              let sent := Base.send_message e start_message c1.(base) in
              (true, set_base (fst (fst sent)) c1)
          | (false, _) => (false, c)
          end
      end
  | _, _ => (false, c)
  end.

(** [_handle_agent_completion], up to the phase check that follows it. *)
Definition handle_agent_completion (e : Env) (agent_name : string)
    (result : option (Py.Dict Py.Any)) (c : CoordinationAgent)
    : bool * CoordinationAgent :=
  if Py.truthy_str agent_name then
    match Sess.complete_agent e agent_name result c.(coordination_session) with
    | (true, s') => (true, persist (set_session s' c))
    | (false, _) => (false, c)
    end
  else (false, c).

(** The status the coordination agent reads for a name. *)
Definition status_of (c : CoordinationAgent) (agent_name : string)
    : option Sess.AgentStatus :=
  option_map Sess.status (managed c agent_name).

End Coord.

(** ** [agents/scheduling_agent.py] *)

Module Sched.

Local Open Scope Q_scope.

(** [models/event.py]: [EventType]. *)
Inductive EventType : Type := DINING | STUDY | MEETING.

(** [models/participant.py]: [TimeSlot]; its validators keep
    [end_time > start_time] and [preference_level] in 1..3. *)
Record TimeSlot : Type := mkTimeSlot {
  start_time : Z;
  end_time : Z;
  preference_level : Z;
  note : option string
}.

(** Calendar arithmetic on microseconds since the epoch. *)
Definition us_per_minute : Z := 60000000%Z.
Definition us_per_hour : Z := 3600000000%Z.
Definition us_per_day : Z := 86400000000%Z.

(** [t.hour] *)
Definition hour_of (t : Z) : Z := ((t / us_per_hour) mod 24)%Z.

(** [t.replace(hour=0, minute=0, second=0, microsecond=0)] *)
Definition midnight (t : Z) : Z := (t - t mod us_per_day)%Z.

(** [t.weekday()]: Monday is 0; the epoch fell on a Thursday. *)
Definition weekday (t : Z) : Z := ((t / us_per_day + 3) mod 7)%Z.

Record EventTypePreferences : Type := mkPreferences {
  preferred_hours : list Z;
  duration_minutes : Z;
  avoid_early_morning : bool;
  avoid_late_night : bool
}.

(** [self.event_type_preferences.get(event_type, ...[EventType.MEETING])] *)
Definition event_type_preferences (t : EventType) : EventTypePreferences :=
  match t with
  | DINING => mkPreferences [12; 13; 18; 19; 20]%Z 90 true true
  | STUDY => mkPreferences [10; 11; 14; 15; 16]%Z 120 false true
  | MEETING => mkPreferences [9; 10; 11; 14; 15; 16]%Z 60 false true
  end.

(** An entry of [conflict_details]: the text names the participant and the
    bounds of the participant's slot. *)
Record ConflictDetail : Type := mkConflict {
  conflict_user : string;
  conflict_start : Z;
  conflict_end : Z
}.

Record TimeSlotAnalysis : Type := mkAnalysis {
  time_slot : TimeSlot;
  participants_available : list string;
  participants_unavailable : list string;
  preference_weights : Py.Dict Q;
  conflict_details : list ConflictDetail
}.

(** [TimeSlotAnalysis.get_availability_score] *)
Definition get_availability_score (a : TimeSlotAnalysis) : Q :=
  let total :=
    (List.length a.(participants_available)
     + List.length a.(participants_unavailable))%nat in
  if Nat.eqb total 0 then 0
  else inject_Z (Z.of_nat (List.length a.(participants_available)))
       / inject_Z (Z.of_nat total).

(** The buckets of [_generate_schedule_reasoning]; each stands for its
    fixed text, the attendance ones followed by the printed rate. *)
Inductive Reason : Type :=
| AttendanceHigh | AttendanceFair | AttendanceLow
| PreferenceHigh | PreferenceMedium | PreferenceLow
| ConflictsFew | ConflictsMinor | ConflictsMany
| FitsEventType (t : EventType).

Definition reason_text (r : Reason) : string :=
  match r with
  | AttendanceHigh => "参加率が高い"
  | AttendanceFair => "参加率が適切"
  | AttendanceLow => "参加率が低い"
  | PreferenceHigh => "参加者の希望度が高い"
  | PreferenceMedium => "参加者の希望度が中程度"
  | PreferenceLow => "参加者の希望度が低い"
  | ConflictsFew => "競合が少ない"
  | ConflictsMinor => "軽微な競合あり"
  | ConflictsMany => "競合が多い"
  | FitsEventType t =>
      match t with
      | DINING => "食事会"
      | STUDY => "勉強会"
      | MEETING => "会議"
      end +++ "に適した時間帯"
  end.

Record ScheduleOption : Type := mkOption {
  option_id : string;
  opt_start_time : Z;
  opt_end_time : Z;
  available_participants : list string;
  unavailable_participants : list string;
  preference_score : Q;
  conflict_score : Q;
  total_score : Q;
  reasoning : list Reason
}.

(** The scheduling agent after [initialize]: the event is loaded and the
    confirmed participants are keyed by their user id, each with its
    [available_time_slots]. *)
Record SchedulingAgent : Type := mkSched {
  base : Base.BaseAgent;
  current_event_type : EventType;
  participants : Py.Dict (list TimeSlot);
  schedule_options : list ScheduleOption;
  selected_schedule : option ScheduleOption
}.

(** [_generate_potential_time_slots]: the days from tomorrow to fourteen
    days ahead, the weekends skipped, one slot per preferred hour. *)
Definition generate_potential_time_slots (e : Env) (t : EventType)
    : list TimeSlot :=
  let event_preferences := event_type_preferences t in
  let start_date := midnight e.(now) in
  flat_map
    (fun day : nat =>
       let current_date := (start_date + Z.of_nat day * us_per_day)%Z in
       if (5 <=? weekday current_date)%Z then []
       else
         map
           (fun hour : Z =>
              let slot_start := (current_date + hour * us_per_hour)%Z in
              let slot_end :=
                (slot_start
                 + event_preferences.(duration_minutes) * us_per_minute)%Z in
              mkTimeSlot slot_start slot_end 2 None)
           event_preferences.(preferred_hours))
    (seq 1 14).

(** [_slots_overlap] *)
Definition slots_overlap (slot1 slot2 : TimeSlot) : bool :=
  negb ((slot1.(end_time) <=? slot2.(start_time))%Z
        || (slot2.(end_time) <=? slot1.(start_time))%Z).

(** [_slot_fully_contains] *)
Definition slot_fully_contains (container contained : TimeSlot) : bool :=
  (container.(start_time) <=? contained.(start_time))%Z
  && (contained.(end_time) <=? container.(end_time))%Z.

(** The state of the inner loop of [_analyze_single_time_slot] over the
    slots of one participant, with the conflict details it has appended. *)
Record UserScan : Type := mkScan {
  is_available : bool;
  max_preference : Z;
  appended : list ConflictDetail
}.

Definition scan_step (candidate : TimeSlot) (user_id : string)
    (st : UserScan) (user_slot : TimeSlot) : UserScan :=
  if slots_overlap candidate user_slot then
    mkScan true
      (Z.max st.(max_preference) user_slot.(preference_level))
      (if negb (slot_fully_contains user_slot candidate)
       then st.(appended)
            ++ [mkConflict user_id user_slot.(start_time) user_slot.(end_time)]
       else st.(appended))
  else st.

Definition scan_user (candidate : TimeSlot) (user_id : string)
    (user_slots : list TimeSlot) : UserScan :=
  fold_left (scan_step candidate user_id) user_slots (mkScan false 0 []).

(** One turn of the outer loop. *)
Definition analyze_step (candidate : TimeSlot) (acc : TimeSlotAnalysis)
    (entry : string * list TimeSlot) : TimeSlotAnalysis :=
  let (user_id, user_slots) := entry in
  let st := scan_user candidate user_id user_slots in
  if st.(is_available) then
    mkAnalysis acc.(time_slot)
      (acc.(participants_available) ++ [user_id])
      acc.(participants_unavailable)
      (Py.dict_set user_id (inject_Z st.(max_preference) / 3)
         acc.(preference_weights))
      (acc.(conflict_details) ++ st.(appended))
  else
    mkAnalysis acc.(time_slot)
      acc.(participants_available)
      (acc.(participants_unavailable) ++ [user_id])
      acc.(preference_weights)
      (acc.(conflict_details) ++ st.(appended)).

(** [_analyze_single_time_slot] *)
Definition analyze_single_time_slot (candidate : TimeSlot)
    (participant_time_slots : Py.Dict (list TimeSlot)) : TimeSlotAnalysis :=
  fold_left (analyze_step candidate) participant_time_slots
    (mkAnalysis candidate [] [] [] []).

(** [_analyze_time_slots] *)
Definition analyze_time_slots (e : Env) (a : SchedulingAgent)
    : list TimeSlotAnalysis :=
  map (fun slot => analyze_single_time_slot slot a.(participants))
    (generate_potential_time_slots e a.(current_event_type)).

(** [sum(values)] *)
Definition py_sum (l : list Q) : Q := fold_left Qplus l 0.

(** [min(x, y)] and [max(x, y)] of two numbers. *)
Definition py_min (x y : Q) : Q := if Qle_bool x y then x else y.
Definition py_max (x y : Q) : Q := if Qle_bool y x then x else y.

(** [_calculate_preference_score] *)
Definition calculate_preference_score (a : TimeSlotAnalysis) : Q :=
  match a.(preference_weights) with
  | [] => 0
  | _ :: _ =>
      let total_weight := py_sum (Py.dict_values a.(preference_weights)) in
      let max_possible :=
        inject_Z (Z.of_nat (List.length a.(preference_weights))) * 1 in
      if Qle_bool max_possible 0 then 0 else total_weight / max_possible
  end.

(** [_calculate_conflict_score] *)
Definition calculate_conflict_score (a : TimeSlotAnalysis) : Q :=
  match a.(conflict_details) with
  | [] => 0
  | _ :: _ =>
      let conflict_count := List.length a.(conflict_details) in
      let total_participants :=
        (List.length a.(participants_available)
         + List.length a.(participants_unavailable))%nat in
      if Nat.eqb total_participants 0 then 1
      else py_min (inject_Z (Z.of_nat conflict_count)
                   / inject_Z (Z.of_nat total_participants)) 1
  end.

(** [x in list_of_int] *)
Definition int_in (x : Z) (l : list Z) : bool := existsb (Z.eqb x) l.

(** [min(generator)] over a non-empty list of integers. *)
Definition min_of (l : list Z) : Z :=
  match l with
  | [] => 0%Z
  | x :: r => fold_left Z.min r x
  end.

(** [_calculate_event_type_fitness] *)
Definition calculate_event_type_fitness (t : EventType) (slot : TimeSlot)
    : Q :=
  let event_preferences := event_type_preferences t in
  let hour := hour_of slot.(start_time) in
  let hours := event_preferences.(preferred_hours) in
  if int_in hour hours then 1
  else
    let min_distance :=
      min_of (map (fun pref_hour => Z.abs (hour - pref_hour)) hours) in
    py_max 0 (1 - inject_Z min_distance / 12).

(** [_generate_schedule_reasoning] *)
Definition generate_schedule_reasoning (t : EventType)
    (preference conflict attendance_rate type_fitness : Q) : list Reason :=
  [ if Qle_bool (8 # 10) attendance_rate then AttendanceHigh
    else if Qle_bool (6 # 10) attendance_rate then AttendanceFair
    else AttendanceLow ]
  ++ [ if Qle_bool (7 # 10) preference then PreferenceHigh
       else if Qle_bool (4 # 10) preference then PreferenceMedium
       else PreferenceLow ]
  ++ [ if Qle_bool conflict (2 # 10) then ConflictsFew
       else if Qle_bool conflict (5 # 10) then ConflictsMinor
       else ConflictsMany ]
  ++ (if Qle_bool (8 # 10) type_fitness then [FitsEventType t] else []).

(** [_create_schedule_option]; [id] is the uuid drawn for the option. *)
Definition create_schedule_option (t : EventType) (id : string)
    (analysis : TimeSlotAnalysis) : ScheduleOption :=
  let preference := calculate_preference_score analysis in
  let conflict := calculate_conflict_score analysis in
  let attendance_rate := get_availability_score analysis in
  let type_fitness :=
    calculate_event_type_fitness t analysis.(time_slot) in
  let total :=
    preference * (3 # 10) + (1 - conflict) * (2 # 10)
    + attendance_rate * (3 # 10) + type_fitness * (2 # 10) in
  mkOption id analysis.(time_slot).(start_time)
    analysis.(time_slot).(end_time)
    analysis.(participants_available) analysis.(participants_unavailable)
    preference conflict total
    (generate_schedule_reasoning t preference conflict attendance_rate
       type_fitness).

(** The loop of [_optimize_schedule] over the analyses; [ids] are the
    successive uuids, one drawn per option created. *)
Fixpoint collect_options (t : EventType) (ids : nat -> string) (drawn : nat)
    (analyses : list TimeSlotAnalysis) : list ScheduleOption :=
  match analyses with
  | [] => []
  | analysis :: rest =>
      if Nat.leb 2 (List.length analysis.(participants_available)) then
        create_schedule_option t (ids drawn) analysis
        :: collect_options t ids (S drawn) rest
      else collect_options t ids drawn rest
  end.

Definition set_schedule_options (l : list ScheduleOption)
    (a : SchedulingAgent) : SchedulingAgent :=
  mkSched a.(base) a.(current_event_type) a.(participants) l
    a.(selected_schedule).

(** [_optimize_schedule] *)
Definition optimize_schedule (e : Env) (ids : nat -> string)
    (a : SchedulingAgent) : list ScheduleOption * SchedulingAgent :=
  let time_analyses := analyze_time_slots e a in
  let options := collect_options a.(current_event_type) ids 0 time_analyses in
  let sorted := Py.sort_desc total_score options in
  let top := firstn 5 sorted in
  (top, set_schedule_options top a).

(** [_notify_schedule_selection], for a selected schedule. *)
Definition notify_schedule_selection (e : Env) (selected : ScheduleOption)
    (b : Base.BaseAgent) : Base.BaseAgent :=
  let notification :=
    Base.new_message e b.(Base.agent_id) None Base.EVENT
      "スケジュール決定通知"
      [("event_type", Py.AStr "schedule_selected");
       ("schedule",
        Py.ADict
          [("start_time", Py.AInt selected.(opt_start_time));
           ("end_time", Py.AInt selected.(opt_end_time));
           ("participants",
            Py.AList (map Py.AStr selected.(available_participants)));
           ("total_score", Py.AFloat selected.(total_score));
           ("reasoning",
            Py.AStr (String.concat "、"
                       (map reason_text selected.(reasoning))))])] in
  fst (fst (Base.send_message e notification b)).

(** [_select_best_schedule] *)
Definition select_best_schedule (e : Env) (a : SchedulingAgent)
    : option ScheduleOption * SchedulingAgent :=
  match a.(schedule_options) with
  | [] => (None, a)
  | best_option :: _ =>
      (Some best_option,
       mkSched (notify_schedule_selection e best_option a.(base))
         a.(current_event_type) a.(participants) a.(schedule_options)
         (Some best_option))
  end.

End Sched.

(** ** [models/venue.py] and [agents/venue_agent.py] *)

Module Venue.

Local Open Scope Q_scope.

Inductive VenueType : Type := RESTAURANT | MEETING_ROOM | EXTERNAL.

Inductive BookingStatus : Type :=
| PENDING | CONFIRMED | FAILED | MANUAL_REQUIRED.

Record VenueFeature : Type := mkFeature {
  feature_name : string;
  available : bool;
  feature_description : option string
}.

(** The fields of [Venue] that the search reads or writes; the others keep
    their defaults.  The validators of the class hold of every venue built
    here: a non-empty name, an address of five characters or more, a
    capacity in 1..10000, a cost in 0..100000. *)
Record Venue : Type := mkVenue {
  venue_id : string;
  event_id : string;
  venue_type : VenueType;
  name : string;
  address : string;
  capacity : Z;
  minimum_capacity : option Z;
  features : list VenueFeature;
  booking_status : BookingStatus;
  estimated_cost_per_person : option Z;
  rating : option Q;
  wheelchair_accessible : bool;
  admin_notes : option string
}.

(** [Venue.has_feature] *)
Definition has_feature {U : Py.Unicode} (v : Venue) (wanted : string)
    : bool :=
  existsb
    (fun f => String.eqb (Py.str_lower f.(feature_name))
                (Py.str_lower wanted)
              && f.(available))%bool
    v.(features).

(** Truthiness of [Optional[int]] and [Optional[float]]. *)
Definition truthy_int (o : option Z) : bool :=
  match o with Some z => negb (Z.eqb z 0) | None => false end.

Definition truthy_float (o : option Q) : bool :=
  match o with Some q => negb (Qeq_bool q 0) | None => false end.

Definition value_or_zero (o : option Z) : Z :=
  match o with Some z => z | None => 0%Z end.

(** [Venue.calculate_suitability_score] *)
Definition calculate_suitability_score {U : Py.Unicode} (v : Venue)
    (participant_count : Z) (budget_per_person : option Z)
    (required_features : list string) : Q :=
  let capacity_score :=
    if (truthy_int v.(minimum_capacity)
        && (participant_count <? value_or_zero v.(minimum_capacity))%Z)%bool
    then 0
    else if (v.(capacity) <? participant_count)%Z then 0
    else
      let utilization := inject_Z participant_count / inject_Z v.(capacity) in
      if (Qle_bool (7 # 10) utilization
          && Qle_bool utilization (8 # 10))%bool then 1
      else if negb (Qle_bool (7 # 10) utilization)
           then utilization / (7 # 10)
      else Sched.py_max 0 (1 - (utilization - (8 # 10)) / (2 # 10)) in
  let score1 := 0 + capacity_score * (4 # 10) in
  let budget_score :=
    if (truthy_int budget_per_person
        && truthy_int v.(estimated_cost_per_person))%bool then
      let cost := value_or_zero v.(estimated_cost_per_person) in
      let budget := value_or_zero budget_per_person in
      if (cost <=? budget)%Z then 1
      else
        let over_ratio := inject_Z cost / inject_Z budget in
        Sched.py_max 0 (1 - (over_ratio - 1))
    else 1 in
  let score2 := score1 + budget_score * (3 # 10) in
  let feature_score :=
    match required_features with
    | [] => 1
    | _ :: _ =>
        let matched_features :=
          List.length (filter (has_feature v) required_features) in
        inject_Z (Z.of_nat matched_features)
        / inject_Z (Z.of_nat (List.length required_features))
    end in
  let score3 := score2 + feature_score * (2 # 10) in
  let rating_score :=
    if truthy_float v.(rating) then
      match v.(rating) with
      | Some r => (r - 1) / 4
      | None => 5 # 10
      end
    else 5 # 10 in
  let score4 := score3 + rating_score * (1 # 10) in
  Sched.py_min 1 (Sched.py_max 0 score4).

Record VenueSearchCriteria : Type := mkCriteria {
  criteria_event_type : Sched.EventType;
  participant_count : Z;
  criteria_datetime : Z;
  duration_minutes : Z;
  budget_per_person : option Z;
  location_hint : string;
  required_features : list string;
  accessibility_required : bool
}.

Record VenueSearchResult : Type := mkResult {
  venue : Venue;
  source_api : string;
  suitability_score : Q;
  availability_confirmed : bool;
  booking_required : bool;
  estimated_total_cost : option Z;
  notes : list string
}.

Record APIFailureRecord : Type := mkFailure {
  api_name : string;
  failure_time : Z;
  failure_error_type : string;
  failure_error_message : string;
  retry_count : Z
}.

Record SearchSetting : Type := mkSetting {
  venue_types : list string;
  google_places_types : list string;
  gurume_categories : list string;
  setting_required_features : list string;
  search_radius : Z
}.

(** [self.search_settings[event_type]] *)
Definition search_settings (t : Sched.EventType) : SearchSetting :=
  match t with
  | Sched.DINING =>
      mkSetting ["restaurant"; "cafe"; "bar"]
        ["restaurant"; "cafe"; "meal_takeaway"]
        ["RSFST08000"; "RSFST09000"] ["食事提供"] 2000
  | Sched.STUDY =>
      mkSetting ["meeting_room"; "cafe"; "external"]
        ["library"; "university"; "cafe"] [] ["WiFi"; "静かな環境"] 5000
  | Sched.MEETING =>
      mkSetting ["meeting_room"; "external"]
        ["lodging"; "conference_center"] []
        ["プロジェクター"; "WiFi"; "会議設備"] 10000
  end.

(** The venue agent after [initialize]: the event is loaded and the search
    criteria are prepared (the handlers that reach the search are only
    registered after [_prepare_search_criteria] has returned). *)
Record VenueAgent : Type := mkVenueAgent {
  base : Base.BaseAgent;
  agent_event_id : string;
  google_places_api_key : option string;
  gurume_api_key : option string;
  current_event_type : Sched.EventType;
  search_criteria : VenueSearchCriteria;
  search_results : list VenueSearchResult;
  selected_venue : option Venue;
  api_failures : list APIFailureRecord
}.

Definition set_base (b : Base.BaseAgent) (a : VenueAgent) : VenueAgent :=
  mkVenueAgent b a.(agent_event_id) a.(google_places_api_key)
    a.(gurume_api_key) a.(current_event_type) a.(search_criteria)
    a.(search_results) a.(selected_venue) a.(api_failures).

Definition set_search_results (l : list VenueSearchResult) (a : VenueAgent)
    : VenueAgent :=
  mkVenueAgent a.(base) a.(agent_event_id) a.(google_places_api_key)
    a.(gurume_api_key) a.(current_event_type) a.(search_criteria) l
    a.(selected_venue) a.(api_failures).

Definition set_api_failures (l : list APIFailureRecord) (a : VenueAgent)
    : VenueAgent :=
  mkVenueAgent a.(base) a.(agent_event_id) a.(google_places_api_key)
    a.(gurume_api_key) a.(current_event_type) a.(search_criteria)
    a.(search_results) a.(selected_venue) l.

(** Five minutes, in microseconds: [total_seconds() < 300]. *)
Definition failure_window : Z := 300000000%Z.

(** The test of the list comprehension of [_should_use_api]. *)
Definition recent_failure (e : Env) (api : string) (f : APIFailureRecord)
    : bool :=
  (String.eqb f.(api_name) api
   && (e.(now) - f.(failure_time) <? failure_window)%Z)%bool.

(** [_should_use_api] *)
Definition should_use_api (e : Env) (a : VenueAgent) (api : string) : bool :=
  let recent_failures := filter (recent_failure e api) a.(api_failures) in
  if Nat.leb 3 (List.length recent_failures) then false
  else if (String.eqb api "google_places"
           && negb (Py.truthy_opt_str a.(google_places_api_key)))%bool
       then false
  else if (String.eqb api "gurume"
           && negb (Py.truthy_opt_str a.(gurume_api_key)))%bool
       then false
  else
    let search_setting := search_settings a.(current_event_type) in
    if (String.eqb api "gurume"
        && match search_setting.(gurume_categories) with
           | [] => true
           | _ :: _ => false
           end)%bool
    then false
    else true.

(** [_record_api_failure] *)
Definition record_api_failure (e : Env) (api : string) (message : string)
    (a : VenueAgent) : VenueAgent :=
  let failure := mkFailure api e.(now) "type" message 0 in
  let a1 := set_api_failures (a.(api_failures) ++ [failure]) a in
  let failure_message :=
    Base.new_message e a1.(base).(Base.agent_id) None Base.EVENT
      "API失敗通知"
      [("event_type", Py.AStr "api_failure");
       ("api_name", Py.AStr api);
       ("error_message", Py.AStr message);
       ("fallback_available", Py.ABool true)] in
  set_base (fst (fst (Base.send_message e failure_message a1.(base)))) a1.

(** What the [try] block of a source search has done when it ends: the
    venues it converted from the provider's answer, in order, and the
    exception that cut it short, if any.  The provider itself is an
    external collaborator. *)
Record SourceRun : Type := mkRun {
  converted : list Venue;
  raised : option string
}.

(** The two providers of the venue search. *)
Record Sources : Type := mkSources {
  run_google_places : VenueSearchCriteria -> SourceRun;
  run_gurume : VenueSearchCriteria -> SourceRun
}.

(** The result a source search appends for a converted venue. *)
Definition source_result {U : Py.Unicode} (a : VenueAgent) (api : string)
    (v : Venue)
    : VenueSearchResult :=
  let c := a.(search_criteria) in
  mkResult v api
    (calculate_suitability_score v c.(participant_count)
       c.(budget_per_person) c.(required_features))
    false true
    (if truthy_int v.(estimated_cost_per_person)
     then Some (value_or_zero v.(estimated_cost_per_person)
                * c.(participant_count))%Z
     else None)
    [].

(** [_search_google_places] and [_search_gurume]: the results built before
    an exception are returned, and the exception is recorded against the
    source. *)
Definition search_source {U : Py.Unicode} (e : Env) (api : string)
    (run : SourceRun) (a : VenueAgent)
    : list VenueSearchResult * VenueAgent :=
  let results := map (source_result a api) run.(converted) in
  match run.(raised) with
  | Some message =>
      (results, record_api_failure e api message a)
  | None => (results, a)
  end.

(** [_fallback_search]; [ids] are the uuids drawn for the two venues. *)
Definition fallback_venues : list (string * string * VenueType * Z * Z) :=
  [("会議室A（フォールバック）", "東京都千代田区", MEETING_ROOM, 20%Z, 2000%Z);
   ("カフェB（フォールバック）", "東京都港区", RESTAURANT, 15%Z, 1500%Z)].

Definition fallback_result {U : Py.Unicode} (a : VenueAgent) (id : string)
    (venue_data : string * string * VenueType * Z * Z) : VenueSearchResult :=
  let '(name_, address_, type_, capacity_, cost) := venue_data in
  let v :=
    mkVenue id a.(agent_event_id) type_ name_ address_ capacity_ None []
      MANUAL_REQUIRED (Some cost) None false
      (Some "API検索失敗のためフォールバック候補。手動確認が必要。") in
  let c := a.(search_criteria) in
  let score :=
    calculate_suitability_score v c.(participant_count)
      c.(budget_per_person) c.(required_features) in
  mkResult v "manual_fallback" (score * (7 # 10)) false true None
    ["手動確認が必要"; "API検索失敗のためのフォールバック候補"].

Fixpoint fallback_loop {U : Py.Unicode} (a : VenueAgent)
    (ids : nat -> string) (drawn : nat)
    (data : list (string * string * VenueType * Z * Z))
    : list VenueSearchResult :=
  match data with
  | [] => []
  | venue_data :: rest =>
      fallback_result a (ids drawn) venue_data
      :: fallback_loop a ids (S drawn) rest
  end.

Definition fallback_search {U : Py.Unicode} (ids : nat -> string)
    (a : VenueAgent)
    : list VenueSearchResult :=
  fallback_loop a ids 0 fallback_venues.

(** What one round of [_search_venues] did. *)
Record SearchRound : Type := mkRound {
  returned : list VenueSearchResult;
  used_fallback : bool;
  agent_after : VenueAgent
}.

(** [_search_venues].  Both eligibility tests are made before any source
    runs; the gathered lists are merged in the order of the tasks.  The
    sources catch their own exceptions, so [gather] only ever yields
    lists; the two sources are run here one after the other, in the order
    of the tasks. *)
Definition search_venues {U : Py.Unicode} (e : Env) (ids : nat -> string)
    (s : Sources) (a : VenueAgent) : SearchRound :=
  let use_places := should_use_api e a "google_places" in
  let use_gurume := should_use_api e a "gurume" in
  let (places_results, a1) :=
    if use_places
    then search_source e "google_places"
           (s.(run_google_places) a.(search_criteria)) a
    else ([], a) in
  let (gurume_results, a2) :=
    if use_gurume
    then search_source e "gurume" (s.(run_gurume) a1.(search_criteria)) a1
    else ([], a1) in
  let all_results := places_results ++ gurume_results in
  match all_results with
  | [] =>
      let fallback_results := fallback_search ids a2 in
      mkRound fallback_results true (set_search_results fallback_results a2)
  | _ :: _ =>
      mkRound all_results false (set_search_results all_results a2)
  end.

End Venue.

(** ** The scoring rule in the words of the specification *)

Module SchedSpec.

Local Open Scope Q_scope.

(** A participant is available for a candidate when one of the
    participant's declared slots overlaps it. *)
Definition available (candidate : Sched.TimeSlot)
    (entry : string * list Sched.TimeSlot) : bool :=
  existsb (Sched.slots_overlap candidate) (snd entry).

Definition available_entries (candidate : Sched.TimeSlot)
    (declared : Py.Dict (list Sched.TimeSlot))
    : list (string * list Sched.TimeSlot) :=
  filter (available candidate) declared.

Definition unavailable_entries (candidate : Sched.TimeSlot)
    (declared : Py.Dict (list Sched.TimeSlot))
    : list (string * list Sched.TimeSlot) :=
  filter (fun entry => negb (available candidate entry)) declared.

(** The best preference level among the slots that match the candidate. *)
Definition best_level (candidate : Sched.TimeSlot)
    (user_slots : list Sched.TimeSlot) : Z :=
  fold_right Z.max 0%Z
    (map Sched.preference_level
       (filter (Sched.slots_overlap candidate) user_slots)).

Definition sum_Q (l : list Q) : Q := fold_right Qplus 0 l.

(** The weight of an available participant. *)
Definition weight_entry (candidate : Sched.TimeSlot)
    (entry : string * list Sched.TimeSlot) : string * Q :=
  (fst entry, inject_Z (best_level candidate (snd entry)) / 3).

(** preference: the mean over the available participants of
    (best matching preference level / 3). *)
Definition preference (candidate : Sched.TimeSlot)
    (declared : Py.Dict (list Sched.TimeSlot)) : Q :=
  sum_Q
    (map (fun entry => snd (weight_entry candidate entry))
       (available_entries candidate declared))
  / inject_Z (Z.of_nat (List.length (available_entries candidate declared))).

(** A conflict detail is recorded for every declared slot that overlaps the
    candidate without containing it. *)
Definition partial_overlap (candidate user_slot : Sched.TimeSlot) : bool :=
  Sched.slots_overlap candidate user_slot
  && negb (Sched.slot_fully_contains user_slot candidate).

Definition conflict_detail_count (candidate : Sched.TimeSlot)
    (declared : Py.Dict (list Sched.TimeSlot)) : nat :=
  list_sum
    (map (fun entry =>
            List.length (filter (partial_overlap candidate) (snd entry)))
       declared).

(** conflict = min(1, conflictDetailCount / totalParticipants), and 0 when
    there are no conflict details. *)
Definition conflict (candidate : Sched.TimeSlot)
    (declared : Py.Dict (list Sched.TimeSlot)) : Q :=
  if Nat.eqb (conflict_detail_count candidate declared) 0 then 0
  else Qmin 1 (inject_Z (Z.of_nat (conflict_detail_count candidate declared))
               / inject_Z (Z.of_nat (List.length declared))).

(** attendance = available / (available + unavailable). *)
Definition attendance (candidate : Sched.TimeSlot)
    (declared : Py.Dict (list Sched.TimeSlot)) : Q :=
  inject_Z (Z.of_nat (List.length (available_entries candidate declared)))
  / inject_Z
      (Z.of_nat (List.length (available_entries candidate declared)
                 + List.length (unavailable_entries candidate declared))).

(** The distance, in hours, from an hour to the nearest preferred hour. *)
Definition min_hour_distance (hour : Z) (hours : list Z) : Z :=
  match hours with
  | [] => 0%Z
  | h :: rest =>
      fold_right (fun h' d => Z.min (Z.abs (hour - h')) d)
        (Z.abs (hour - h)) rest
  end.

(** typeFit = 1 when the start hour is a preferred hour of the event type,
    and max(0, 1 - minHourDistance / 12) otherwise. *)
Definition type_fit (t : Sched.EventType) (candidate : Sched.TimeSlot) : Q :=
  let hours := Sched.preferred_hours (Sched.event_type_preferences t) in
  let hour := Sched.hour_of (Sched.start_time candidate) in
  if in_dec Z.eq_dec hour hours then 1
  else Qmax 0 (1 - inject_Z (min_hour_distance hour hours) / 12).

(** total = 0.30 preference + 0.20 (1 - conflict) + 0.30 attendance
          + 0.20 typeFit. *)
Definition total (t : Sched.EventType) (candidate : Sched.TimeSlot)
    (declared : Py.Dict (list Sched.TimeSlot)) : Q :=
  (30 # 100) * preference candidate declared
  + (20 # 100) * (1 - conflict candidate declared)
  + (30 # 100) * attendance candidate declared
  + (20 # 100) * type_fit t candidate.

End SchedSpec.

(** ** The failure window in the words of the specification *)

Module VenueSpec.

(** A failure record lies within the trailing five minutes of a round:
    it is not from the future and is younger than 300 seconds. *)
Definition in_trailing_window (e : Env) (f : Venue.APIFailureRecord) : bool :=
  ((e.(now) - 300 * 1000000 <? f.(Venue.failure_time))
   && (f.(Venue.failure_time) <=? e.(now)))%bool.

(** The failure records of a source within the trailing five minutes. *)
Definition recent_failures_of (e : Env) (api : string)
    (l : list Venue.APIFailureRecord) : list Venue.APIFailureRecord :=
  filter
    (fun f => (String.eqb f.(Venue.api_name) api
               && in_trailing_window e f)%bool) l.

(** The candidate is flagged as needing manual confirmation. *)
Definition needs_manual_confirmation (r : Venue.VenueSearchResult) : Prop :=
  In "手動確認が必要" r.(Venue.notes) /\
  r.(Venue.venue).(Venue.booking_status) = Venue.MANUAL_REQUIRED /\
  r.(Venue.source_api) = "manual_fallback".

End VenueSpec.

(** ** Concrete sessions used by the examples *)

Module Ex.

Definition env0 : Env :=
  mkEnv 1700000000000000 "00000000-0000-4000-8000-000000000001".

Definition session0 : Sess.CoordinationSession :=
  Sess.new_session env0 "evt-1" "1700000000.000000".

(** The session after the whole phase sequence up to Announcement. *)
Definition session_announcement : Sess.CoordinationSession :=
  Sess.run
    (map (fun p => (env0, Sess.OpTransition p))
       [Sess.PARTICIPANT_COLLECTION; Sess.SCHEDULE_COORDINATION;
        Sess.VENUE_COORDINATION; Sess.CALENDAR_INTEGRATION;
        Sess.FINAL_CONFIRMATION; Sess.ANNOUNCEMENT])
    session0.

(** A session tracking two agents, the first of them started. *)
Definition session_two_agents : Sess.CoordinationSession :=
  Sess.run
    [(env0, Sess.OpAddAgent "participant_agent");
     (env0, Sess.OpAddAgent "scheduling_agent");
     (env0, Sess.OpStartAgent "participant_agent" (Some "参加者収集"))]
    session0.

(** An agent with one handler for commands, and no bus attached. *)
Definition agent0 : Base.BaseAgent :=
  Base.register_handler Base.COMMAND (fun _ => Base.Returns None 3)
    (Base.new_agent env0 "agent-1" "worker" "a worker"
       (Some "evt-1") (Some "sess-1")).

(** A command that expired one microsecond before [env0]'s clock. *)
Definition msg_expired : Base.AgentMessage :=
  Base.mkMessage "m-1" "agent-2" (Some "agent-1") Base.COMMAND Base.NORMAL
    "start" [] None 1699999990000000 (Some 1699999999999999) 0 None None [].

(** A message built with another sender's id and its own event id. *)
Definition msg_foreign : Base.AgentMessage :=
  Base.mkMessage "m-2" "agent-2" None Base.EVENT Base.NORMAL
    "notice" [] None 1699999990000000 None 0 (Some "evt-9") None [].

Definition register (name : string) (c : Coord.CoordinationAgent)
    : Coord.CoordinationAgent :=
  snd (Coord.handle_agent_registration env0 name c).

Definition coord0 : Coord.CoordinationAgent :=
  Coord.new_coordination_agent env0 "evt-1" "sess-1" "1700000000.000000".

(** Participant, scheduling and venue agents registered, none started. *)
Definition coord_registered : Coord.CoordinationAgent :=
  register "venue_agent"
    (register "scheduling_agent" (register "participant_agent" coord0)).

(** The participant agent has run and completed. *)
Definition coord_participant_done : Coord.CoordinationAgent :=
  snd (Coord.handle_agent_completion env0 "participant_agent" None
         (snd (Coord.start_agent env0 "participant_agent" (Some "参加者収集")
                 coord_registered))).

(** Scenario B: the scheduling agent is running (status Active). *)
Definition coord_scheduling_active : Coord.CoordinationAgent :=
  snd (Coord.start_agent env0 "scheduling_agent" (Some "スケジュール調整")
         coord_participant_done).

(** Calendar and venue agents registered, the scheduling agent not. *)
Definition coord_no_scheduling : Coord.CoordinationAgent :=
  register "venue_agent" (register "calendar_agent" coord0).

(** Scenario A: five participants, each with one preference-1 slot on the
    Tuesday after [env0], 18:00 to 20:00; a dining event. *)
Definition tuesday_evening : Sched.TimeSlot :=
  Sched.mkTimeSlot 1700589600000000 1700596800000000 1 None.

Definition sched_scenario_a : Sched.SchedulingAgent :=
  Sched.mkSched
    (Base.new_agent env0 "scheduling_agent_evt-1" "スケジュール調整エージェント"
       "参加者の時間調整と最適スケジュール提案" (Some "evt-1") (Some "sess-1"))
    Sched.DINING
    [("U1", [tuesday_evening]); ("U2", [tuesday_evening]);
     ("U3", [tuesday_evening]); ("U4", [tuesday_evening]);
     ("U5", [tuesday_evening])]
    [] None.

(** The successive uuids of the examples. *)
Definition ids0 (n : nat) : string :=
  match n with
  | O => "option-0"
  | S O => "option-1"
  | _ => "option-n"
  end.

(** The feature names of the examples hold no cased letter outside ASCII:
    on them [str.lower()] is the lowering of the ASCII letters. *)
Definition unicode0 : Py.Unicode := {| Py.str_lower := Py.ascii_lower |}.

(** A dining event for five; no API key is configured (the defaults of
    [VenueAgent.__init__]). *)
Definition criteria0 : Venue.VenueSearchCriteria :=
  Venue.mkCriteria Sched.DINING 5 1700589600000000 90 (Some 3000)
    "東京駅周辺" ["食事提供"] false.

Definition venue_agent0 : Venue.VenueAgent :=
  Venue.mkVenueAgent
    (Base.new_agent env0 "venue_agent_evt-1" "会場エージェント"
       "マルチAPI会場検索と予約管理" (Some "evt-1") (Some "sess-1"))
    "evt-1" None None Sched.DINING criteria0 [] None [].

(** Scenario C: both keys configured, and three failures of the first
    source one, one hundred and 299 seconds ago. *)
Definition venue_agent_tripped : Venue.VenueAgent :=
  Venue.mkVenueAgent
    (Base.new_agent env0 "venue_agent_evt-1" "会場エージェント"
       "マルチAPI会場検索と予約管理" (Some "evt-1") (Some "sess-1"))
    "evt-1" (Some "places-key") (Some "gurume-key") Sched.DINING criteria0
    [] None
    [Venue.mkFailure "google_places" 1699999701000000 "type" "timeout" 0;
     Venue.mkFailure "google_places" 1699999900000000 "type" "timeout" 0;
     Venue.mkFailure "google_places" 1699999999000000 "type" "timeout" 0].

Definition a_restaurant : Venue.Venue :=
  Venue.mkVenue "venue-1" "evt-1" Venue.RESTAURANT "和食処 さくら"
    "東京都中央区銀座3-3-3" 20 None
    [Venue.mkFeature "食事提供" true None] Venue.PENDING (Some 3000) None
    false None.

(** Providers that answer with one restaurant each. *)
Definition sources_up : Venue.Sources :=
  Venue.mkSources (fun _ => Venue.mkRun [a_restaurant] None)
    (fun _ => Venue.mkRun [a_restaurant] None).

(** Providers that both fail before converting anything. *)
Definition sources_down : Venue.Sources :=
  Venue.mkSources (fun _ => Venue.mkRun [] (Some "connection refused"))
    (fun _ => Venue.mkRun [] (Some "connection refused")).

End Ex.

(** ** Two claims of the specification, as it words them *)

Module Claims.

(** "[send(m)] stamps the sender, event and session ids only when they are
    absent ... and when no bus is attached, appends [m] to the pending
    queue instead of publishing." *)
Definition send_keeps_present_ids (e : Env) (m : Base.AgentMessage)
    (a : Base.BaseAgent) : Prop :=
  let '(a', m', fx) := Base.send_message e m a in
  (Py.truthy_str m.(Base.sender_id) = true ->
   m'.(Base.sender_id) = m.(Base.sender_id)) /\
  (Py.truthy_opt_str m.(Base.event_id) = true ->
   m'.(Base.event_id) = m.(Base.event_id)) /\
  (Py.truthy_opt_str m.(Base.session_id) = true ->
   m'.(Base.session_id) = m.(Base.session_id)) /\
  (a.(Base.message_bus) = None ->
   a'.(Base.pending_messages) = a.(Base.pending_messages) ++ [m'] /\ fx = []).

(** "For every registered agent name, [start(agent)] fails and sets that
    agent's status to Waiting whenever at least one of its declared
    dependencies has status other than Completed; when every declared
    dependency has status Completed, start succeeds and sets the agent's
    status to Active." *)
Definition start_gated_by_dependencies (e : Env) (agent_name : string)
    (task : option string) (c : Coord.CoordinationAgent) : Prop :=
  Coord.managed c agent_name <> None ->
  let r := Coord.start_agent e agent_name task c in
  ((exists dep st,
       In dep (Coord.agent_dependencies agent_name) /\
       Coord.status_of c dep = Some st /\ st <> Sess.DONE) ->
   fst r = false /\ Coord.status_of (snd r) agent_name = Some Sess.WAITING) /\
  ((forall dep, In dep (Coord.agent_dependencies agent_name) ->
                Coord.status_of c dep = Some Sess.DONE) ->
   fst r = true /\ Coord.status_of (snd r) agent_name = Some Sess.ACTIVE).

End Claims.

(** ** [models/coordination_session.py]: the queries *)

Module SessView.

(** The place of a phase in the fixed sequence. *)
Definition phase_rank (p : Sess.CoordinationPhase) : nat :=
  match p with
  | Sess.INITIALIZATION => 0
  | Sess.PARTICIPANT_COLLECTION => 1
  | Sess.SCHEDULE_COORDINATION => 2
  | Sess.VENUE_COORDINATION => 3
  | Sess.CALENDAR_INTEGRATION => 4
  | Sess.FINAL_CONFIRMATION => 5
  | Sess.ANNOUNCEMENT => 6
  | Sess.COMPLETED => 7
  end.

Definition is_active (a : Sess.AgentInstance) : bool :=
  Sess.status_eqb a.(Sess.status) Sess.ACTIVE.

Definition unresolved (entry : Sess.ErrorEntry) : bool :=
  negb entry.(Sess.resolved).

(** [get_active_agent_count] *)
Definition get_active_agent_count (s : Sess.CoordinationSession) : nat :=
  List.length (filter is_active s.(Sess.active_agents)).

(** [get_error_count] *)
Definition get_error_count (s : Sess.CoordinationSession) : nat :=
  List.length (filter unresolved s.(Sess.error_log)).

(** [has_unresolved_errors] *)
Definition has_unresolved_errors (s : Sess.CoordinationSession) : bool :=
  existsb unresolved s.(Sess.error_log).

(** [is_expired] *)
Definition is_expired (e : Env) (s : Sess.CoordinationSession) : bool :=
  match s.(Sess.settings).(Sess.expires_at) with
  | Some t => t <? e.(now)
  | None => false
  end.

(** [int(delta.total_seconds())]: whole seconds, cut towards zero. *)
Definition whole_seconds (delta : Z) : Z := Z.quot delta 1000000.

(** [get_phase_duration]: the loop runs over the checkpoints from the
    newest and returns at the first whose phase is not the current one. *)
Definition get_phase_duration (e : Env) (s : Sess.CoordinationSession) : Z :=
  match
    find (fun cp => negb (Sess.phase_eqb cp.(Sess.phase) s.(Sess.current_phase)))
      (rev s.(Sess.checkpoints))
  with
  | Some cp => whole_seconds (e.(now) - cp.(Sess.cp_timestamp))
  | None => whole_seconds (e.(now) - s.(Sess.settings).(Sess.created_at))
  end.

End SessView.

(** ** [agents/base_agent.py]: the lifecycle and the status messages *)

Module Life.

Definition status_value (st : Base.AgentStatus) : string :=
  match st with
  | Base.INITIALIZING => "initializing"
  | Base.IDLE => "idle"
  | Base.ACTIVE => "active"
  | Base.WAITING => "waiting"
  | Base.COMPLETED => "completed"
  | Base.ERROR => "error"
  | Base.TIMEOUT => "timeout"
  | Base.PAUSED => "paused"
  end.

Definition status_eqb (a b : Base.AgentStatus) : bool :=
  String.eqb (status_value a) (status_value b).

Definition set_status (st : Base.AgentStatus) (a : Base.BaseAgent)
    : Base.BaseAgent :=
  Base.mkAgent a.(Base.agent_id) a.(Base.name) a.(Base.description)
    a.(Base.agent_event_id) a.(Base.agent_session_id) st
    a.(Base.created_at) a.(Base.last_heartbeat) a.(Base.metrics)
    a.(Base.message_handlers) a.(Base.error_handlers)
    a.(Base.pending_messages) a.(Base.message_bus).

Definition set_last_heartbeat (t : Z) (a : Base.BaseAgent) : Base.BaseAgent :=
  Base.mkAgent a.(Base.agent_id) a.(Base.name) a.(Base.description)
    a.(Base.agent_event_id) a.(Base.agent_session_id) a.(Base.status)
    a.(Base.created_at) t a.(Base.metrics)
    a.(Base.message_handlers) a.(Base.error_handlers)
    a.(Base.pending_messages) a.(Base.message_bus).

(** A hook of a subclass ([_initialize_impl], [_start_impl], [_stop_impl]):
    what it leaves of the agent, and the exception it raises, if any. *)
Definition Hook : Type := Base.BaseAgent -> Base.BaseAgent * option Base.Exn.

(** [_handle_heartbeat], [_handle_status_update], [_handle_error_report]:
    they log and return [None]; [elapsed_ms] is the time they take. *)
Definition quiet (elapsed_ms : Z) : Base.Handler :=
  fun _ => Base.Returns None elapsed_ms.

(** [initialize]; the second component is the exception that is re-raised. *)
Definition initialize (elapsed_ms : Z) (impl : Hook) (a : Base.BaseAgent)
    : Base.BaseAgent * option Base.Exn :=
  let a1 := Base.register_handler Base.HEARTBEAT (quiet elapsed_ms) a in
  let a2 := Base.register_handler Base.STATUS_UPDATE (quiet elapsed_ms) a1 in
  let a3 := Base.register_handler Base.ERROR_REPORT (quiet elapsed_ms) a2 in
  match impl a3 with
  | (a4, None) => (set_status Base.IDLE a4, None)
  | (a4, Some ex) => (set_status Base.ERROR a4, Some ex)
  end.

(** [start] *)
Definition start (impl : Hook) (a : Base.BaseAgent)
    : Base.BaseAgent * option Base.Exn :=
  if negb (status_eqb a.(Base.status) Base.IDLE) then
    (a, Some (Base.mkExn "RuntimeError"
                ("エージェントは開始できません。現在のステータス: "
                 +++ status_value a.(Base.status))))
  else
    match impl (set_status Base.ACTIVE a) with
    | (a1, None) => (a1, None)
    | (a1, Some ex) => (set_status Base.ERROR a1, Some ex)
    end.

(** [stop] *)
Definition stop (impl : Hook) (a : Base.BaseAgent)
    : Base.BaseAgent * option Base.Exn :=
  match impl a with
  | (a1, None) => (set_status Base.COMPLETED a1, None)
  | (a1, Some ex) => (set_status Base.ERROR a1, Some ex)
  end.

(** [broadcast_status] *)
Definition broadcast_status (e : Env) (st : Base.AgentStatus)
    (details : Py.Dict Py.Any) (a : Base.BaseAgent)
    : Base.BaseAgent * list Base.Effect :=
  let a1 := set_status st a in
  let status_message :=
    Base.new_message e a1.(Base.agent_id) None Base.STATUS_UPDATE
      ("ステータス更新: " +++ status_value st)
      [("status", Py.AStr (status_value st));
       ("details", Py.ADict details);
       ("timestamp", Py.AInt e.(now))] in
  let sent := Base.send_message e status_message a1 in
  (fst (fst sent), snd sent).

(** [self.metrics.dict()] *)
Definition metrics_dict (m : Base.AgentMetrics) : Py.Dict Py.Any :=
  [("agent_id", Py.AStr m.(Base.metrics_agent_id));
   ("messages_sent", Py.AInt m.(Base.messages_sent));
   ("messages_received", Py.AInt m.(Base.messages_received));
   ("errors_count", Py.AInt m.(Base.errors_count));
   ("total_processing_time_ms", Py.AInt m.(Base.total_processing_time_ms));
   ("last_activity",
    match m.(Base.last_activity) with
    | Some t => Py.AInt t
    | None => Py.ANone
    end);
   ("uptime_seconds", Py.AInt m.(Base.uptime_seconds))].

(** [send_heartbeat] *)
Definition send_heartbeat (e : Env) (a : Base.BaseAgent)
    : Base.BaseAgent * list Base.Effect :=
  let heartbeat_message :=
    Base.new_message e a.(Base.agent_id) None Base.HEARTBEAT "ハートビート"
      [("status", Py.AStr (status_value a.(Base.status)));
       ("metrics", Py.ADict (metrics_dict a.(Base.metrics)));
       ("timestamp", Py.AInt e.(now))] in
  let sent := Base.send_message e heartbeat_message a in
  (set_last_heartbeat e.(now) (fst (fst sent)), snd sent).

(** [AgentMessage.create_response] *)
Definition create_response (e : Env) (request : Base.AgentMessage)
    (sender : string) (payload_ : Py.Dict Py.Any) (subject_ : option string)
    : Base.AgentMessage :=
  Base.mkMessage e.(uuid) sender (Some request.(Base.sender_id))
    Base.RESPONSE Base.NORMAL
    (if Py.truthy_opt_str subject_
     then match subject_ with Some t => t | None => "" end
     else "Re: " +++ request.(Base.subject))
    payload_ (Some request.(Base.message_id)) e.(now) None 0
    request.(Base.event_id) request.(Base.session_id)
    request.(Base.user_context).

(** A run of [send_message] calls, one after the other, each in its own
    environment. *)
Fixpoint send_all (ms : list (Env * Base.AgentMessage)) (a : Base.BaseAgent)
    : Base.BaseAgent :=
  match ms with
  | [] => a
  | (e, m) :: rest => send_all rest (fst (fst (Base.send_message e m a)))
  end.

End Life.

(** ** [agents/coordination_agent.py]: driving the phases *)

Module Flow.

(** The branches of [_start_phase_agents]: the agent a phase starts, with
    its task label. *)
Definition phase_agent (p : Sess.CoordinationPhase)
    : option (string * string) :=
  match p with
  | Sess.PARTICIPANT_COLLECTION => Some ("participant_agent", "参加者収集")
  | Sess.SCHEDULE_COORDINATION => Some ("scheduling_agent", "スケジュール調整")
  | Sess.VENUE_COORDINATION => Some ("venue_agent", "会場検索・予約")
  | Sess.CALENDAR_INTEGRATION => Some ("calendar_agent", "カレンダー統合")
  | _ => None
  end.

(** [_start_phase_agents] *)
Definition start_phase_agents (e : Env) (p : Sess.CoordinationPhase)
    (c : Coord.CoordinationAgent) : Coord.CoordinationAgent :=
  match phase_agent p with
  | Some (agent_name, task) =>
      snd (Coord.start_agent e agent_name (Some task) c)
  | None => c
  end.

Definition opt_phase (o : option Sess.CoordinationPhase) : Py.Any :=
  match o with
  | Some p => Py.AStr (Sess.phase_value p)
  | None => Py.ANone
  end.

(** [_transition_to_phase] *)
Definition transition_to_phase (e : Env) (target : Sess.CoordinationPhase)
    (c : Coord.CoordinationAgent) : bool * Coord.CoordinationAgent :=
  match Sess.transition_to_phase e target c.(Coord.coordination_session) with
  | (false, _) => (false, c)
  | (true, s') =>
      let c1 := Coord.persist (Coord.set_session s' c) in
      let phase_message :=
        Base.new_message e c1.(Coord.base).(Base.agent_id) None Base.EVENT
          ("フェーズ遷移: " +++ Sess.phase_value target)
          [("event_type", Py.AStr "phase_transition");
           ("new_phase", Py.AStr (Sess.phase_value target));
           ("previous_phase", opt_phase s'.(Sess.previous_phase));
           ("timestamp", Py.AInt e.(now))] in
      let sent := Base.send_message e phase_message c1.(Coord.base) in
      (true, start_phase_agents e target (Coord.set_base (fst (fst sent)) c1))
  end.

(** [_check_phase_completion] *)
Definition check_phase_completion (e : Env) (c : Coord.CoordinationAgent)
    : Coord.CoordinationAgent :=
  match
    Coord.phase_transitions
      c.(Coord.coordination_session).(Sess.current_phase)
  with
  | Some next_phase => snd (transition_to_phase e next_phase c)
  | None => c
  end.

(** [_handle_agent_completion], with the phase check that follows a
    recorded completion. *)
Definition on_agent_completed (e : Env) (agent_name : string)
    (result : option (Py.Dict Py.Any)) (c : Coord.CoordinationAgent)
    : Coord.CoordinationAgent :=
  match Coord.handle_agent_completion e agent_name result c with
  | (true, c1) => check_phase_completion e c1
  | (false, c1) => c1
  end.

(** [_handle_agent_failure] *)
Definition on_agent_failed (e : Env) (agent_name : string)
    (error_message : string) (c : Coord.CoordinationAgent)
    : Coord.CoordinationAgent :=
  if Py.truthy_str agent_name then
    match Sess.fail_agent e agent_name error_message
            c.(Coord.coordination_session) with
    | (true, s') => Coord.persist (Coord.set_session s' c)
    | (false, _) => c
    end
  else c.

(** [_stop_agent] *)
Definition stop_agent (e : Env) (agent_name : string)
    (c : Coord.CoordinationAgent) : bool * Coord.CoordinationAgent :=
  if Py.dict_contains agent_name c.(Coord.managed_agents) then
    let stop_message :=
      Base.new_message e c.(Coord.base).(Base.agent_id)
        (Some (agent_name +++ "_" +++ c.(Coord.event_id))) Base.COMMAND
        ("エージェント停止: " +++ agent_name)
        [("command", Py.AStr "stop")] in
    let sent := Base.send_message e stop_message c.(Coord.base) in
    (true, Coord.set_base (fst (fst sent)) c)
  else (false, c).

(** [_stop_impl]: a stop for every managed agent, then the phase is set to
    Completed by plain assignment. *)
Definition stop_impl (e : Env) (c : Coord.CoordinationAgent)
    : Coord.CoordinationAgent :=
  let c1 :=
    fold_left (fun c' agent_name => snd (stop_agent e agent_name c'))
      (Py.dict_keys c.(Coord.managed_agents)) c in
  let s := c1.(Coord.coordination_session) in
  Coord.persist
    (Coord.set_session
       (Sess.set_phases Sess.COMPLETED s.(Sess.previous_phase) s) c1).

(** Every managed name is bound to an instance of the session's list that
    carries the name. *)
Definition well_formed (c : Coord.CoordinationAgent) : Prop :=
  forall agent_name position,
    Py.dict_get agent_name c.(Coord.managed_agents) = Some position ->
    nth_error
      (map Sess.agent_name c.(Coord.coordination_session).(Sess.active_agents))
      position = Some agent_name.

End Flow.

(** ** [agents/scheduling_agent.py]: the candidates of one day, the
    selection by id and the queries on the stored options *)

Module SchedView.

(** One turn of the [while] loop of [_generate_potential_time_slots]: the
    candidates of the day [day] days after the current one. *)
Definition day_candidates (e : Env) (t : Sched.EventType) (day : nat)
    : list Sched.TimeSlot :=
  let event_preferences := Sched.event_type_preferences t in
  let current_date :=
    (Sched.midnight e.(now) + Z.of_nat day * Sched.us_per_day)%Z in
  if (5 <=? Sched.weekday current_date)%Z then []
  else
    map
      (fun hour : Z =>
         let slot_start := (current_date + hour * Sched.us_per_hour)%Z in
         let slot_end :=
           (slot_start
            + event_preferences.(Sched.duration_minutes)
              * Sched.us_per_minute)%Z in
         Sched.mkTimeSlot slot_start slot_end 2 None)
      event_preferences.(Sched.preferred_hours).

End SchedView.

(** ** [agents/venue_agent.py]: the evaluation of the results and the
    selection *)

Module VenueView.

Local Open Scope Q_scope.

(** [result.notes.append(...)] and [result.suitability_score *= ...] *)
Definition penalise (factor : Q) (note : string)
    (r : Venue.VenueSearchResult) : Venue.VenueSearchResult :=
  Venue.mkResult r.(Venue.venue) r.(Venue.source_api)
    (r.(Venue.suitability_score) * factor)
    r.(Venue.availability_confirmed) r.(Venue.booking_required)
    r.(Venue.estimated_total_cost) (r.(Venue.notes) ++ [note]).

(** One turn of the loop of [_evaluate_search_results].  [time_suitable]
    is the verdict of [_check_time_suitability], which reads the business
    hours of the venue, a field that [Venue.Venue] leaves out. *)
Definition evaluate_result (time_suitable : Venue.Venue -> bool)
    (c : Venue.VenueSearchCriteria) (r : Venue.VenueSearchResult)
    : Venue.VenueSearchResult :=
  let r1 :=
    if negb (time_suitable r.(Venue.venue))
    then penalise (8 # 10) "営業時間が合わない可能性" r else r in
  let r2 :=
    if (Venue.truthy_int r1.(Venue.estimated_total_cost)
        && Venue.truthy_int c.(Venue.budget_per_person)
        && (Venue.value_or_zero c.(Venue.budget_per_person)
            * c.(Venue.participant_count)
            <? Venue.value_or_zero r1.(Venue.estimated_total_cost))%Z)%bool
    then penalise (9 # 10) "予算超過の可能性" r1 else r1 in
  if (c.(Venue.accessibility_required)
      && negb r2.(Venue.venue).(Venue.wheelchair_accessible))%bool
  then penalise (7 # 10) "バリアフリー対応未確認" r2 else r2.

(** [_evaluate_search_results]: every stored result is updated in place,
    then the list is sorted in place. *)
Definition evaluate_search_results (time_suitable : Venue.Venue -> bool)
    (a : Venue.VenueAgent) : Venue.VenueAgent :=
  Venue.set_search_results
    (Py.sort_desc Venue.suitability_score
       (map (evaluate_result time_suitable a.(Venue.search_criteria))
          a.(Venue.search_results)))
    a.

Definition booking_status_value (st : Venue.BookingStatus) : string :=
  match st with
  | Venue.PENDING => "pending"
  | Venue.CONFIRMED => "confirmed"
  | Venue.FAILED => "failed"
  | Venue.MANUAL_REQUIRED => "manual_required"
  end.

Definition set_booking_status (st : Venue.BookingStatus) (v : Venue.Venue)
    : Venue.Venue :=
  Venue.mkVenue v.(Venue.venue_id) v.(Venue.event_id) v.(Venue.venue_type)
    v.(Venue.name) v.(Venue.address) v.(Venue.capacity)
    v.(Venue.minimum_capacity) v.(Venue.features) st
    v.(Venue.estimated_cost_per_person) v.(Venue.rating)
    v.(Venue.wheelchair_accessible) v.(Venue.admin_notes).

Definition set_venue (v : Venue.Venue) (r : Venue.VenueSearchResult)
    : Venue.VenueSearchResult :=
  Venue.mkResult v r.(Venue.source_api) r.(Venue.suitability_score)
    r.(Venue.availability_confirmed) r.(Venue.booking_required)
    r.(Venue.estimated_total_cost) r.(Venue.notes).

Definition opt_int (o : option Z) : Py.Any :=
  match o with Some z => Py.AInt z | None => Py.ANone end.

(** [_notify_venue_selection], for a selected venue. *)
Definition notify_venue_selection (e : Env) (selected : Venue.Venue)
    (results : list Venue.VenueSearchResult) (b : Base.BaseAgent)
    : Base.BaseAgent :=
  let source :=
    match
      find (fun r => String.eqb r.(Venue.venue).(Venue.venue_id)
                       selected.(Venue.venue_id)) results
    with
    | Some r => r.(Venue.source_api)
    | None => "unknown"
    end in
  let notification :=
    Base.new_message e b.(Base.agent_id) None Base.EVENT "会場選択通知"
      [("event_type", Py.AStr "venue_selected");
       ("venue",
        Py.ADict
          [("venue_id", Py.AStr selected.(Venue.venue_id));
           ("name", Py.AStr selected.(Venue.name));
           ("address", Py.AStr selected.(Venue.address));
           ("capacity", Py.AInt selected.(Venue.capacity));
           ("estimated_cost",
            opt_int selected.(Venue.estimated_cost_per_person));
           ("booking_status",
            Py.AStr (booking_status_value selected.(Venue.booking_status)));
           ("source", Py.AStr source)])] in
  fst (fst (Base.send_message e notification b)).

(** [_select_best_venue].  The selected venue is the venue object of the
    first result: the booking status written through [selected_venue] is
    the one the first result shows afterwards. *)
Definition select_best_venue (e : Env) (a : Venue.VenueAgent)
    : option Venue.Venue * Venue.VenueAgent :=
  match a.(Venue.search_results) with
  | [] => (None, a)
  | best_result :: rest =>
      let selected :=
        set_booking_status
          (if String.eqb best_result.(Venue.source_api) "manual_fallback"
           then Venue.MANUAL_REQUIRED else Venue.PENDING)
          best_result.(Venue.venue) in
      let results := set_venue selected best_result :: rest in
      (Some selected,
       Venue.mkVenueAgent
         (notify_venue_selection e selected results a.(Venue.base))
         a.(Venue.agent_event_id) a.(Venue.google_places_api_key)
         a.(Venue.gurume_api_key) a.(Venue.current_event_type)
         a.(Venue.search_criteria) results (Some selected)
         a.(Venue.api_failures))
  end.

(** [Venue.add_feature]; the timestamp it refreshes is not a field of the
    record. *)
Definition add_feature (feature_name : string) (available : bool)
    (description : option string) (v : Venue.Venue) : Venue.Venue :=
  Venue.mkVenue v.(Venue.venue_id) v.(Venue.event_id) v.(Venue.venue_type)
    v.(Venue.name) v.(Venue.address) v.(Venue.capacity)
    v.(Venue.minimum_capacity)
    (v.(Venue.features)
     ++ [Venue.mkFeature feature_name available description])
    v.(Venue.booking_status) v.(Venue.estimated_cost_per_person)
    v.(Venue.rating) v.(Venue.wheelchair_accessible) v.(Venue.admin_notes).

End VenueView.

(** ** Further concrete states used by the examples *)

Module Ex2.

(** One and two minutes after [Ex.env0]. *)
Definition env1 : Env :=
  mkEnv 1700000060000000 "00000000-0000-4000-8000-000000000002".

Definition env2 : Env :=
  mkEnv 1700000120000000 "00000000-0000-4000-8000-000000000003".

(** The session of [Ex.session0] after its first two transitions. *)
Definition session_scheduling : Sess.CoordinationSession :=
  snd (Sess.transition_to_phase env1 Sess.SCHEDULE_COORDINATION
         (snd (Sess.transition_to_phase Ex.env0 Sess.PARTICIPANT_COLLECTION
                 Ex.session0))).




(** A command without expiry. *)
Definition msg_command : Base.AgentMessage :=
  Base.mkMessage "m-3" "agent-2" (Some "agent-1") Base.COMMAND Base.NORMAL
    "start" [] None 1699999990000000 None 0 None None [].

(** The coordinator of [Ex.coord_registered] after its own start: the
    collection phase is open and the participant agent is running. *)
Definition coord_collecting : Coord.CoordinationAgent :=
  snd (Flow.transition_to_phase Ex.env0 Sess.PARTICIPANT_COLLECTION
         Ex.coord_registered).

(** The same Tuesday, 19:00 to 21:00, preference level 3. *)
Definition late_evening : Sched.TimeSlot :=
  Sched.mkTimeSlot 1700593200000000 1700600400000000 3 None.

(** Three minutes after [Ex.env0]. *)
Definition env3 : Env :=
  mkEnv 1700000180000000 "00000000-0000-4000-8000-000000000004".

(** [Ex.venue_agent0] with both keys configured and no failure recorded. *)
Definition venue_agent_keyed : Venue.VenueAgent :=
  Venue.mkVenueAgent (Venue.base Ex.venue_agent0) "evt-1"
    (Some "places-key") (Some "gurume-key") Sched.DINING Ex.criteria0 []
    None [].

(** [venue_agent_keyed] after three rounds, a minute apart, in which both
    providers were down. *)
Definition venue_agent_thrice_failed : Venue.VenueAgent :=
  Venue.agent_after
    (Venue.search_venues (U := Ex.unicode0) env2 Ex.ids0 Ex.sources_down
       (Venue.agent_after
          (Venue.search_venues (U := Ex.unicode0) env1 Ex.ids0
             Ex.sources_down
             (Venue.agent_after
                (Venue.search_venues (U := Ex.unicode0) Ex.env0 Ex.ids0
                   Ex.sources_down venue_agent_keyed))))).

(** A dining event for five that requires step-free access, and an agent
    holding the results of one round with both providers up. *)
Definition criteria_accessible : Venue.VenueSearchCriteria :=
  Venue.mkCriteria Sched.DINING 5 1700589600000000 90 (Some 3000)
    "東京駅周辺" ["食事提供"] true.

Definition venue_agent_found : Venue.VenueAgent :=
  Venue.agent_after
    (Venue.search_venues (U := Ex.unicode0) Ex.env0 Ex.ids0 Ex.sources_up
       (Venue.mkVenueAgent (Venue.base Ex.venue_agent0) "evt-1"
          (Some "places-key") (Some "gurume-key") Sched.DINING
          criteria_accessible [] None [])).

(** [Ex.session_two_agents] after the participant agent has reported
    forty per cent on a new task. *)
Definition session_in_progress : Sess.CoordinationSession :=
  snd (Sess.update_agent_progress env1 "participant_agent" 40
         (Some "回答集計") Ex.session_two_agents).

(** A hook that does nothing and returns. *)
Definition hook_ok : Life.Hook := fun a => (a, None).

End Ex2.

(* ================================================================== *)
(** * Part II: properties                                              *)
(* ================================================================== *)

(** ** The session state machine *)

Section SessionFacts.

Import Sess.

Lemma phase_eqb_eq (p q : CoordinationPhase) :
  phase_eqb p q = true <-> p = q.
Proof. destruct p, q; simpl; split; intro H; congruence. Qed.

Lemma status_eqb_eq (a b : AgentStatus) :
  status_eqb a b = true <-> a = b.
Proof. destruct a, b; simpl; split; intro H; congruence. Qed.

Lemma phase_in_In (p : CoordinationPhase) (l : list CoordinationPhase) :
  phase_in p l = true <-> In p l.
Proof.
  unfold phase_in. rewrite existsb_exists. split.
  - intros [q [Hq He]]. apply phase_eqb_eq in He. now subst.
  - intro H. exists p. split; [assumption | now apply phase_eqb_eq].
Qed.

Lemma named_spec (name : string) (st : AgentStatus) (a : AgentInstance) :
  named name st a = true <-> agent_name a = name /\ status a = st.
Proof.
  unfold named. rewrite andb_true_iff, String.eqb_eq, status_eqb_eq.
  reflexivity.
Qed.

(** [update_first] either finds nothing or rewrites exactly the first
    instance that passes the test. *)
Lemma update_first_none test f l :
  update_first test f l = None <-> Forall (fun a => test a = false) l.
Proof.
  induction l as [|a l IH]; simpl.
  - split; [constructor | reflexivity].
  - destruct (test a) eqn:Ha.
    + split; [discriminate | intro H; inversion H; congruence].
    + destruct (update_first test f l).
      * split; [discriminate |].
        intro H. inversion H as [|? ? ? Hl]; subst.
        apply IH in Hl. discriminate.
      * split; [| reflexivity].
        intros _. constructor; [assumption | now apply IH].
Qed.

Lemma update_first_some test f l l' :
  update_first test f l = Some l' ->
  exists pre a post,
    l = pre ++ a :: post /\ l' = pre ++ f a :: post /\
    test a = true /\ Forall (fun b => test b = false) pre.
Proof.
  revert l'. induction l as [|a l IH]; simpl; intros l' H.
  - discriminate.
  - destruct (test a) eqn:Ha.
    + inversion H; subst. exists [], a, l. repeat split; auto.
    + destruct (update_first test f l) as [l''|]; [| discriminate].
      inversion H; subst.
      destruct (IH l'' eq_refl) as (pre & b & post & -> & -> & Hb & Hpre).
      exists (a :: pre), b, post. repeat split; auto.
Qed.

Lemma update_first_at test f pre a post :
  Forall (fun b => test b = false) pre -> test a = true ->
  update_first test f (pre ++ a :: post) = Some (pre ++ f a :: post).
Proof.
  induction pre as [|b pre IH]; simpl; intros Hpre Ha.
  - now rewrite Ha.
  - inversion Hpre as [|? ? Hb Hpre']; subst.
    rewrite Hb, (IH Hpre' Ha). reflexivity.
Qed.

Lemma dict_get_set {V : Type} (k k' : string) (v : V) (d : Py.Dict V) :
  Py.dict_get k (Py.dict_set k' v d) =
  if String.eqb k k' then Some v else Py.dict_get k d.
Proof.
  induction d as [|[k0 v0] d IH]; simpl.
  - reflexivity.
  - destruct (String.eqb k' k0) eqn:E0; simpl.
    + apply String.eqb_eq in E0; subst k0.
      destruct (String.eqb k k'); reflexivity.
    + destruct (String.eqb k k0) eqn:E1.
      * apply String.eqb_eq in E1; subst k0.
        destruct (String.eqb k k') eqn:E2; [| reflexivity].
        apply String.eqb_eq in E2; subst k'.
        rewrite String.eqb_refl in E0. discriminate.
      * apply IH.
Qed.

Lemma snapshot_fold_get (name : string) (l : list AgentInstance) :
  forall d : Py.Dict AgentState,
    Py.dict_get name
      (fold_left
         (fun d a => Py.dict_set (agent_name a) (state_of a) d) l d) =
    match last_named name l with
    | Some b => Some (state_of b)
    | None => Py.dict_get name d
    end.
Proof.
  induction l as [|a l IH]; simpl; intro d.
  - reflexivity.
  - rewrite IH. destruct (last_named name l); [reflexivity |].
    rewrite dict_get_set.
    destruct (String.eqb name (agent_name a)); reflexivity.
Qed.

Lemma snapshot_agents_get (name : string) (l : list AgentInstance) :
  Py.dict_get name (snapshot_agents l) =
  option_map state_of (last_named name l).
Proof.
  unfold snapshot_agents. rewrite snapshot_fold_get.
  destruct (last_named name l); reflexivity.
Qed.

(** Each method leaves the old checkpoints in front of the new list. *)
Lemma apply_op_checkpoints (eo : Env * Op) (s : CoordinationSession) :
  exists l, checkpoints (apply_op eo s) = checkpoints s ++ l.
Proof.
  destruct eo as [e o].
  destruct o; simpl;
    try (exists []; rewrite app_nil_r; reflexivity);
    try (eexists; reflexivity).
  - unfold transition_to_phase.
    destruct (phase_in _ _); simpl.
    + eexists; reflexivity.
    + exists []; now rewrite app_nil_r.
  - unfold start_agent.
    destruct (update_first _ _ _); simpl;
      exists []; now rewrite app_nil_r.
  - unfold complete_agent.
    destruct (update_first _ _ _); simpl;
      exists []; now rewrite app_nil_r.
  - unfold fail_agent.
    destruct (update_first _ _ _); simpl;
      exists []; now rewrite app_nil_r.
  - unfold update_agent_progress.
    destruct (update_first _ _ _); simpl;
      exists []; now rewrite app_nil_r.
Qed.

Lemma run_checkpoints (ops : list (Env * Op)) :
  forall s, exists l, checkpoints (run ops s) = checkpoints s ++ l.
Proof.
  induction ops as [|eo ops IH]; intro s.
  - exists []; simpl; now rewrite app_nil_r.
  - destruct (IH (apply_op eo s)) as [l2 H2].
    destruct (apply_op_checkpoints eo s) as [l1 H1].
    exists (l1 ++ l2).
    change (run (eo :: ops) s) with (run ops (apply_op eo s)).
    rewrite H2, H1. now rewrite app_assoc.
Qed.

End SessionFacts.

(** The coordination agent's own writes to its session keep the
    checkpoints. *)
Lemma coord_writes_keep_checkpoints (e : Env) (agent_name : string)
    (task : option string) (result : option (Py.Dict Py.Any))
    (c : Coord.CoordinationAgent) :
  Sess.checkpoints
    (Coord.coordination_session
       (snd (Coord.handle_agent_registration e agent_name c)))
    = Sess.checkpoints (Coord.coordination_session c) /\
  Sess.checkpoints
    (Coord.coordination_session
       (snd (Coord.start_agent e agent_name task c)))
    = Sess.checkpoints (Coord.coordination_session c) /\
  Sess.checkpoints
    (Coord.coordination_session
       (snd (Coord.handle_agent_completion e agent_name result c)))
    = Sess.checkpoints (Coord.coordination_session c).
Proof.
  split; [reflexivity | split].
  - unfold Coord.start_agent.
    destruct (Py.dict_get agent_name (Coord.managed_agents c)); [| reflexivity].
    destruct (Coord.managed c agent_name); [| reflexivity].
    destruct (Coord.check_dependencies c (Coord.agent_dependencies agent_name));
      try reflexivity.
    unfold Sess.start_agent.
    destruct (Sess.update_first _ _ _); reflexivity.
  - unfold Coord.handle_agent_completion.
    destruct (Py.truthy_str agent_name); [| reflexivity].
    unfold Sess.complete_agent.
    destruct (Sess.update_first _ _ _); reflexivity.
Qed.

(** C1.  A transition that the legal-transition table does not list for the
    current phase is refused: [transition_to_phase] answers [False] and the
    session it hands back is the one it was given, field by field; in
    particular [current_phase], [previous_phase] and [checkpoints] are as
    before the call. *)
Theorem transition_outside_table_rejected
    (e : Env) (target : Sess.CoordinationPhase) (s : Sess.CoordinationSession) :
  ~ In target (Sess.valid_transitions (Sess.current_phase s)) ->
  Sess.transition_to_phase e target s = (false, s) /\
  Sess.current_phase (snd (Sess.transition_to_phase e target s))
    = Sess.current_phase s /\
  Sess.previous_phase (snd (Sess.transition_to_phase e target s))
    = Sess.previous_phase s /\
  Sess.checkpoints (snd (Sess.transition_to_phase e target s))
    = Sess.checkpoints s.
Proof.
  intro Hnot.
  assert (E : Sess.transition_to_phase e target s = (false, s)).
  { unfold Sess.transition_to_phase.
    destruct (Sess.phase_in target _) eqn:Hin; [| reflexivity].
    apply phase_in_In in Hin. contradiction. }
  rewrite E. repeat split.
Qed.

(** Scenario D of the specification: at Announcement, a transition back to
    ParticipantCollection is refused and the phase stays Announcement. *)
Lemma transition_outside_table_rejected_witness :
  Sess.current_phase Ex.session_announcement = Sess.ANNOUNCEMENT /\
  Sess.transition_to_phase Ex.env0 Sess.PARTICIPANT_COLLECTION
    Ex.session_announcement = (false, Ex.session_announcement).
Proof.
  split; [reflexivity |].
  apply (transition_outside_table_rejected Ex.env0 Sess.PARTICIPANT_COLLECTION
           Ex.session_announcement).
  simpl. intros [H | []]. discriminate H.
Defined.

(** C2.  An accepted [transition_to_phase] appends exactly one checkpoint,
    which records the target phase, the workflow data and, for every agent
    name, the status, progress and task of the tracked instance of that name
    (the last one when a name is tracked twice).  No method of the session
    removes a checkpoint: each call leaves the old list as a prefix of the
    new one, so over any sequence of calls the length never decreases.  The
    writes that the coordination agent makes to its session directly
    (registering an agent, marking it Waiting, starting and completing it)
    leave the list as it is. *)
Theorem checkpoints_append_only :
  (forall (e : Env) (target : Sess.CoordinationPhase)
          (s s' : Sess.CoordinationSession),
      Sess.transition_to_phase e target s = (true, s') ->
      exists cp,
        Sess.checkpoints s' = Sess.checkpoints s ++ [cp] /\
        Sess.phase cp = target /\
        Sess.data_snapshot cp = Sess.workflow_data s /\
        (forall name a,
            Sess.last_named name (Sess.active_agents s) = Some a ->
            exists st,
              Py.dict_get name (Sess.agent_states cp) = Some st /\
              Sess.st_status st = Sess.status a /\
              Sess.st_progress st = Sess.progress_percentage a /\
              Sess.st_current_task st = Sess.current_task a) /\
        (forall name,
            Sess.last_named name (Sess.active_agents s) = None ->
            Py.dict_get name (Sess.agent_states cp) = None)) /\
  (forall (eo : Env * Sess.Op) (s : Sess.CoordinationSession),
      exists l,
        Sess.checkpoints (Sess.apply_op eo s) = Sess.checkpoints s ++ l) /\
  (forall (ops : list (Env * Sess.Op)) (s : Sess.CoordinationSession),
      (List.length (Sess.checkpoints s)
       <= List.length (Sess.checkpoints (Sess.run ops s)))%nat) /\
  (forall (e : Env) (agent_name : string) (task : option string)
          (result : option (Py.Dict Py.Any)) (c : Coord.CoordinationAgent),
      Sess.checkpoints
        (Coord.coordination_session
           (snd (Coord.handle_agent_registration e agent_name c)))
        = Sess.checkpoints (Coord.coordination_session c) /\
      Sess.checkpoints
        (Coord.coordination_session
           (snd (Coord.start_agent e agent_name task c)))
        = Sess.checkpoints (Coord.coordination_session c) /\
      Sess.checkpoints
        (Coord.coordination_session
           (snd (Coord.handle_agent_completion e agent_name result c)))
        = Sess.checkpoints (Coord.coordination_session c)).
Proof.
  split; [| split; [| split]]; [| | | apply coord_writes_keep_checkpoints].
  - intros e target s s' H. unfold Sess.transition_to_phase in H.
    destruct (Sess.phase_in target _); [| discriminate].
    inversion H; subst s'; clear H. simpl.
    eexists. split; [reflexivity |]. simpl.
    split; [reflexivity |]. split; [reflexivity |]. split.
    + intros name a Ha. rewrite snapshot_agents_get, Ha.
      eexists. split; [reflexivity |]. repeat split.
    + intros name Hnone. rewrite snapshot_agents_get, Hnone. reflexivity.
  - apply apply_op_checkpoints.
  - intros ops s. destruct (run_checkpoints ops s) as [l ->].
    rewrite length_app. lia.
Qed.

(** A session that tracks a participant agent at forty per cent of its
    task and an idle scheduling agent enters the collection phase: the one
    checkpoint shows the first as Active at 40 on that task and the second
    as Idle at 0 without a task, and nothing for a name that is not
    tracked. *)
Lemma checkpoints_append_only_witness :
  exists cp,
    Sess.checkpoints
      (snd (Sess.transition_to_phase Ex2.env2 Sess.PARTICIPANT_COLLECTION
              Ex2.session_in_progress)) = [cp] /\
    Sess.phase cp = Sess.PARTICIPANT_COLLECTION /\
    Py.dict_get "participant_agent" (Sess.agent_states cp)
      = Some (Sess.mkAgentState Sess.ACTIVE 40 (Some "回答集計")) /\
    Py.dict_get "scheduling_agent" (Sess.agent_states cp)
      = Some (Sess.mkAgentState Sess.IDLE 0 None) /\
    Py.dict_get "venue_agent" (Sess.agent_states cp) = None.
Proof.
  destruct checkpoints_append_only as (Hstep & _).
  destruct (Hstep Ex2.env2 Sess.PARTICIPANT_COLLECTION
              Ex2.session_in_progress _ eq_refl)
    as (cp & Hcp & Hphase & _ & Hstates & Hnone).
  exists cp. split; [exact Hcp |]. split; [exact Hphase |].
  split; [| split].
  - destruct (Hstates "participant_agent" _ eq_refl)
      as ([st pr tk] & -> & H1 & H2 & H3).
    cbn in H1, H2, H3. now subst.
  - destruct (Hstates "scheduling_agent" _ eq_refl)
      as ([st pr tk] & -> & H1 & H2 & H3).
    cbn in H1, H2, H3. now subst.
  - apply Hnone. reflexivity.
Defined.

(** C10.  [complete_agent] answers [True] exactly when some tracked
    instance carries the name with status Active.  It then turns the first
    such instance to Completed with progress 100, leaves every other
    instance as it was, and appends the name to [completed_agents].  When no
    instance of the name is Active it answers [False] and hands back the
    session it was given. *)
Theorem complete_agent_only_active
    (e : Env) (name : string) (result : option (Py.Dict Py.Any))
    (s : Sess.CoordinationSession) :
  (fst (Sess.complete_agent e name result s) = true <->
   exists a, In a (Sess.active_agents s) /\
             Sess.agent_name a = name /\ Sess.status a = Sess.ACTIVE) /\
  (fst (Sess.complete_agent e name result s) = true ->
   exists pre a a' post,
     Sess.active_agents s = pre ++ a :: post /\
     Sess.agent_name a = name /\ Sess.status a = Sess.ACTIVE /\
     Forall (fun b => ~ (Sess.agent_name b = name /\
                         Sess.status b = Sess.ACTIVE)) pre /\
     Sess.active_agents (snd (Sess.complete_agent e name result s))
       = pre ++ a' :: post /\
     Sess.agent_name a' = name /\ Sess.agent_id a' = Sess.agent_id a /\
     Sess.status a' = Sess.DONE /\ Sess.progress_percentage a' = 100 /\
     Sess.completed_agents (snd (Sess.complete_agent e name result s))
       = Sess.completed_agents s ++ [name]) /\
  ((forall a, In a (Sess.active_agents s) ->
              ~ (Sess.agent_name a = name /\ Sess.status a = Sess.ACTIVE)) ->
   Sess.complete_agent e name result s = (false, s)).
Proof.
  unfold Sess.complete_agent.
  destruct (Sess.update_first (Sess.named name Sess.ACTIVE) _
              (Sess.active_agents s)) as [l|] eqn:U.
  - apply update_first_some in U.
    destruct U as (pre & a & post & Hs & Hl & Ha & Hpre).
    apply named_spec in Ha. destruct Ha as [Hn Hst].
    assert (Hpre' : Forall (fun b => ~ (Sess.agent_name b = name /\
                                        Sess.status b = Sess.ACTIVE)) pre).
    { eapply Forall_impl; [| exact Hpre]. simpl. intros b Hb Hc.
      apply named_spec in Hc. congruence. }
    split; [| split].
    + split; [| reflexivity]. intros _. exists a.
      rewrite Hs. split; [apply in_elt | auto].
    + intros _. exists pre, a. eexists. exists post. simpl.
      split; [exact Hs |]. split; [exact Hn |]. split; [exact Hst |].
      split; [exact Hpre' |]. split; [exact Hl |]. simpl.
      repeat split; assumption.
    + intro Hnone. exfalso. apply (Hnone a); [| auto].
      rewrite Hs. apply in_elt.
  - apply update_first_none in U. rewrite Forall_forall in U.
    split; [| split].
    + split; [discriminate |]. intros (a & Hin & Hn & Hst).
      specialize (U a Hin).
      assert (Sess.named name Sess.ACTIVE a = true) by now apply named_spec.
      congruence.
    + discriminate.
    + reflexivity.
Qed.

Lemma complete_agent_only_active_witness :
  fst (Sess.complete_agent Ex.env0 "participant_agent" None
         Ex.session_two_agents) = true /\
  Sess.complete_agent Ex.env0 "scheduling_agent" None Ex.session_two_agents
    = (false, Ex.session_two_agents).
Proof.
  split.
  - apply (complete_agent_only_active Ex.env0 "participant_agent" None
             Ex.session_two_agents).
    eexists. split; [left; reflexivity | split; reflexivity].
  - apply (complete_agent_only_active Ex.env0 "scheduling_agent" None
             Ex.session_two_agents).
    intros a Hin [Hn Hst]. simpl in Hin.
    destruct Hin as [<- | [<- | []]]; simpl in *; discriminate.
Defined.

(** ** The message substrate *)

(** C3.  A message whose [expires_at] is set and lies before the current
    time is dropped by [handle_message]: no handler is called (the effect
    trace is empty), no response is returned, and the agent is exactly as
    before, so its receive counter has not moved. *)
Theorem expired_message_never_dispatched
    (e : Env) (m : Base.AgentMessage) (a : Base.BaseAgent) (t : Z) :
  Base.expires_at m = Some t ->
  t < now e ->
  Base.handle_message e m a = (a, None, []) /\
  Base.messages_received
    (Base.metrics (fst (fst (Base.handle_message e m a))))
    = Base.messages_received (Base.metrics a).
Proof.
  intros Hexp Hlt.
  assert (E : Base.handle_message e m a = (a, None, [])).
  { unfold Base.handle_message, Base.is_expired. rewrite Hexp.
    apply Z.ltb_lt in Hlt. now rewrite Hlt. }
  rewrite E. split; reflexivity.
Qed.

Lemma expired_message_never_dispatched_witness :
  Base.handler_get Base.COMMAND (Base.message_handlers Ex.agent0) <> None /\
  Base.handle_message Ex.env0 Ex.msg_expired Ex.agent0
    = (Ex.agent0, None, []).
Proof.
  split; [discriminate |].
  apply (expired_message_never_dispatched Ex.env0 Ex.msg_expired Ex.agent0
           (t := 1699999999999999)); [reflexivity | reflexivity].
Defined.

(** The same command without an expiry reaches the handler. *)
Example unexpired_message_dispatched :
  snd (Base.handle_message Ex.env0
         (Base.mkMessage "m-1" "agent-2" (Some "agent-1") Base.COMMAND
            Base.NORMAL "start" [] None 1699999990000000 None 0 None None [])
         Ex.agent0)
  = [Base.HandlerCalled Base.COMMAND
       (Base.mkMessage "m-1" "agent-2" (Some "agent-1") Base.COMMAND
          Base.NORMAL "start" [] None 1699999990000000 None 0 None None [])].
Proof. reflexivity. Qed.

(** C9 as worded fails: [send_message] overwrites a sender id that the
    message already carries. *)
Lemma send_overwrites_sender_id :
  ~ Claims.send_keeps_present_ids Ex.env0 Ex.msg_foreign Ex.agent0.
Proof.
  unfold Claims.send_keeps_present_ids. simpl.
  intros [Hsender _]. specialize (Hsender eq_refl). discriminate Hsender.
Qed.

(** C9, amended.  [send_message] always sets the sender id to the sending
    agent's id.  An event id or session id that the message already carries
    (non-empty) is left as it is; an absent or empty one is replaced by the
    agent's when the agent has one.  With no bus attached the stamped message
    is appended to the pending queue and nothing is published. *)
Theorem send_message_stamps
    (e : Env) (m : Base.AgentMessage) (a : Base.BaseAgent) :
  let '(a', m', fx) := Base.send_message e m a in
  Base.sender_id m' = Base.agent_id a /\
  (Py.truthy_opt_str (Base.event_id m) = true ->
   Base.event_id m' = Base.event_id m) /\
  (Py.truthy_opt_str (Base.session_id m) = true ->
   Base.session_id m' = Base.session_id m) /\
  (Py.truthy_opt_str (Base.event_id m) = false ->
   Py.truthy_opt_str (Base.agent_event_id a) = true ->
   Base.event_id m' = Base.agent_event_id a) /\
  (Py.truthy_opt_str (Base.session_id m) = false ->
   Py.truthy_opt_str (Base.agent_session_id a) = true ->
   Base.session_id m' = Base.agent_session_id a) /\
  (Base.message_bus a = None ->
   Base.pending_messages a' = Base.pending_messages a ++ [m'] /\
   Base.message_bus a' = None /\ fx = []).
Proof.
  assert (Hst : Base.sender_id (Base.stamp a m) = Base.agent_id a /\
    (Py.truthy_opt_str (Base.event_id m) = true ->
     Base.event_id (Base.stamp a m) = Base.event_id m) /\
    (Py.truthy_opt_str (Base.session_id m) = true ->
     Base.session_id (Base.stamp a m) = Base.session_id m) /\
    (Py.truthy_opt_str (Base.event_id m) = false ->
     Py.truthy_opt_str (Base.agent_event_id a) = true ->
     Base.event_id (Base.stamp a m) = Base.agent_event_id a) /\
    (Py.truthy_opt_str (Base.session_id m) = false ->
     Py.truthy_opt_str (Base.agent_session_id a) = true ->
     Base.session_id (Base.stamp a m) = Base.agent_session_id a)).
  { unfold Base.stamp. simpl.
    destruct (Py.truthy_opt_str (Base.event_id m)) eqn:He;
    destruct (Py.truthy_opt_str (Base.agent_event_id a)) eqn:Hae;
    destruct (Py.truthy_opt_str (Base.session_id m)) eqn:Hs;
    destruct (Py.truthy_opt_str (Base.agent_session_id a)) eqn:Has;
    simpl; rewrite ?Hs; simpl;
    repeat split; intros; try reflexivity; try discriminate. }
  unfold Base.send_message.
  destruct (Base.message_bus a) as [bus|] eqn:Hbus; simpl.
  - destruct Hst as (H1 & H2 & H3 & H4 & H5).
    repeat split; auto; discriminate.
  - destruct Hst as (H1 & H2 & H3 & H4 & H5).
    repeat split; auto.
Qed.

Lemma send_message_stamps_witness :
  let '(a', m', fx) :=
    Base.send_message Ex.env0 Ex.msg_foreign Ex.agent0 in
  Base.sender_id m' = "agent-1" /\
  Base.event_id m' = Some "evt-9" /\
  Base.session_id m' = Some "sess-1" /\
  Base.pending_messages a' = [m'] /\ fx = [].
Proof.
  pose proof (send_message_stamps Ex.env0 Ex.msg_foreign Ex.agent0) as H.
  destruct (Base.send_message Ex.env0 Ex.msg_foreign Ex.agent0)
    as [[a' m'] fx] eqn:E.
  destruct H as (H1 & H2 & _ & _ & H5 & H6).
  split; [exact H1 |].
  split; [exact (H2 eq_refl) |].
  split; [exact (H5 eq_refl eq_refl) |].
  destruct (H6 eq_refl) as (Hp & _ & Hfx).
  split; [exact Hp | exact Hfx].
Defined.

(** ** The dependency-ordered start of agents *)

Section CoordFacts.

Import Coord.

Lemma nth_error_update_at i f l a :
  nth_error l i = Some a -> nth_error (update_at i f l) i = Some (f a).
Proof.
  revert i. induction l as [|b l IH]; intros [|i]; simpl; intro H;
    try discriminate.
  - now inversion H.
  - now apply IH.
Qed.

(** The loop over the dependencies stops at the first one that is not a
    registered, Completed agent. *)
Lemma check_dependencies_satisfied c deps :
  check_dependencies c deps = Satisfied <->
  forall dep, In dep deps -> status_of c dep = Some Sess.DONE.
Proof.
  unfold status_of. induction deps as [|d deps IH]; simpl.
  - split; [intros _ dep [] | reflexivity].
  - destruct (managed c d) as [a|] eqn:M.
    + destruct (Sess.status_eqb (Sess.status a) Sess.DONE) eqn:S.
      * apply status_eqb_eq in S. rewrite IH. split.
        -- intros H dep [<- | Hin]; [rewrite M; simpl; now rewrite S | auto].
        -- intros H dep Hin. apply H. now right.
      * split; [discriminate |]. intro H.
        specialize (H d (or_introl eq_refl)). rewrite M in H. simpl in H.
        inversion H as [H']. rewrite H' in S. discriminate.
    + split; [discriminate |]. intro H.
      specialize (H d (or_introl eq_refl)). rewrite M in H. discriminate.
Qed.

Lemma check_dependencies_first c pre d post :
  (forall dep, In dep pre -> status_of c dep = Some Sess.DONE) ->
  check_dependencies c (pre ++ d :: post) =
  match status_of c d with
  | None => Unregistered d
  | Some Sess.DONE => check_dependencies c post
  | Some _ => NotCompleted d
  end.
Proof.
  unfold status_of. induction pre as [|p pre IH]; simpl; intro Hpre.
  - destruct (managed c d) as [a|]; simpl; [| reflexivity].
    destruct (Sess.status a); reflexivity.
  - pose proof (Hpre p (or_introl eq_refl)) as Hp.
    destruct (managed c p) as [a|]; simpl in Hp; [| discriminate].
    inversion Hp as [Hp']. rewrite Hp'. simpl. apply IH.
    intros dep Hin. apply Hpre. now right.
Qed.

End CoordFacts.

(** C4 as worded fails twice over.  An agent that is registered, has all its
    dependencies Completed, but is itself no longer Idle is not started; and
    an agent one of whose dependencies is not registered is refused without
    being marked Waiting, whatever the status of its other dependencies. *)
Lemma start_not_only_gated_by_dependencies :
  ~ Claims.start_gated_by_dependencies Ex.env0 "participant_agent" None
      Ex.coord_participant_done /\
  ~ Claims.start_gated_by_dependencies Ex.env0 "calendar_agent" None
      Ex.coord_no_scheduling.
Proof.
  split; intro H.
  - destruct (H ltac:(discriminate)) as [_ Hstart].
    destruct Hstart as [Hok _]; [intros dep [] |].
    vm_compute in Hok. discriminate Hok.
  - destruct (H ltac:(discriminate)) as [Hwait _].
    destruct Hwait as [_ Hst].
    + exists "venue_agent", Sess.IDLE.
      split; [right; left; reflexivity |].
      split; [reflexivity | discriminate].
    + vm_compute in Hst. discriminate Hst.
Qed.

(** C4, amended.  For a registered agent, [_start_agent] walks the declared
    dependencies in order.  If the first dependency that is not a Completed
    agent is not registered, it fails and changes nothing.  If that
    dependency is registered with a status other than Completed, it fails and
    sets the agent's status to Waiting.  If every declared dependency is
    registered and Completed and the session tracks an Idle instance of the
    name, it succeeds: the first such instance becomes Active with its start
    time stamped, and that instance is the registered agent's own when it
    sits at the registered position. *)
Theorem start_agent_dependency_gate
    (e : Env) (agent_name : string) (task : option string)
    (c : Coord.CoordinationAgent) (position : nat) (a : Sess.AgentInstance) :
  Py.dict_get agent_name (Coord.managed_agents c) = Some position ->
  nth_error (Sess.active_agents (Coord.coordination_session c)) position
    = Some a ->
  (forall pre d post,
      Coord.agent_dependencies agent_name = pre ++ d :: post ->
      (forall dep, In dep pre -> Coord.status_of c dep = Some Sess.DONE) ->
      Coord.status_of c d = None ->
      Coord.start_agent e agent_name task c = (false, c)) /\
  (forall pre d post st,
      Coord.agent_dependencies agent_name = pre ++ d :: post ->
      (forall dep, In dep pre -> Coord.status_of c dep = Some Sess.DONE) ->
      Coord.status_of c d = Some st -> st <> Sess.DONE ->
      fst (Coord.start_agent e agent_name task c) = false /\
      Coord.status_of (snd (Coord.start_agent e agent_name task c)) agent_name
        = Some Sess.WAITING) /\
  ((forall dep, In dep (Coord.agent_dependencies agent_name) ->
                Coord.status_of c dep = Some Sess.DONE) ->
   forall pre x post,
     Sess.active_agents (Coord.coordination_session c) = pre ++ x :: post ->
     Sess.named agent_name Sess.IDLE x = true ->
     Forall (fun b => Sess.named agent_name Sess.IDLE b = false) pre ->
     fst (Coord.start_agent e agent_name task c) = true /\
     exists x',
       Sess.active_agents
         (Coord.coordination_session
            (snd (Coord.start_agent e agent_name task c)))
         = pre ++ x' :: post /\
       Sess.agent_name x' = agent_name /\
       Sess.status x' = Sess.ACTIVE /\
       Sess.started_at x' = Some (now e) /\
       (position = List.length pre ->
        Coord.status_of (snd (Coord.start_agent e agent_name task c))
          agent_name = Some Sess.ACTIVE)).
Proof.
  intros Hpos Ha.
  assert (Hm : Coord.managed c agent_name = Some a).
  { unfold Coord.managed. now rewrite Hpos. }
  split; [| split].
  - intros pre d post Hdeps Hpre Hd.
    unfold Coord.start_agent. rewrite Hpos, Hm, Hdeps.
    rewrite (check_dependencies_first c pre d post Hpre), Hd. reflexivity.
  - intros pre d post st Hdeps Hpre Hd Hst.
    unfold Coord.start_agent. rewrite Hpos, Hm, Hdeps.
    rewrite (check_dependencies_first c pre d post Hpre), Hd.
    assert (E : match st with
                | Sess.DONE => Coord.check_dependencies c post
                | _ => Coord.NotCompleted d
                end = Coord.NotCompleted d)
      by (destruct st; try reflexivity; congruence).
    rewrite E. simpl. split; [reflexivity |].
    unfold Coord.status_of, Coord.managed. simpl. rewrite Hpos.
    rewrite (nth_error_update_at _ _ _ Ha). reflexivity.
  - intros Hall pre x post Hl Hx Hfirst.
    apply check_dependencies_satisfied in Hall.
    unfold Coord.start_agent. rewrite Hpos, Hm, Hall.
    unfold Sess.start_agent. rewrite Hl.
    rewrite (update_first_at _ _ _ post Hfirst Hx). simpl.
    split; [reflexivity |].
    apply named_spec in Hx. destruct Hx as [Hn _].
    eexists. split; [reflexivity |]. simpl.
    split; [exact Hn |]. split; [reflexivity |]. split; [reflexivity |].
    intros ->. unfold Coord.status_of, Coord.managed. simpl. rewrite Hpos.
    rewrite nth_error_app2 by lia. rewrite Nat.sub_diag. reflexivity.
Qed.

(** Scenario B of the specification: the venue agent is started while the
    scheduling agent is Active; the start fails and the venue agent becomes
    Waiting.  And once registered with nothing to wait for, the participant
    agent starts and becomes Active. *)
Lemma start_agent_dependency_gate_witness :
  Coord.status_of Ex.coord_scheduling_active "scheduling_agent"
    = Some Sess.ACTIVE /\
  (fst (Coord.start_agent Ex.env0 "venue_agent" None
          Ex.coord_scheduling_active) = false /\
   Coord.status_of
     (snd (Coord.start_agent Ex.env0 "venue_agent" None
             Ex.coord_scheduling_active)) "venue_agent"
     = Some Sess.WAITING) /\
  fst (Coord.start_agent Ex.env0 "participant_agent" None
         Ex.coord_registered) = true.
Proof.
  split; [reflexivity |]. split.
  - destruct (start_agent_dependency_gate Ex.env0 "venue_agent" None
                Ex.coord_scheduling_active (position := 2)
                (a := Sess.mkAgentInstance "venue_agent"
                        "00000000-0000-4000-8000-000000000001" Sess.IDLE
                        None None None None 0 [] 0)
                eq_refl eq_refl) as (_ & Hwait & _).
    apply (Hwait [] "scheduling_agent" [] Sess.ACTIVE eq_refl).
    + intros dep [].
    + reflexivity.
    + discriminate.
  - destruct (start_agent_dependency_gate Ex.env0 "participant_agent" None
                Ex.coord_registered (position := 0)
                (a := Sess.mkAgentInstance "participant_agent"
                        "00000000-0000-4000-8000-000000000001" Sess.IDLE
                        None None None None 0 [] 0)
                eq_refl eq_refl) as (_ & _ & Hstart).
    destruct (Hstart ltac:(intros dep []) [] _ _ eq_refl eq_refl
                (Forall_nil _)) as [Hok _].
    exact Hok.
Defined.

(** ** The scheduling optimizer *)

Section SortFacts.

Variable A : Type.
Variable key : A -> Q.

Lemma insert_desc_In (x y : A) (l : list A) :
  In y (Py.insert_desc key x l) <-> y = x \/ In y l.
Proof.
  induction l as [|z l IH]; simpl.
  - intuition.
  - destruct (Qle_bool (key z) (key x)); simpl; [intuition congruence |].
    rewrite IH. intuition congruence.
Qed.

Lemma sort_desc_In (y : A) (l : list A) :
  In y (Py.sort_desc key l) <-> In y l.
Proof.
  induction l as [|x l IH]; simpl; [reflexivity |].
  rewrite insert_desc_In, IH. intuition congruence.
Qed.

Lemma insert_desc_sorted (x : A) (l : list A) :
  StronglySorted (Py.desc key) l ->
  StronglySorted (Py.desc key) (Py.insert_desc key x l).
Proof.
  induction l as [|z l IH]; simpl; intro Hs.
  - constructor; constructor.
  - inversion Hs as [|? ? Hl Hz]; subst.
    destruct (Qle_bool (key z) (key x)) eqn:E.
    + apply Qle_bool_iff in E. constructor; [assumption |].
      constructor; [exact E |].
      rewrite Forall_forall in Hz |- *. intros w Hw.
      unfold Py.desc in *. eapply Qle_trans; [apply (Hz w Hw) | exact E].
    + constructor; [now apply IH |].
      rewrite Forall_forall in Hz |- *. intros w Hw.
      apply insert_desc_In in Hw. destruct Hw as [-> | Hw]; [| auto].
      unfold Py.desc. apply Qnot_lt_le. intro Hlt.
      assert (Hle : (key z <= key x)%Q) by now apply Qlt_le_weak.
      apply Qle_bool_iff in Hle. congruence.
Qed.

Lemma sort_desc_sorted (l : list A) :
  StronglySorted (Py.desc key) (Py.sort_desc key l).
Proof.
  induction l as [|x l IH]; simpl; [constructor |].
  now apply insert_desc_sorted.
Qed.

Lemma firstn_incl (n : nat) (l : list A) (x : A) :
  In x (firstn n l) -> In x l.
Proof.
  intro H. rewrite <- (firstn_skipn n l). apply in_or_app. now left.
Qed.

Lemma firstn_sorted (n : nat) (l : list A) :
  StronglySorted (Py.desc key) l -> StronglySorted (Py.desc key) (firstn n l).
Proof.
  revert n. induction l as [|x l IH]; intros [|n] Hs; simpl;
    try constructor.
  - inversion Hs; subst. now apply IH.
  - inversion Hs as [|? ? _ Hx]; subst.
    rewrite Forall_forall in Hx |- *. intros w Hw.
    apply Hx. eapply firstn_incl; eauto.
Qed.

End SortFacts.

Lemma collect_options_quorum t ids drawn analyses :
  Forall (fun o => (2 <= List.length (Sched.available_participants o))%nat)
    (Sched.collect_options t ids drawn analyses).
Proof.
  revert drawn.
  induction analyses as [|a rest IH]; intro drawn;
    cbn [Sched.collect_options].
  - constructor.
  - destruct (Nat.leb 2 (List.length (Sched.participants_available a))) eqn:E.
    + constructor; [| apply IH]. simpl. now apply Nat.leb_le.
    + apply IH.
Qed.

(** C6.  Whatever the participants and their declared slots, the list
    returned (and stored) by [_optimize_schedule] holds only options with at
    least two available participants, is sorted by descending total score
    and has at most five entries; [_select_best_schedule] then picks its
    first entry, and reports no schedule when the list is empty. *)
Theorem optimizer_output_ranked
    (e e' : Env) (ids : nat -> string) (a : Sched.SchedulingAgent) :
  let out := fst (Sched.optimize_schedule e ids a) in
  let a' := snd (Sched.optimize_schedule e ids a) in
  Forall (fun o => (2 <= List.length (Sched.available_participants o))%nat)
    out /\
  StronglySorted
    (fun x y => (Sched.total_score y <= Sched.total_score x)%Q) out /\
  (List.length out <= 5)%nat /\
  Sched.schedule_options a' = out /\
  fst (Sched.select_best_schedule e' a') = nth_error out 0 /\
  (out <> [] ->
   Sched.selected_schedule (snd (Sched.select_best_schedule e' a'))
     = nth_error out 0).
Proof.
  unfold Sched.optimize_schedule.
  cbn [fst snd Sched.schedule_options Sched.set_schedule_options].
  set (options := Sched.collect_options _ _ _ _).
  set (sorted := Py.sort_desc Sched.total_score options).
  split; [| split; [| split; [| split; [| split]]]].
  - rewrite Forall_forall. intros o Ho. apply firstn_incl in Ho.
    apply sort_desc_In in Ho.
    pose proof (collect_options_quorum (Sched.current_event_type a) ids 0
                  (Sched.analyze_time_slots e a)) as H.
    rewrite Forall_forall in H. now apply H.
  - apply (firstn_sorted (key := Sched.total_score)).
    apply sort_desc_sorted.
  - apply firstn_le_length.
  - reflexivity.
  - unfold Sched.select_best_schedule.
    cbn [Sched.schedule_options Sched.set_schedule_options].
    destruct (firstn 5 sorted); reflexivity.
  - intro Hne. unfold Sched.select_best_schedule.
    cbn [Sched.schedule_options Sched.set_schedule_options].
    destruct (firstn 5 sorted); [congruence | reflexivity].
Qed.

(** Scenario A of the specification: the optimizer ranks Tuesday
    18:00-19:30 first, with every participant available, and selects it. *)
Lemma optimizer_output_ranked_witness :
  let out := fst (Sched.optimize_schedule Ex.env0 Ex.ids0 Ex.sched_scenario_a) in
  (List.length out <= 5)%nat /\
  option_map (fun o => (Sched.opt_start_time o, Sched.opt_end_time o,
                        List.length (Sched.available_participants o),
                        List.length (Sched.unavailable_participants o)))
    (fst (Sched.select_best_schedule Ex.env0
            (snd (Sched.optimize_schedule Ex.env0 Ex.ids0
                    Ex.sched_scenario_a))))
  = Some (1700589600000000, 1700595000000000, 5%nat, 0%nat).
Proof.
  pose proof (optimizer_output_ranked Ex.env0 Ex.env0 Ex.ids0
                Ex.sched_scenario_a) as H.
  cbv zeta in H. destruct H as (_ & _ & Hlen & _ & Hsel & _).
  split; [exact Hlen |].
  etransitivity; [apply f_equal; exact Hsel |].
  vm_compute. reflexivity.
Defined.

(** *** The analysis of one candidate, loop by loop *)

Section AnalysisFacts.

Import Sched.
Local Open Scope Q_scope.

Variable candidate : TimeSlot.

Lemma fold_left_max (l : list Z) :
  forall m : Z, (0 <= m)%Z ->
    fold_left Z.max l m = Z.max m (fold_right Z.max 0%Z l).
Proof.
  induction l as [|x l IH]; simpl; intros m Hm.
  - lia.
  - rewrite IH by lia. lia.
Qed.

Lemma fold_right_max_nonneg (l : list Z) : (0 <= fold_right Z.max 0%Z l)%Z.
Proof. induction l; simpl; lia. Qed.

(** The inner loop, from any state it is entered in. *)
Lemma scan_fold (user_id : string) (user_slots : list TimeSlot) :
  forall st : UserScan,
    let r := fold_left (scan_step candidate user_id) user_slots st in
    is_available r
      = (is_available st || existsb (slots_overlap candidate) user_slots)%bool
    /\ max_preference r
       = fold_left Z.max
           (map preference_level
              (filter (slots_overlap candidate) user_slots))
           (max_preference st)
    /\ appended r
       = (appended st
          ++ map (fun s => mkConflict user_id (start_time s) (end_time s))
               (filter (SchedSpec.partial_overlap candidate) user_slots))%list.
Proof.
  induction user_slots as [|s l IH]; intro st; cbv zeta.
  - simpl. rewrite orb_false_r, app_nil_r. auto.
  - cbn [fold_left]. destruct (IH (scan_step candidate user_id st s))
      as (Ha & Hm & Hc).
    cbv zeta in Ha, Hm, Hc. rewrite Ha, Hm, Hc. clear Ha Hm Hc IH.
    unfold scan_step, SchedSpec.partial_overlap. cbn [existsb filter].
    destruct (slots_overlap candidate s); cbn [andb negb orb map fold_left
      is_available max_preference appended].
    + rewrite orb_true_r.
      destruct (slot_fully_contains s candidate); cbn [negb map];
        repeat split; try reflexivity.
      now rewrite <- app_assoc.
    + repeat split; reflexivity.
Qed.

Lemma scan_user_spec (user_id : string) (user_slots : list TimeSlot) :
  is_available (scan_user candidate user_id user_slots)
    = SchedSpec.available candidate (user_id, user_slots)
  /\ max_preference (scan_user candidate user_id user_slots)
     = SchedSpec.best_level candidate user_slots
  /\ List.length (appended (scan_user candidate user_id user_slots))
     = List.length
         (filter (SchedSpec.partial_overlap candidate) user_slots).
Proof.
  destruct (scan_fold user_id user_slots (mkScan false 0 []))
    as (Ha & Hm & Hc).
  cbv zeta in Ha, Hm, Hc. unfold scan_user. rewrite Ha, Hm, Hc.
  cbn [is_available max_preference appended orb app].
  repeat split.
  - unfold SchedSpec.best_level. rewrite fold_left_max by lia.
    pose proof (fold_right_max_nonneg
                  (map preference_level
                     (filter (slots_overlap candidate) user_slots))).
    lia.
  - apply length_map.
Qed.

Lemma dict_set_fresh {V : Type} (k : string) (v : V) (d : Py.Dict V) :
  ~ In k (Py.dict_keys d) -> Py.dict_set k v d = (d ++ [(k, v)])%list.
Proof.
  induction d as [|[k' v'] d IH]; simpl; intro H.
  - reflexivity.
  - destruct (String.eqb k k') eqn:E.
    + apply String.eqb_eq in E. subst. exfalso. apply H. now left.
    + rewrite IH; [reflexivity |]. intro Hin. apply H. now right.
Qed.

(** The outer loop, from any accumulator whose weights do not yet mention
    the participants still to be visited. *)
Lemma analyze_fold (declared : Py.Dict (list TimeSlot)) :
  forall acc : TimeSlotAnalysis,
    NoDup (Py.dict_keys declared) ->
    (forall k, In k (Py.dict_keys declared) ->
               ~ In k (Py.dict_keys (preference_weights acc))) ->
    let r := fold_left (analyze_step candidate) declared acc in
    time_slot r = time_slot acc
    /\ participants_available r
       = (participants_available acc
          ++ map fst (SchedSpec.available_entries candidate declared))%list
    /\ participants_unavailable r
       = (participants_unavailable acc
          ++ map fst (SchedSpec.unavailable_entries candidate declared))%list
    /\ preference_weights r
       = (preference_weights acc
          ++ map (SchedSpec.weight_entry candidate)
               (SchedSpec.available_entries candidate declared))%list
    /\ List.length (conflict_details r)
       = (List.length (conflict_details acc)
          + SchedSpec.conflict_detail_count candidate declared)%nat.
Proof.
  induction declared as [|[u slots] rest IH]; intros acc Hnd Hfresh;
    cbv zeta.
  - simpl. rewrite !app_nil_r. repeat split.
    unfold SchedSpec.conflict_detail_count. simpl. lia.
  - cbn [fold_left].
    inversion Hnd as [|? ? Hu Hnd']; subst.
    destruct (scan_user_spec u slots) as (Ha & Hm & Hc).
    assert (Hstep_fresh :
      forall k, In k (Py.dict_keys rest) ->
        ~ In k (Py.dict_keys
                  (preference_weights (analyze_step candidate acc (u, slots))))).
    { intros k Hk. unfold analyze_step.
      destruct (is_available (scan_user candidate u slots));
        cbn [preference_weights].
      - rewrite dict_set_fresh
          by (apply Hfresh; left; reflexivity).
        unfold Py.dict_keys. rewrite map_app, in_app_iff. simpl.
        intros [Hin | [<- | []]].
        + apply (Hfresh k); [right; exact Hk | exact Hin].
        + apply Hu. exact Hk.
      - apply Hfresh. right. exact Hk. }
    destruct (IH (analyze_step candidate acc (u, slots)) Hnd' Hstep_fresh)
      as (Ht & Hav & Hun & Hw & Hcd).
    cbv zeta in Ht, Hav, Hun, Hw, Hcd.
    rewrite Ht, Hav, Hun, Hw, Hcd. clear Ht Hav Hun Hw Hcd IH.
    unfold analyze_step, SchedSpec.available_entries,
      SchedSpec.unavailable_entries, SchedSpec.conflict_detail_count.
    cbn [filter map list_sum snd].
    rewrite <- Ha.
    destruct (is_available (scan_user candidate u slots)) eqn:E;
      cbn [negb time_slot participants_available participants_unavailable
           preference_weights conflict_details map fst].
    + rewrite dict_set_fresh by (apply Hfresh; left; reflexivity).
      rewrite <- !app_assoc. cbn [app].
      repeat split; try reflexivity.
      * unfold SchedSpec.weight_entry. cbn [fst snd]. now rewrite Hm.
      * rewrite length_app, Hc. unfold list_sum. cbn [fold_right]. lia.
    + rewrite <- !app_assoc. cbn [app].
      repeat split; try reflexivity.
      rewrite length_app, Hc. unfold list_sum. cbn [fold_right]. lia.
Qed.

Lemma analyze_single_time_slot_spec (declared : Py.Dict (list TimeSlot)) :
  NoDup (Py.dict_keys declared) ->
  let r := analyze_single_time_slot candidate declared in
  time_slot r = candidate
  /\ participants_available r
     = map fst (SchedSpec.available_entries candidate declared)
  /\ participants_unavailable r
     = map fst (SchedSpec.unavailable_entries candidate declared)
  /\ preference_weights r
     = map (SchedSpec.weight_entry candidate)
         (SchedSpec.available_entries candidate declared)
  /\ List.length (conflict_details r)
     = SchedSpec.conflict_detail_count candidate declared.
Proof.
  intro Hnd.
  apply (analyze_fold declared (mkAnalysis candidate [] [] [] []) Hnd).
  intros k _ [].
Qed.

End AnalysisFacts.

(** *** The four factors and their weighted sum *)

Section ScoreFacts.

Import Sched.
Local Open Scope Q_scope.

Lemma py_sum_from (l : list Q) :
  forall a : Q, fold_left Qplus l a == a + SchedSpec.sum_Q l.
Proof.
  induction l as [|x l IH]; simpl; intro a.
  - ring.
  - rewrite IH. ring.
Qed.

Lemma py_sum_spec (l : list Q) : py_sum l == SchedSpec.sum_Q l.
Proof. unfold py_sum. rewrite py_sum_from. ring. Qed.

Lemma py_min_Qmin (x : Q) : py_min x 1 == Qmin 1 x.
Proof.
  unfold py_min. destruct (Qle_bool x 1) eqn:E.
  - apply Qle_bool_iff in E. symmetry. now apply Q.min_r.
  - assert (H : 1 <= x).
    { apply Qnot_lt_le. intro Hlt. apply Qlt_le_weak in Hlt.
      apply Qle_bool_iff in Hlt. congruence. }
    symmetry. now apply Q.min_l.
Qed.

Lemma py_max_Qmax (v : Q) : py_max 0 v == Qmax 0 v.
Proof.
  unfold py_max. destruct (Qle_bool v 0) eqn:E.
  - apply Qle_bool_iff in E. symmetry. now apply Q.max_l.
  - assert (H : 0 <= v).
    { apply Qnot_lt_le. intro Hlt. apply Qlt_le_weak in Hlt.
      apply Qle_bool_iff in Hlt. congruence. }
    symmetry. now apply Q.max_r.
Qed.

Lemma inject_nat_pos (n : nat) : ~ inject_Z (Z.of_nat (S n)) == 0.
Proof. unfold Qeq. simpl. lia. Qed.

Lemma zero_div (x : Q) : 0 / x == 0.
Proof. unfold Qdiv. ring. Qed.

(** [_calculate_preference_score] is the mean of the stored weights. *)
Lemma calculate_preference_score_mean (a : TimeSlotAnalysis) :
  calculate_preference_score a ==
  SchedSpec.sum_Q (Py.dict_values (preference_weights a))
  / inject_Z (Z.of_nat (List.length (preference_weights a))).
Proof.
  unfold calculate_preference_score.
  destruct (preference_weights a) as [|w ws] eqn:E.
  - simpl. now rewrite zero_div.
  - set (l := w :: ws).
    assert (Hpos : Qle_bool (inject_Z (Z.of_nat (List.length l)) * 1) 0 = false).
    { destruct (Qle_bool _ 0) eqn:B; [| reflexivity].
      apply Qle_bool_iff in B. exfalso. revert B.
      unfold l, Qle. simpl. lia. }
    rewrite Hpos, py_sum_spec.
    field. apply inject_nat_pos.
Qed.

(** [get_availability_score] is available / (available + unavailable). *)
Lemma get_availability_score_ratio (a : TimeSlotAnalysis) :
  get_availability_score a ==
  inject_Z (Z.of_nat (List.length (participants_available a)))
  / inject_Z (Z.of_nat (List.length (participants_available a)
                        + List.length (participants_unavailable a))).
Proof.
  unfold get_availability_score.
  destruct (Nat.eqb _ 0) eqn:E; [| reflexivity].
  apply Nat.eqb_eq in E.
  assert (H0 : List.length (participants_available a) = 0%nat) by lia.
  rewrite H0. simpl. now rewrite zero_div.
Qed.

Lemma int_in_In (x : Z) (l : list Z) : int_in x l = true <-> In x l.
Proof.
  unfold int_in. rewrite existsb_exists. split.
  - intros [y [Hy E]]. apply Z.eqb_eq in E. now subst.
  - intro H. exists x. split; [assumption | apply Z.eqb_refl].
Qed.

Lemma fold_min_shift (g : Z -> Z) (l : list Z) (a b : Z) :
  fold_right (fun h d => Z.min (g h) d) (Z.min a b) l
  = Z.min b (fold_right (fun h d => Z.min (g h) d) a l).
Proof. induction l as [|x l IH]; simpl; [lia | rewrite IH; lia]. Qed.

Lemma fold_left_min (g : Z -> Z) (l : list Z) :
  forall a : Z,
    fold_left Z.min (map g l) a
    = fold_right (fun h d => Z.min (g h) d) a l.
Proof.
  induction l as [|x l IH]; simpl; intro a; [reflexivity |].
  rewrite IH, fold_min_shift. reflexivity.
Qed.

(** [_calculate_event_type_fitness] is the type fit of the specification. *)
Lemma calculate_event_type_fitness_spec (t : EventType) (slot : TimeSlot) :
  calculate_event_type_fitness t slot == SchedSpec.type_fit t slot.
Proof.
  unfold calculate_event_type_fitness, SchedSpec.type_fit. cbv zeta.
  set (hours := preferred_hours (event_type_preferences t)).
  set (hour := hour_of (start_time slot)).
  destruct (in_dec Z.eq_dec hour hours) as [Hin | Hout].
  - apply int_in_In in Hin. rewrite Hin. reflexivity.
  - destruct (int_in hour hours) eqn:E.
    + apply int_in_In in E. contradiction.
    + rewrite py_max_Qmax.
      assert (Hd : min_of (map (fun pref_hour => Z.abs (hour - pref_hour)) hours)
                   = SchedSpec.min_hour_distance hour hours).
      { unfold min_of, SchedSpec.min_hour_distance.
        destruct hours as [|h rest]; [reflexivity |]. simpl.
        apply (fold_left_min (fun p => Z.abs (hour - p))). }
      rewrite Hd. reflexivity.
Qed.

End ScoreFacts.

(** The option built from the analysis of a candidate carries the scores
    of the specification. *)
Lemma schedule_option_scores
    (t : Sched.EventType) (id : string) (candidate : Sched.TimeSlot)
    (declared : Py.Dict (list Sched.TimeSlot)) :
  NoDup (Py.dict_keys declared) ->
  (2 <= List.length
          (Sched.participants_available
             (Sched.analyze_single_time_slot candidate declared)))%nat ->
  let option_ :=
    Sched.create_schedule_option t id
      (Sched.analyze_single_time_slot candidate declared) in
  (Sched.total_score option_ == SchedSpec.total t candidate declared)%Q /\
  (Sched.preference_score option_
   == SchedSpec.preference candidate declared)%Q /\
  (Sched.conflict_score option_ == SchedSpec.conflict candidate declared)%Q /\
  Sched.available_participants option_
  = map fst (SchedSpec.available_entries candidate declared) /\
  Sched.unavailable_participants option_
  = map fst (SchedSpec.unavailable_entries candidate declared).
Proof.
  intros Hnd Hquorum. cbv zeta.
  destruct (analyze_single_time_slot_spec candidate declared Hnd)
    as (Hslot & Hav & Hun & Hw & Hcd).
  cbv zeta in Hslot, Hav, Hun, Hw, Hcd.
  set (a := Sched.analyze_single_time_slot candidate declared) in *.
  assert (Hpref : (Sched.calculate_preference_score a
                   == SchedSpec.preference candidate declared)%Q).
  { rewrite calculate_preference_score_mean. unfold SchedSpec.preference.
    rewrite Hw. unfold Py.dict_values. rewrite map_map, length_map.
    reflexivity. }
  assert (Hatt : (Sched.get_availability_score a
                  == SchedSpec.attendance candidate declared)%Q).
  { rewrite get_availability_score_ratio. unfold SchedSpec.attendance.
    rewrite Hav, Hun, !length_map. reflexivity. }
  assert (Hconf : (Sched.calculate_conflict_score a
                   == SchedSpec.conflict candidate declared)%Q).
  { unfold Sched.calculate_conflict_score, SchedSpec.conflict.
    rewrite <- Hcd.
    destruct (Sched.conflict_details a) as [|c cs] eqn:E; [reflexivity |].
    cbn [List.length Nat.eqb].
    rewrite Hav, Hun, !length_map.
    unfold SchedSpec.available_entries, SchedSpec.unavailable_entries.
    rewrite filter_length.
    destruct (Nat.eqb (List.length declared) 0) eqn:Z0.
    - exfalso. apply Nat.eqb_eq in Z0.
      rewrite Hav in Hquorum. rewrite length_map in Hquorum.
      pose proof (filter_length_le (SchedSpec.available candidate) declared).
      unfold SchedSpec.available_entries in Hquorum. lia.
    - apply py_min_Qmin. }
  assert (Hfit : (Sched.calculate_event_type_fitness t (Sched.time_slot a)
                  == SchedSpec.type_fit t candidate)%Q).
  { rewrite Hslot. apply calculate_event_type_fitness_spec. }
  unfold Sched.create_schedule_option.
  cbn [Sched.total_score Sched.preference_score Sched.conflict_score
       Sched.available_participants Sched.unavailable_participants].
  split; [| split; [| split; [| split]]]; try assumption.
  unfold SchedSpec.total. rewrite Hpref, Hconf, Hatt, Hfit. ring.
Qed.

(** Every option collected by the optimizer's loop was built from one of
    the analyses, and that analysis had a quorum. *)
Lemma collect_options_In t ids analyses o :
  forall drawn,
    In o (Sched.collect_options t ids drawn analyses) ->
    exists id analysis,
      In analysis analyses /\
      (2 <= List.length (Sched.participants_available analysis))%nat /\
      o = Sched.create_schedule_option t id analysis.
Proof.
  induction analyses as [|a rest IH]; intro drawn;
    cbn [Sched.collect_options]; intro H.
  - destruct H.
  - destruct (Nat.leb 2 (List.length (Sched.participants_available a))) eqn:E.
    + destruct H as [<- | H].
      * exists (ids drawn), a. apply Nat.leb_le in E.
        split; [now left | split; [exact E | reflexivity]].
      * destruct (IH _ H) as (id & an & Hin & Hq & Ho).
        exists id, an. split; [now right | split; assumption].
    + destruct (IH _ H) as (id & an & Hin & Hq & Ho).
      exists id, an. split; [now right | split; assumption].
Qed.

(** C5.  For a candidate slot with at least two available participants, the
    total score of the option built from its analysis is
    0.30 preference + 0.20 (1 - conflict) + 0.30 attendance + 0.20 typeFit,
    the four factors being those of the specification: the mean of the
    available participants' best matching levels over 3, the number of
    conflict details over the number of participants capped at 1 (0 without
    conflict details), the share of available participants, and the fit of
    the start hour to the event type.  Every option that the optimizer
    returns is such an option, built for one of the candidates it
    enumerated.  The declared slots are keyed by participant, each
    participant once, as in a dict. *)
Theorem total_score_is_weighted_sum
    (t : Sched.EventType) (id : string) (candidate : Sched.TimeSlot)
    (declared : Py.Dict (list Sched.TimeSlot)) :
  NoDup (Py.dict_keys declared) ->
  ((2 <= List.length
           (Sched.participants_available
              (Sched.analyze_single_time_slot candidate declared)))%nat ->
   (Sched.total_score
      (Sched.create_schedule_option t id
         (Sched.analyze_single_time_slot candidate declared))
    == SchedSpec.total t candidate declared)%Q) /\
  (forall (e : Env) (ids : nat -> string) (a : Sched.SchedulingAgent)
          (o : Sched.ScheduleOption),
      Sched.participants a = declared ->
      Sched.current_event_type a = t ->
      In o (fst (Sched.optimize_schedule e ids a)) ->
      exists slot,
        In slot (Sched.generate_potential_time_slots e t) /\
        Sched.opt_start_time o = Sched.start_time slot /\
        Sched.opt_end_time o = Sched.end_time slot /\
        (2 <= List.length (SchedSpec.available_entries slot declared))%nat /\
        (Sched.total_score o == SchedSpec.total t slot declared)%Q).
Proof.
  intro Hnd. split.
  - intro Hq.
    pose proof (@schedule_option_scores t id candidate declared Hnd Hq) as H.
    cbv zeta in H. apply H.
  - intros e ids a o Hp Ht Ho.
    unfold Sched.optimize_schedule in Ho. cbn [fst] in Ho.
    apply firstn_incl, sort_desc_In, collect_options_In in Ho.
    destruct Ho as (id' & an & Hin & Hq & ->).
    unfold Sched.analyze_time_slots in Hin. apply in_map_iff in Hin.
    destruct Hin as (slot & <- & Hslot). rewrite Hp, Ht in *.
    exists slot.
    destruct (analyze_single_time_slot_spec slot declared Hnd)
      as (Hts & Hav & _).
    cbv zeta in Hts, Hav.
    pose proof (@schedule_option_scores t id' slot declared Hnd Hq) as Hs.
    cbv zeta in Hs. destruct Hs as [Hs _].
    split; [exact Hslot |].
    split; [cbn; now rewrite Hts |].
    split; [cbn; now rewrite Hts |].
    split; [| exact Hs].
    rewrite Hav, length_map in Hq. exact Hq.
Qed.

(** Scenario A, two candidates.  The 19:00 candidate overlaps every
    participant's slot only in part: five conflict details, total 0.6.  The
    18:00 candidate lies inside every slot: attendance 1, type fit 1,
    total 0.8. *)
Lemma total_score_is_weighted_sum_witness :
  let declared := Sched.participants Ex.sched_scenario_a in
  let at_19 := Sched.mkTimeSlot 1700593200000000 1700598600000000 2 None in
  let at_18 := Sched.mkTimeSlot 1700589600000000 1700595000000000 2 None in
  (Sched.total_score
     (Sched.create_schedule_option Sched.DINING "option-1"
        (Sched.analyze_single_time_slot at_19 declared))
   == SchedSpec.total Sched.DINING at_19 declared)%Q /\
  (SchedSpec.total Sched.DINING at_19 declared == 6 # 10)%Q /\
  (SchedSpec.total Sched.DINING at_18 declared == 8 # 10)%Q /\
  (SchedSpec.attendance at_18 declared == 1)%Q /\
  (SchedSpec.type_fit Sched.DINING at_18 == 1)%Q.
Proof.
  cbv zeta. split; [| repeat split; vm_compute; reflexivity].
  assert (Hnd : NoDup (Py.dict_keys (Sched.participants Ex.sched_scenario_a))).
  { simpl. repeat constructor; simpl; intuition discriminate. }
  destruct (@total_score_is_weighted_sum Sched.DINING "option-1"
              (Sched.mkTimeSlot 1700593200000000 1700598600000000 2 None)
              (Sched.participants Ex.sched_scenario_a) Hnd) as [Hscore _].
  apply Hscore. vm_compute. lia.
Defined.

(** ** The resilient venue search *)

Section VenueFacts.

Import Venue.
Context {U : Py.Unicode}.

Lemma filter_length_mono {A : Type} (f g : A -> bool) (l : list A) :
  (forall x, f x = true -> g x = true) ->
  (List.length (filter f l) <= List.length (filter g l))%nat.
Proof.
  intro H. induction l as [|x l IH]; simpl; [lia |].
  destruct (f x) eqn:F.
  - rewrite (H x F). simpl. lia.
  - destruct (g x); simpl; lia.
Qed.

(** A failure inside the trailing five minutes is one that
    [_should_use_api] counts. *)
Lemma in_window_is_recent (e : Env) (api : string) (f : APIFailureRecord) :
  (String.eqb (api_name f) api
   && VenueSpec.in_trailing_window e f)%bool = true ->
  recent_failure e api f = true.
Proof.
  unfold recent_failure, VenueSpec.in_trailing_window, failure_window.
  rewrite !andb_true_iff. intros [Hn [Hlo Hhi]]. split; [exact Hn |].
  apply Z.ltb_lt in Hlo. apply Z.ltb_lt. lia.
Qed.

(** Recording a failure leaves the event id and the criteria alone. *)
Lemma search_source_frame e api run a :
  agent_event_id (snd (search_source e api run a)) = agent_event_id a /\
  search_criteria (snd (search_source e api run a)) = search_criteria a.
Proof.
  unfold search_source. destruct (raised run); split; reflexivity.
Qed.

Lemma fallback_loop_frame a a' ids drawn data :
  agent_event_id a' = agent_event_id a ->
  search_criteria a' = search_criteria a ->
  fallback_loop a' ids drawn data = fallback_loop a ids drawn data.
Proof.
  intros He Hc. revert drawn.
  induction data as [|d rest IH]; intro drawn; simpl; [reflexivity |].
  rewrite IH. f_equal. unfold fallback_result.
  destruct d as [[[[n ad] ty] cap] cost]. now rewrite He, Hc.
Qed.

(** A result is built from the venue and the criteria alone. *)
Lemma source_result_frame a a' api :
  search_criteria a' = search_criteria a ->
  forall l, map (source_result a' api) l = map (source_result a api) l.
Proof.
  intros Hc l. apply map_ext. intro v. unfold source_result.
  now rewrite Hc.
Qed.

(** What one source does in a round: when it is run, its results are the
    converted venues of its provider and an exception of the provider is
    recorded against it; when it is not, nothing happens.  The
    configuration is kept either way. *)
Lemma source_step_after e api run a (use : bool) :
  let r := if use then search_source e api run a else ([], a) in
  fst r = (if use then map (source_result a api) (converted run) else []) /\
  agent_event_id (snd r) = agent_event_id a /\
  google_places_api_key (snd r) = google_places_api_key a /\
  gurume_api_key (snd r) = gurume_api_key a /\
  current_event_type (snd r) = current_event_type a /\
  search_criteria (snd r) = search_criteria a /\
  api_failures (snd r)
  = api_failures a
    ++ (if use then
          match raised run with
          | Some m => [mkFailure api (now e) "type" m 0]
          | None => []
          end
        else []).
Proof.
  cbv zeta. destruct use; cbn [fst snd].
  - unfold search_source. destruct (raised run); cbn [fst snd].
    + unfold record_api_failure, set_base, set_api_failures.
      cbn [agent_event_id google_places_api_key gurume_api_key
           current_event_type search_criteria api_failures].
      repeat split; reflexivity.
    + rewrite app_nil_r. repeat split; reflexivity.
  - rewrite app_nil_r. repeat split; reflexivity.
Qed.

(** What a round does, source by source.  The gathered results are those
    of the first source followed by those of the second; the fixed
    candidates are returned when there is none.  The failures recorded
    are those of the sources that were run and raised. *)
Lemma search_venues_after e ids s a :
  let r := search_venues e ids s a in
  let places :=
    if should_use_api e a "google_places"
    then map (source_result a "google_places")
           (converted (run_google_places s (search_criteria a)))
    else [] in
  let gurume :=
    if should_use_api e a "gurume"
    then map (source_result a "gurume")
           (converted (run_gurume s (search_criteria a)))
    else [] in
  returned r
  = match places ++ gurume with
    | [] => fallback_search ids a
    | _ :: _ => places ++ gurume
    end /\
  used_fallback r
  = match places ++ gurume with [] => true | _ :: _ => false end /\
  search_results (agent_after r) = returned r /\
  google_places_api_key (agent_after r) = google_places_api_key a /\
  gurume_api_key (agent_after r) = gurume_api_key a /\
  current_event_type (agent_after r) = current_event_type a /\
  search_criteria (agent_after r) = search_criteria a /\
  api_failures (agent_after r)
  = api_failures a
    ++ (if should_use_api e a "google_places" then
          match raised (run_google_places s (search_criteria a)) with
          | Some m => [mkFailure "google_places" (now e) "type" m 0]
          | None => []
          end
        else [])
    ++ (if should_use_api e a "gurume" then
          match raised (run_gurume s (search_criteria a)) with
          | Some m => [mkFailure "gurume" (now e) "type" m 0]
          | None => []
          end
        else []).
Proof.
  cbv zeta. unfold search_venues.
  pose proof (source_step_after e "google_places"
                (run_google_places s (search_criteria a)) a
                (should_use_api e a "google_places")) as P1.
  cbv zeta in P1.
  remember (if should_use_api e a "google_places"
            then search_source e "google_places"
                   (run_google_places s (search_criteria a)) a
            else ([], a)) as r1 eqn:E1.
  destruct r1 as [places_results a1]. clear E1.
  cbn [fst snd] in P1. destruct P1 as (R1 & V1 & K1 & G1 & T1 & C1 & F1).
  pose proof (source_step_after e "gurume"
                (run_gurume s (search_criteria a1)) a1
                (should_use_api e a "gurume")) as P2.
  cbv zeta in P2.
  remember (if should_use_api e a "gurume"
            then search_source e "gurume"
                   (run_gurume s (search_criteria a1)) a1
            else ([], a1)) as r2 eqn:E2.
  destruct r2 as [gurume_results a2]. clear E2.
  cbn [fst snd] in P2. destruct P2 as (R2 & V2 & K2 & G2 & T2 & C2 & F2).
  rewrite C1 in R2, F2. rewrite (source_result_frame a a1 "gurume" C1) in R2.
  rewrite F1 in F2. rewrite <- app_assoc in F2.
  rewrite <- R1, <- R2.
  destruct (places_results ++ gurume_results);
    unfold set_search_results;
    cbn [returned used_fallback agent_after search_results
         google_places_api_key gurume_api_key current_event_type
         search_criteria api_failures];
    (split; [| split; [reflexivity |]; split; [reflexivity |];
               split; [congruence |]; split; [congruence |];
               split; [congruence |]; split; [congruence | exact F2]]).
  - unfold fallback_search. apply fallback_loop_frame; congruence.
  - reflexivity.
Qed.

(** The results of a source among those of a round. *)
Lemma results_of_source api api' a (l : list Venue) :
  filter (fun r => String.eqb (source_api r) api)
    (map (source_result a api') l)
  = if String.eqb api' api then map (source_result a api') l else [].
Proof.
  induction l as [|v l IH]; cbn [map filter source_result source_api].
  - destruct (String.eqb api' api); reflexivity.
  - rewrite IH. destruct (String.eqb api' api); reflexivity.
Qed.

Lemma results_of_source_in_fallback api ids a :
  String.eqb "manual_fallback" api = false ->
  filter (fun r => String.eqb (source_api r) api) (fallback_search ids a)
  = [].
Proof.
  intro H. unfold fallback_search, fallback_venues.
  cbn [fallback_loop fallback_result filter source_api].
  rewrite H. reflexivity.
Qed.

(** The failures of a source among those recorded. *)
Lemma failures_of_source api api' e (use : bool) (o : option string) :
  filter (fun f => String.eqb (api_name f) api)
    (if use then
       match o with
       | Some m => [mkFailure api' (now e) "type" m 0]
       | None => []
       end
     else [])
  = if String.eqb api' api then
      (if use then
         match o with
         | Some m => [mkFailure api' (now e) "type" m 0]
         | None => []
         end
       else [])
    else [].
Proof.
  destruct use; [destruct o |]; cbn [filter api_name];
    destruct (String.eqb api' api); reflexivity.
Qed.

(** The results and the recorded failures of each of the two sources in a
    round. *)
Lemma search_venues_by_source e ids s a :
  let r := search_venues e ids s a in
  filter (fun x => String.eqb (source_api x) "google_places") (returned r)
  = (if should_use_api e a "google_places"
     then map (source_result a "google_places")
            (converted (run_google_places s (search_criteria a)))
     else []) /\
  filter (fun x => String.eqb (source_api x) "gurume") (returned r)
  = (if should_use_api e a "gurume"
     then map (source_result a "gurume")
            (converted (run_gurume s (search_criteria a)))
     else []) /\
  filter (fun f => String.eqb (api_name f) "google_places")
    (api_failures (agent_after r))
  = filter (fun f => String.eqb (api_name f) "google_places")
      (api_failures a)
    ++ (if should_use_api e a "google_places" then
          match raised (run_google_places s (search_criteria a)) with
          | Some m => [mkFailure "google_places" (now e) "type" m 0]
          | None => []
          end
        else []) /\
  filter (fun f => String.eqb (api_name f) "gurume")
    (api_failures (agent_after r))
  = filter (fun f => String.eqb (api_name f) "gurume") (api_failures a)
    ++ (if should_use_api e a "gurume" then
          match raised (run_gurume s (search_criteria a)) with
          | Some m => [mkFailure "gurume" (now e) "type" m 0]
          | None => []
          end
        else []).
Proof.
  cbv zeta.
  destruct (search_venues_after e ids s a)
    as (Hret & _ & _ & _ & _ & _ & _ & Hfail).
  cbv zeta in Hret, Hfail. rewrite Hret, Hfail. clear Hret Hfail.
  set (pl := if should_use_api e a "google_places" then _ else _).
  set (gl := if should_use_api e a "gurume" then _ else _).
  assert (Hp : filter (fun x => String.eqb (source_api x) "google_places")
                 pl = pl /\
               filter (fun x => String.eqb (source_api x) "gurume") pl = []).
  { unfold pl. destruct (should_use_api e a "google_places");
      [| split; reflexivity].
    rewrite !results_of_source. split; reflexivity. }
  assert (Hg : filter (fun x => String.eqb (source_api x) "google_places")
                 gl = [] /\
               filter (fun x => String.eqb (source_api x) "gurume") gl = gl).
  { unfold gl. destruct (should_use_api e a "gurume");
      [| split; reflexivity].
    rewrite !results_of_source. split; reflexivity. }
  destruct Hp as [Hp1 Hp2]. destruct Hg as [Hg1 Hg2].
  rewrite !filter_app, !failures_of_source.
  cbn [String.eqb Ascii.eqb Bool.eqb andb].
  rewrite !app_nil_r.
  split; [| split; [| split; reflexivity]].
  - destruct (pl ++ gl) as [|x l] eqn:E.
    + apply app_eq_nil in E. destruct E as [-> _].
      now apply results_of_source_in_fallback.
    + rewrite <- E, filter_app, Hp1, Hg1. apply app_nil_r.
  - destruct (pl ++ gl) as [|x l] eqn:E.
    + apply app_eq_nil in E. destruct E as [_ ->].
      now apply results_of_source_in_fallback.
    + rewrite <- E, filter_app, Hp2, Hg2. reflexivity.
Qed.

End VenueFacts.

(** C8.  A source with three or more failure records inside the trailing
    five minutes is judged ineligible, and so is the restaurant source when
    the event type has no restaurant category (the static rule).  A source
    judged ineligible is not run in the round: whatever its provider would
    have answered, the round is the same, it returns no result of that
    source and it records no failure against it.  Every source judged
    eligible is run: the results of that source in the round are the
    venues its provider converted, and an exception of the provider is
    recorded against it. *)
Theorem tripped_source_is_skipped {U : Py.Unicode}
    (e : Env) (ids : nat -> string) (s : Venue.Sources) (a : Venue.VenueAgent) :
  let round := Venue.search_venues e ids s a in
  (forall api,
      (3 <= List.length
              (VenueSpec.recent_failures_of e api (Venue.api_failures a)))%nat ->
      Venue.should_use_api e a api = false) /\
  (Venue.gurume_categories (Venue.search_settings (Venue.current_event_type a))
     = [] ->
   Venue.should_use_api e a "gurume" = false) /\
  (Venue.should_use_api e a "google_places" = false ->
   (forall provider,
       Venue.search_venues e ids
         (Venue.mkSources provider (Venue.run_gurume s)) a = round) /\
   filter (fun x => String.eqb (Venue.source_api x) "google_places")
     (Venue.returned round) = [] /\
   filter (fun f => String.eqb (Venue.api_name f) "google_places")
     (Venue.api_failures (Venue.agent_after round))
   = filter (fun f => String.eqb (Venue.api_name f) "google_places")
       (Venue.api_failures a)) /\
  (Venue.should_use_api e a "gurume" = false ->
   (forall provider,
       Venue.search_venues e ids
         (Venue.mkSources (Venue.run_google_places s) provider) a = round) /\
   filter (fun x => String.eqb (Venue.source_api x) "gurume")
     (Venue.returned round) = [] /\
   filter (fun f => String.eqb (Venue.api_name f) "gurume")
     (Venue.api_failures (Venue.agent_after round))
   = filter (fun f => String.eqb (Venue.api_name f) "gurume")
       (Venue.api_failures a)) /\
  (Venue.should_use_api e a "google_places" = true ->
   filter (fun x => String.eqb (Venue.source_api x) "google_places")
     (Venue.returned round)
   = map (Venue.source_result a "google_places")
       (Venue.converted
          (Venue.run_google_places s (Venue.search_criteria a))) /\
   filter (fun f => String.eqb (Venue.api_name f) "google_places")
     (Venue.api_failures (Venue.agent_after round))
   = filter (fun f => String.eqb (Venue.api_name f) "google_places")
       (Venue.api_failures a)
     ++ match
          Venue.raised (Venue.run_google_places s (Venue.search_criteria a))
        with
        | Some m => [Venue.mkFailure "google_places" (now e) "type" m 0]
        | None => []
        end) /\
  (Venue.should_use_api e a "gurume" = true ->
   filter (fun x => String.eqb (Venue.source_api x) "gurume")
     (Venue.returned round)
   = map (Venue.source_result a "gurume")
       (Venue.converted (Venue.run_gurume s (Venue.search_criteria a))) /\
   filter (fun f => String.eqb (Venue.api_name f) "gurume")
     (Venue.api_failures (Venue.agent_after round))
   = filter (fun f => String.eqb (Venue.api_name f) "gurume")
       (Venue.api_failures a)
     ++ match Venue.raised (Venue.run_gurume s (Venue.search_criteria a)) with
        | Some m => [Venue.mkFailure "gurume" (now e) "type" m 0]
        | None => []
        end).
Proof.
  cbv zeta.
  destruct (search_venues_by_source e ids s a) as (Rp & Rg & Fp & Fg).
  cbv zeta in Rp, Rg, Fp, Fg.
  split; [| split; [| split; [| split; [| split]]]].
  - intros api H3. unfold Venue.should_use_api.
    assert (Hle : (3 <= List.length
                          (filter (Venue.recent_failure e api)
                             (Venue.api_failures a)))%nat).
    { eapply Nat.le_trans; [exact H3 |].
      apply filter_length_mono. apply in_window_is_recent. }
    apply Nat.leb_le in Hle. now rewrite Hle.
  - intro Hcat. unfold Venue.should_use_api. rewrite Hcat.
    destruct (Nat.leb 3 _); [reflexivity |]. simpl.
    destruct (negb (Py.truthy_opt_str (Venue.gurume_api_key a)));
      reflexivity.
  - intro Hoff. rewrite Hoff in Rp, Fp. rewrite app_nil_r in Fp.
    split; [| split; assumption].
    intro provider. unfold Venue.search_venues. rewrite Hoff. reflexivity.
  - intro Hoff. rewrite Hoff in Rg, Fg. rewrite app_nil_r in Fg.
    split; [| split; assumption].
    intro provider. unfold Venue.search_venues. rewrite Hoff. reflexivity.
  - intro Hon. rewrite Hon in Rp, Fp. split; assumption.
  - intro Hon. rewrite Hon in Rg, Fg. split; assumption.
Qed.

(** Scenario C of the specification: after three failures of the first
    source within five minutes, the next round does not run it (a provider
    that would have raised changes nothing) and returns the venue of the
    second source only. *)
Lemma tripped_source_is_skipped_witness :
  Venue.should_use_api Ex.env0 Ex.venue_agent_tripped "google_places" = false /\
  Venue.search_venues (U := Ex.unicode0) Ex.env0 Ex.ids0
    (Venue.mkSources (Venue.run_google_places Ex.sources_down)
       (Venue.run_gurume Ex.sources_up))
    Ex.venue_agent_tripped
  = Venue.search_venues (U := Ex.unicode0) Ex.env0 Ex.ids0 Ex.sources_up
      Ex.venue_agent_tripped /\
  map Venue.source_api
    (Venue.returned
       (Venue.search_venues (U := Ex.unicode0) Ex.env0 Ex.ids0 Ex.sources_up
          Ex.venue_agent_tripped))
  = ["gurume"].
Proof.
  destruct (@tripped_source_is_skipped Ex.unicode0 Ex.env0 Ex.ids0
              Ex.sources_up Ex.venue_agent_tripped)
    as (Htripped & _ & Hskip & _ & _ & Hrun).
  assert (Hoff : Venue.should_use_api Ex.env0 Ex.venue_agent_tripped
                   "google_places" = false)
    by (apply Htripped; vm_compute; lia).
  split; [exact Hoff |]. split.
  - destruct (Hskip Hoff) as (Hsame & _).
    exact (Hsame (Venue.run_google_places Ex.sources_down)).
  - vm_compute. reflexivity.
Defined.

Section FallbackFacts.

Import Venue.
Local Open Scope Q_scope.
Context {U : Py.Unicode}.

(** A source that is skipped, or whose run converted nothing, adds no
    result; whatever it records, the criteria and the event id stay. *)
Lemma source_adds_nothing e api run a (use : bool) :
  use = false \/ converted run = [] ->
  fst (if use then search_source e api run a else ([], a)) = [] /\
  agent_event_id (snd (if use then search_source e api run a else ([], a)))
    = agent_event_id a /\
  search_criteria (snd (if use then search_source e api run a else ([], a)))
    = search_criteria a.
Proof.
  intro H. destruct use.
  - destruct H as [H | H]; [discriminate |].
    destruct (search_source_frame e api run a) as [He Hc].
    split; [| split; assumption].
    unfold search_source. rewrite H. destruct (raised run); reflexivity.
  - repeat split.
Qed.

(** Each fallback candidate is flagged, and scored at 0.7 of what
    [calculate_suitability_score] gives its venue. *)
Lemma fallback_result_flagged a id data :
  VenueSpec.needs_manual_confirmation (fallback_result a id data) /\
  suitability_score (fallback_result a id data)
  == (7 # 10)
     * calculate_suitability_score (venue (fallback_result a id data))
         (participant_count (search_criteria a))
         (budget_per_person (search_criteria a))
         (required_features (search_criteria a)).
Proof.
  destruct data as [[[[n ad] ty] cap] cost].
  unfold fallback_result, VenueSpec.needs_manual_confirmation.
  cbn [notes venue booking_status source_api suitability_score].
  split; [| ring].
  split; [left; reflexivity | split; reflexivity].
Qed.

End FallbackFacts.

(** C7.  When every source is skipped or converts no venue, so that the
    merged result set is empty, [_search_venues] returns (and stores)
    exactly the fixed manual-fallback list: the two pre-vetted candidates, in
    order, each flagged as needing manual confirmation and each scored at
    exactly 0.7 times the suitability score of its venue. *)
Theorem fallback_when_sources_yield_nothing {U : Py.Unicode}
    (e : Env) (ids : nat -> string) (s : Venue.Sources) (a : Venue.VenueAgent) :
  (Venue.should_use_api e a "google_places" = false \/
   Venue.converted (Venue.run_google_places s (Venue.search_criteria a)) = []) ->
  (Venue.should_use_api e a "gurume" = false \/
   Venue.converted (Venue.run_gurume s (Venue.search_criteria a)) = []) ->
  let r := Venue.search_venues e ids s a in
  Venue.returned r = Venue.fallback_search ids a /\
  map (fun x => Venue.name (Venue.venue x)) (Venue.returned r)
    = ["会議室A（フォールバック）"; "カフェB（フォールバック）"] /\
  Forall
    (fun x =>
       VenueSpec.needs_manual_confirmation x /\
       (Venue.suitability_score x
        == (7 # 10)
           * Venue.calculate_suitability_score (Venue.venue x)
               (Venue.participant_count (Venue.search_criteria a))
               (Venue.budget_per_person (Venue.search_criteria a))
               (Venue.required_features (Venue.search_criteria a)))%Q)
    (Venue.returned r) /\
  Venue.used_fallback r = true /\
  Venue.search_results (Venue.agent_after r) = Venue.returned r.
Proof.
  intros Hp Hg. cbv zeta.
  assert (Hr : Venue.returned (Venue.search_venues e ids s a)
               = Venue.fallback_search ids a /\
               Venue.used_fallback (Venue.search_venues e ids s a) = true /\
               Venue.search_results
                 (Venue.agent_after (Venue.search_venues e ids s a))
               = Venue.returned (Venue.search_venues e ids s a)).
  { unfold Venue.search_venues.
    pose proof (source_adds_nothing e "google_places"
                  (Venue.run_google_places s (Venue.search_criteria a)) a Hp)
      as H1.
    destruct (if Venue.should_use_api e a "google_places" then _ else _)
      as [pr a1].
    cbn [fst snd] in H1. destruct H1 as (-> & He1 & Hc1).
    rewrite <- Hc1 in Hg.
    pose proof (source_adds_nothing e "gurume"
                  (Venue.run_gurume s (Venue.search_criteria a1)) a1 Hg)
      as H2.
    destruct (if Venue.should_use_api e a "gurume" then _ else _)
      as [gr a2].
    cbn [fst snd] in H2. destruct H2 as (-> & He2 & Hc2).
    cbn [app Venue.returned Venue.used_fallback Venue.agent_after
         Venue.search_results Venue.set_search_results].
    split; [| split; reflexivity].
    unfold Venue.fallback_search. apply fallback_loop_frame; congruence. }
  destruct Hr as (Hret & Hused & Hstored). rewrite Hret.
  split; [reflexivity |]. split; [reflexivity |]. split; [| split].
  - unfold Venue.fallback_search, Venue.fallback_venues.
    cbn [Venue.fallback_loop].
    repeat constructor; apply fallback_result_flagged.
  - exact Hused.
  - rewrite Hstored. exact Hret.
Qed.

(** With no API key configured both sources are skipped; with providers
    that are down both are queried and convert nothing.  Either way the two
    fallback candidates come back. *)
Lemma fallback_when_sources_yield_nothing_witness :
  map (fun x => Venue.name (Venue.venue x))
    (Venue.returned
       (Venue.search_venues (U := Ex.unicode0) Ex.env0 Ex.ids0 Ex.sources_up
          Ex.venue_agent0))
  = ["会議室A（フォールバック）"; "カフェB（フォールバック）"] /\
  Venue.returned
    (Venue.search_venues (U := Ex.unicode0) Ex.env0 Ex.ids0 Ex.sources_down
       Ex.venue_agent_tripped)
  = Venue.fallback_search (U := Ex.unicode0) Ex.ids0 Ex.venue_agent_tripped.
Proof.
  split.
  - destruct (fallback_when_sources_yield_nothing (U := Ex.unicode0)
                Ex.env0 Ex.ids0 Ex.sources_up Ex.venue_agent0
                (or_introl eq_refl) (or_introl eq_refl))
      as (_ & Hnames & _).
    exact Hnames.
  - destruct (fallback_when_sources_yield_nothing (U := Ex.unicode0)
                Ex.env0 Ex.ids0 Ex.sources_down Ex.venue_agent_tripped
                (or_introl eq_refl) (or_intror eq_refl))
      as (Hreturned & _).
    exact Hreturned.
Defined.

(* ================================================================== *)
(** * Part III: further properties of the code                         *)
(* ================================================================== *)

(** ** The session: phases, logs and counters *)

Section SessionMore.

Import Sess.

Lemma valid_transition_advances (p q : CoordinationPhase) :
  In q (valid_transitions p) ->
  (SessView.phase_rank p < SessView.phase_rank q)%nat.
Proof.
  destruct p; simpl; intuition (subst; simpl; lia).
Qed.

Lemma transition_accepted_inv e target s s' :
  transition_to_phase e target s = (true, s') ->
  In target (valid_transitions (current_phase s)) /\
  current_phase s' = target /\
  previous_phase s' = Some (current_phase s) /\
  active_agents s' = active_agents s /\
  is_paused s' = is_paused s /\
  exists cp,
    checkpoints s' = checkpoints s ++ [cp] /\
    phase cp = target /\ cp_timestamp cp = now e.
Proof.
  unfold transition_to_phase.
  destruct (phase_in target _) eqn:Hin; [| discriminate].
  intro H. inversion H; subst s'; clear H.
  apply phase_in_In in Hin. simpl.
  repeat split; try assumption.
  eexists. split; [reflexivity |]. split; reflexivity.
Qed.

(** Only [transition_to_phase] writes the phase. *)
Lemma apply_op_phase (eo : Env * Op) (s : CoordinationSession) :
  current_phase (apply_op eo s) = current_phase s \/
  In (current_phase (apply_op eo s)) (valid_transitions (current_phase s)).
Proof.
  destruct eo as [e o]. destruct o; simpl; try (left; reflexivity).
  - destruct (transition_to_phase e target s) as [[|] s'] eqn:T.
    + apply transition_accepted_inv in T.
      destruct T as (Hin & Hc & _). right. simpl. rewrite Hc. exact Hin.
    + unfold transition_to_phase in T.
      destruct (phase_in target _); inversion T. now left.
  - unfold start_agent. destruct (update_first _ _ _); now left.
  - unfold complete_agent. destruct (update_first _ _ _); now left.
  - unfold fail_agent. destruct (update_first _ _ _); now left.
  - unfold update_agent_progress. destruct (update_first _ _ _); now left.
Qed.

Lemma log_activity_length e m s :
  List.length (activity_log (log_activity e m s))
  = Nat.min (S (List.length (activity_log s))) 1000.
Proof.
  unfold log_activity. cbn [activity_log set_activity_log].
  rewrite length_app. cbn [List.length]. rewrite Nat.add_1_r.
  destruct (Nat.ltb 1000 (S (List.length (activity_log s)))) eqn:E.
  - apply Nat.ltb_lt in E. unfold last_n. rewrite length_skipn, length_app.
    cbn [List.length]. lia.
  - apply Nat.ltb_ge in E. rewrite length_app. cbn [List.length]. lia.
Qed.

Lemma log_activity_newest e m s :
  exists older, activity_log (log_activity e m s) = older ++ [(now e, m)].
Proof.
  unfold log_activity. cbn [activity_log set_activity_log].
  destruct (Nat.ltb 1000 _) eqn:E.
  - unfold last_n. rewrite length_app. cbn [List.length].
    rewrite skipn_app.
    replace (List.length (activity_log s) + 1 - 1000
             - List.length (activity_log s))%nat with 0%nat by lia.
    eexists. reflexivity.
  - eexists. reflexivity.
Qed.

Lemma log_activity_bound e m s :
  (List.length (activity_log (log_activity e m s)) <= 1000)%nat.
Proof. rewrite log_activity_length. lia. Qed.

Lemma apply_op_log_bound (eo : Env * Op) (s : CoordinationSession) :
  (List.length (activity_log s) <= 1000)%nat ->
  (List.length (activity_log (apply_op eo s)) <= 1000)%nat.
Proof.
  intro H. destruct eo as [e o].
  destruct o; cbn -[log_activity]; try assumption;
    try apply log_activity_bound.
  - unfold transition_to_phase. destruct (phase_in _ _);
      cbn -[log_activity]; [apply log_activity_bound | assumption].
  - unfold start_agent. destruct (update_first _ _ _);
      cbn -[log_activity]; [apply log_activity_bound | assumption].
  - unfold complete_agent. destruct (update_first _ _ _);
      cbn -[log_activity]; [apply log_activity_bound | assumption].
  - unfold fail_agent. destruct (update_first _ _ _);
      cbn -[log_activity]; [apply log_activity_bound | assumption].
  - unfold update_agent_progress. destruct (update_first _ _ _);
      cbn -[log_activity]; assumption.
Qed.

(** Rewriting one instance changes a count by what that instance adds. *)
Lemma update_first_count (P test : AgentInstance -> bool) f l l' :
  update_first test f l = Some l' ->
  exists a,
    In a l /\ test a = true /\
    (List.length (filter P l') + (if P a then 1 else 0)
     = List.length (filter P l) + (if P (f a) then 1 else 0))%nat.
Proof.
  intro H. apply update_first_some in H.
  destruct H as (pre & a & post & -> & -> & Ha & _).
  exists a. split; [apply in_elt | split; [exact Ha |]].
  rewrite !filter_app, !length_app. cbn [filter].
  destruct (P a), (P (f a)); cbn [List.length]; lia.
Qed.

(** Each method leaves the old error entries in front of the new list. *)
Lemma apply_op_error_log (eo : Env * Op) (s : CoordinationSession) :
  exists l, error_log (apply_op eo s) = error_log s ++ l.
Proof.
  destruct eo as [e o].
  destruct o; simpl;
    try (exists []; rewrite app_nil_r; reflexivity);
    try (eexists; reflexivity).
  - unfold transition_to_phase. destruct (phase_in _ _); simpl;
      exists []; now rewrite app_nil_r.
  - unfold start_agent. destruct (update_first _ _ _); simpl;
      exists []; now rewrite app_nil_r.
  - unfold complete_agent. destruct (update_first _ _ _); simpl;
      exists []; now rewrite app_nil_r.
  - unfold fail_agent. destruct (update_first _ _ _); simpl.
    + eexists; reflexivity.
    + exists []; now rewrite app_nil_r.
  - unfold update_agent_progress. destruct (update_first _ _ _); simpl;
      exists []; now rewrite app_nil_r.
Qed.

Lemma run_error_log (ops : list (Env * Op)) :
  forall s, exists l, error_log (run ops s) = error_log s ++ l.
Proof.
  induction ops as [|eo ops IH]; intro s.
  - exists []; simpl; now rewrite app_nil_r.
  - destruct (IH (apply_op eo s)) as [l2 H2].
    destruct (apply_op_error_log eo s) as [l1 H1].
    exists (l1 ++ l2).
    change (run (eo :: ops) s) with (run ops (apply_op eo s)).
    rewrite H2, H1. now rewrite app_assoc.
Qed.

End SessionMore.

(** X1.  The phases only advance.  An accepted transition moves the session
    strictly forward in the fixed sequence and records the phase it left as
    [previous_phase]; from Completed no transition is accepted; and over any
    sequence of calls of the session's methods the phase never moves back. *)
Theorem phases_only_advance :
  (forall (e : Env) (target : Sess.CoordinationPhase)
          (s s' : Sess.CoordinationSession),
      Sess.transition_to_phase e target s = (true, s') ->
      (SessView.phase_rank (Sess.current_phase s)
       < SessView.phase_rank (Sess.current_phase s'))%nat /\
      Sess.current_phase s' = target /\
      Sess.previous_phase s' = Some (Sess.current_phase s)) /\
  (forall (e : Env) (target : Sess.CoordinationPhase)
          (s : Sess.CoordinationSession),
      Sess.current_phase s = Sess.COMPLETED ->
      Sess.transition_to_phase e target s = (false, s)) /\
  (forall (ops : list (Env * Sess.Op)) (s : Sess.CoordinationSession),
      (SessView.phase_rank (Sess.current_phase s)
       <= SessView.phase_rank (Sess.current_phase (Sess.run ops s)))%nat).
Proof.
  split; [| split].
  - intros e target s s' H. apply transition_accepted_inv in H.
    destruct H as (Hin & Hc & Hp & _).
    split; [| split; assumption].
    rewrite Hc. now apply valid_transition_advances.
  - intros e target s Hc. unfold Sess.transition_to_phase. rewrite Hc.
    reflexivity.
  - induction ops as [|eo ops IH]; intro s; [simpl; lia |].
    change (Sess.run (eo :: ops) s) with (Sess.run ops (Sess.apply_op eo s)).
    eapply Nat.le_trans; [| apply IH].
    destruct (apply_op_phase eo s) as [-> | Hin]; [lia |].
    apply valid_transition_advances in Hin. lia.
Qed.

(** X2.  The activity log is bounded.  [log_activity] puts the new entry
    last and leaves the log with the smaller of its old length plus one and
    1000 entries; so a log of at most 1000 entries stays within 1000 over
    any sequence of calls of the session's methods. *)
Theorem activity_log_stays_bounded :
  (forall (e : Env) (message : string) (s : Sess.CoordinationSession),
      List.length (Sess.activity_log (Sess.log_activity e message s))
      = Nat.min (S (List.length (Sess.activity_log s))) 1000 /\
      exists older,
        Sess.activity_log (Sess.log_activity e message s)
        = older ++ [(now e, message)]) /\
  (forall (ops : list (Env * Sess.Op)) (s : Sess.CoordinationSession),
      (List.length (Sess.activity_log s) <= 1000)%nat ->
      (List.length (Sess.activity_log (Sess.run ops s)) <= 1000)%nat).
Proof.
  split.
  - intros e message s.
    split; [apply log_activity_length | apply log_activity_newest].
  - induction ops as [|eo ops IH]; intros s H; [exact H |].
    change (Sess.run (eo :: ops) s) with (Sess.run ops (Sess.apply_op eo s)).
    apply IH. now apply apply_op_log_bound.
Qed.

(** X3.  The count of Active agents follows the starts and completions: a
    successful [start_agent] raises [get_active_agent_count] by one, a
    successful [complete_agent] lowers it by one, and a successful start is
    always followed by a successful completion of the same name, which
    brings the count back and appends the name to [completed_agents]. *)
Theorem active_count_follows_start_and_complete
    (e e' : Env) (name : string) (task : option string)
    (result : option (Py.Dict Py.Any)) (s s1 : Sess.CoordinationSession) :
  Sess.start_agent e name task s = (true, s1) ->
  SessView.get_active_agent_count s1
    = S (SessView.get_active_agent_count s) /\
  exists s2,
    Sess.complete_agent e' name result s1 = (true, s2) /\
    S (SessView.get_active_agent_count s2)
      = SessView.get_active_agent_count s1 /\
    Sess.completed_agents s2 = Sess.completed_agents s ++ [name].
Proof.
  unfold Sess.start_agent.
  destruct (Sess.update_first (Sess.named name Sess.IDLE) _
              (Sess.active_agents s)) as [l|] eqn:U; [| discriminate].
  intro H. inversion H; subst s1; clear H.
  unfold SessView.get_active_agent_count. cbn [Sess.active_agents
    Sess.update_timestamp Sess.log_activity Sess.set_activity_log
    Sess.set_active_agents].
  split.
  - destruct (update_first_count SessView.is_active _ _ _ U)
      as (a & _ & Ha & Hcount).
    apply named_spec in Ha. destruct Ha as [_ Hst].
    assert (Ha0 : SessView.is_active a = false)
      by (unfold SessView.is_active; now rewrite Hst).
    rewrite Ha0 in Hcount. cbv beta in Hcount.
    match type of Hcount with
    | context [if ?c then _ else _] => change c with true in Hcount
    end.
    cbv iota in Hcount. lia.
  - apply update_first_some in U.
    destruct U as (pre & a & post & Hs & -> & Ha & _).
    apply named_spec in Ha. destruct Ha as [Hn _].
    unfold Sess.complete_agent.
    cbn [Sess.active_agents Sess.update_timestamp Sess.log_activity
         Sess.set_activity_log Sess.set_active_agents].
    match goal with
    | |- context [Sess.update_first ?t ?f ?l] =>
        destruct (Sess.update_first t f l) as [l2|] eqn:U2
    end.
    + eexists. split; [reflexivity |].
      cbn [Sess.active_agents Sess.completed_agents Sess.update_timestamp
           Sess.log_activity Sess.set_activity_log Sess.set_active_agents
           Sess.set_completed_agents].
      split; [| reflexivity].
      destruct (update_first_count SessView.is_active _ _ _ U2)
        as (b & _ & Hb & Hcount).
      apply named_spec in Hb. destruct Hb as [_ Hst].
      assert (Hb1 : SessView.is_active b = true)
        by (unfold SessView.is_active; now rewrite Hst).
      rewrite Hb1 in Hcount. cbv beta in Hcount.
      match type of Hcount with
      | context [if ?c then 1%nat else 0%nat] =>
          change c with false in Hcount
      end.
      cbv iota in Hcount. lia.
    + exfalso. apply update_first_none in U2.
      rewrite Forall_forall in U2.
      specialize (U2 _ (in_elt _ pre post)).
      unfold Sess.named in U2. cbn in U2.
      rewrite Hn, String.eqb_refl in U2. discriminate.
Qed.

Lemma active_count_follows_start_and_complete_witness :
  SessView.get_active_agent_count Ex.session_two_agents = 1%nat /\
  SessView.get_active_agent_count
    (snd (Sess.start_agent Ex2.env1 "scheduling_agent" None
            Ex.session_two_agents)) = 2%nat.
Proof.
  split; [reflexivity |].
  destruct (@active_count_follows_start_and_complete Ex2.env1 Ex2.env2
              "scheduling_agent" None None Ex.session_two_agents _ eq_refl)
    as [Hcount _].
  exact Hcount.
Defined.

(** X4.  [fail_agent] answers [True] exactly when an instance of the name is
    tracked, whatever its status.  It then marks the first such instance
    Error (also one that had Completed), raises its error count by one and
    appends one unresolved "AgentError" entry with the message to the error
    log; [completed_agents] is left as it is.  For an untracked name it
    answers [False] and hands back the session it was given. *)
Theorem fail_agent_marks_first_instance
    (e : Env) (name message : string) (s : Sess.CoordinationSession) :
  (fst (Sess.fail_agent e name message s) = true <->
   exists a, In a (Sess.active_agents s) /\ Sess.agent_name a = name) /\
  (fst (Sess.fail_agent e name message s) = true ->
   exists pre a a' post entry,
     Sess.active_agents s = pre ++ a :: post /\
     Sess.agent_name a = name /\
     Forall (fun b => Sess.agent_name b <> name) pre /\
     Sess.active_agents (snd (Sess.fail_agent e name message s))
       = pre ++ a' :: post /\
     Sess.agent_name a' = name /\ Sess.status a' = Sess.ERROR /\
     Sess.error_count a' = Sess.error_count a + 1 /\
     Sess.error_log (snd (Sess.fail_agent e name message s))
       = Sess.error_log s ++ [entry] /\
     Sess.err_agent_name entry = name /\
     Sess.error_type entry = "AgentError" /\
     Sess.error_message entry = message /\
     Sess.resolved entry = false /\
     Sess.completed_agents (snd (Sess.fail_agent e name message s))
       = Sess.completed_agents s) /\
  ((forall a, In a (Sess.active_agents s) -> Sess.agent_name a <> name) ->
   Sess.fail_agent e name message s = (false, s)).
Proof.
  unfold Sess.fail_agent.
  destruct (Sess.update_first _ _ (Sess.active_agents s)) as [l|] eqn:U.
  - apply update_first_some in U.
    destruct U as (pre & a & post & Hs & Hl & Ha & Hpre).
    apply String.eqb_eq in Ha.
    assert (Hpre' : Forall (fun b => Sess.agent_name b <> name) pre).
    { eapply Forall_impl; [| exact Hpre]. simpl. intros b Hb.
      apply String.eqb_neq. exact Hb. }
    split; [| split].
    + split; [| reflexivity]. intros _. exists a. rewrite Hs.
      split; [apply in_elt | exact Ha].
    + intros _. exists pre, a. eexists. exists post. eexists.
      cbn [snd Sess.active_agents Sess.error_log Sess.completed_agents
           Sess.update_timestamp Sess.log_error Sess.log_activity
           Sess.set_activity_log Sess.set_error_log Sess.set_active_agents].
      split; [exact Hs |]. split; [exact Ha |]. split; [exact Hpre' |].
      split; [exact Hl |]. cbn.
      repeat split; assumption.
    + intro Hnone. exfalso. apply (Hnone a); [| exact Ha].
      rewrite Hs. apply in_elt.
  - apply update_first_none in U. rewrite Forall_forall in U.
    split; [| split].
    + split; [discriminate |]. intros (a & Hin & Hn).
      specialize (U a Hin). simpl in U. rewrite Hn, String.eqb_refl in U.
      discriminate.
    + discriminate.
    + reflexivity.
Qed.

(** A completed agent that is then failed: it turns to Error and stays
    listed as completed. *)
Lemma fail_agent_marks_first_instance_witness :
  let done :=
    snd (Sess.complete_agent Ex2.env1 "participant_agent" None
           Ex.session_two_agents) in
  let failed := snd (Sess.fail_agent Ex2.env2 "participant_agent" "lost" done) in
  fst (Sess.fail_agent Ex2.env2 "participant_agent" "lost" done) = true /\
  map Sess.status (Sess.active_agents failed) = [Sess.ERROR; Sess.IDLE] /\
  Sess.completed_agents failed = ["participant_agent"].
Proof.
  cbv zeta. split; [| split; reflexivity].
  apply (fail_agent_marks_first_instance Ex2.env2 "participant_agent" "lost").
  eexists. split; [left; reflexivity | reflexivity].
Defined.

Lemma filter_unresolved_pos (l : list Sess.ErrorEntry) :
  existsb SessView.unresolved l = true <->
  (0 < List.length (filter SessView.unresolved l))%nat.
Proof.
  induction l as [|x l IH]; simpl.
  - split; [discriminate | lia].
  - destruct (SessView.unresolved x); simpl; [split; [lia | reflexivity] |].
    exact IH.
Qed.

(** X5.  The error bookkeeping only grows.  [has_unresolved_errors] holds
    exactly when [get_error_count] is positive; [log_error] raises the count
    by one; and since no method of the session marks an entry resolved or
    removes one, every call leaves the old error log as a prefix of the new
    one and the count never goes down. *)
Theorem error_count_never_decreases :
  (forall s : Sess.CoordinationSession,
      SessView.has_unresolved_errors s = true <->
      (0 < SessView.get_error_count s)%nat) /\
  (forall (e : Env) (name type_ message : string)
          (context : option (Py.Dict Py.Any)) (trace : option string)
          (s : Sess.CoordinationSession),
      SessView.get_error_count
        (Sess.log_error e name type_ message context trace s)
      = S (SessView.get_error_count s)) /\
  (forall (ops : list (Env * Sess.Op)) (s : Sess.CoordinationSession),
      (exists l, Sess.error_log (Sess.run ops s) = Sess.error_log s ++ l) /\
      (SessView.get_error_count s
       <= SessView.get_error_count (Sess.run ops s))%nat).
Proof.
  split; [| split].
  - intro s. apply filter_unresolved_pos.
  - intros. unfold SessView.get_error_count. cbn.
    rewrite filter_app, length_app. cbn. lia.
  - intros ops s. destruct (run_error_log ops s) as [l Hl].
    split; [exists l; exact Hl |].
    unfold SessView.get_error_count. rewrite Hl, filter_app, length_app. lia.
Qed.

(** X6.  The pause flag is orthogonal to the workflow.  [pause_session]
    sets the flag and the reason and [resume_session] clears both, but
    neither [transition_to_phase] nor [start_agent] reads the flag: on a
    paused session they answer as on the session before the pause, and an
    accepted transition leaves the session paused. *)
Theorem pause_does_not_gate
    (e e' : Env) (reason : string) (s : Sess.CoordinationSession) :
  let paused := Sess.pause_session e' reason s in
  Sess.is_paused paused = true /\
  Sess.pause_reason paused = Some reason /\
  Sess.is_paused (Sess.resume_session e paused) = false /\
  Sess.pause_reason (Sess.resume_session e paused) = None /\
  (forall target,
      fst (Sess.transition_to_phase e target paused)
        = fst (Sess.transition_to_phase e target s) /\
      Sess.current_phase (snd (Sess.transition_to_phase e target paused))
        = Sess.current_phase (snd (Sess.transition_to_phase e target s)) /\
      Sess.is_paused (snd (Sess.transition_to_phase e target paused))
        = true) /\
  (forall name task,
      fst (Sess.start_agent e name task paused)
        = fst (Sess.start_agent e name task s) /\
      Sess.active_agents (snd (Sess.start_agent e name task paused))
        = Sess.active_agents (snd (Sess.start_agent e name task s))).
Proof.
  cbv zeta. repeat split.
  - unfold Sess.transition_to_phase.
    cbn [Sess.current_phase Sess.pause_session Sess.update_timestamp
         Sess.log_activity Sess.set_activity_log Sess.set_pause].
    destruct (Sess.phase_in target _); reflexivity.
  - unfold Sess.transition_to_phase.
    cbn [Sess.current_phase Sess.pause_session Sess.update_timestamp
         Sess.log_activity Sess.set_activity_log Sess.set_pause].
    destruct (Sess.phase_in target _); reflexivity.
  - unfold Sess.transition_to_phase.
    cbn [Sess.current_phase Sess.pause_session Sess.update_timestamp
         Sess.log_activity Sess.set_activity_log Sess.set_pause].
    destruct (Sess.phase_in target _); reflexivity.
  - unfold Sess.start_agent.
    cbn [Sess.active_agents Sess.pause_session Sess.update_timestamp
         Sess.log_activity Sess.set_activity_log Sess.set_pause].
    destruct (Sess.update_first _ _ _); reflexivity.
  - unfold Sess.start_agent.
    cbn [Sess.active_agents Sess.pause_session Sess.update_timestamp
         Sess.log_activity Sess.set_activity_log Sess.set_pause].
    destruct (Sess.update_first _ _ _); reflexivity.
Qed.

(** X7.  [get_phase_duration] looks for the newest checkpoint of another
    phase.  The checkpoint of a transition already carries the phase that
    was entered, so after two accepted transitions in a row the duration
    reported for the current phase is counted from the first of the two, the
    entry into the phase before; and with a single checkpoint it is counted
    from the creation of the session. *)
Theorem phase_duration_counts_from_previous_entry
    (e1 e2 e3 : Env) (p q : Sess.CoordinationPhase)
    (s s1 s2 : Sess.CoordinationSession) :
  Sess.transition_to_phase e1 p s = (true, s1) ->
  Sess.transition_to_phase e2 q s1 = (true, s2) ->
  SessView.get_phase_duration e3 s2
    = SessView.whole_seconds (now e3 - now e1) /\
  (Sess.checkpoints s = [] ->
   SessView.get_phase_duration e3 s1
     = SessView.whole_seconds
         (now e3 - Sess.created_at (Sess.settings s1))).
Proof.
  intros T1 T2.
  apply transition_accepted_inv in T1.
  destruct T1 as (_ & Hc1 & _ & _ & _ & cp1 & Hcp1 & Hph1 & Ht1).
  apply transition_accepted_inv in T2.
  destruct T2 as (Hin2 & Hc2 & _ & _ & _ & cp2 & Hcp2 & Hph2 & _).
  assert (Hpq : p <> q).
  { rewrite Hc1 in Hin2. apply valid_transition_advances in Hin2.
    intro E. rewrite E in Hin2. lia. }
  unfold SessView.get_phase_duration. split.
  - rewrite Hcp2, Hcp1, Hc2, !rev_app_distr. cbn [rev app find].
    rewrite Hph2, Hph1.
    replace (Sess.phase_eqb q q) with true
      by (symmetry; now apply phase_eqb_eq).
    destruct (Sess.phase_eqb p q) eqn:E;
      [apply phase_eqb_eq in E; contradiction |].
    cbn [negb]. now rewrite Ht1.
  - intro Hempty. rewrite Hcp1, Hempty, Hc1. cbn [app rev find].
    rewrite Hph1.
    replace (Sess.phase_eqb p p) with true
      by (symmetry; now apply phase_eqb_eq).
    reflexivity.
Qed.

(** Entered ParticipantCollection at 0 s and ScheduleCoordination at 60 s:
    at 120 s the duration of the current phase reads 120 s. *)
Lemma phase_duration_counts_from_previous_entry_witness :
  Sess.current_phase Ex2.session_scheduling = Sess.SCHEDULE_COORDINATION /\
  SessView.get_phase_duration Ex2.env2 Ex2.session_scheduling = 120.
Proof.
  split; [reflexivity |].
  destruct (@phase_duration_counts_from_previous_entry Ex.env0 Ex2.env1
              Ex2.env2 Sess.PARTICIPANT_COLLECTION Sess.SCHEDULE_COORDINATION
              Ex.session0 _ _ eq_refl eq_refl) as [H _].
  exact H.
Defined.

(** ** The substrate: handlers, errors, the bus and the lifecycle *)

Section SubstrateMore.

Import Base.





(** [send_message] leaves the identity of the agent alone, so the stamp it
    puts on later messages is the same. *)
Lemma send_message_stamp e m a m' :
  stamp (fst (fst (send_message e m a))) m' = stamp a m'.
Proof.
  unfold send_message. destruct (message_bus a); reflexivity.
Qed.

(** The stamp only writes the three ids. *)
Lemma stamp_frame a m :
  sender_id (stamp a m) = agent_id a /\
  message_type (stamp a m) = message_type m /\
  recipient_id (stamp a m) = recipient_id m /\
  payload (stamp a m) = payload m.
Proof.
  unfold stamp. cbn.
  destruct (negb (Py.truthy_opt_str (event_id m))
            && Py.truthy_opt_str (agent_event_id a))%bool;
    cbn;
    destruct (negb (Py.truthy_opt_str (session_id m))
              && Py.truthy_opt_str (agent_session_id a))%bool;
    cbn; repeat split.
Qed.


End SubstrateMore.





Section BusMore.

Import Base.

Lemma send_all_with_bus (ms : list (Env * AgentMessage)) :
  forall (a : BaseAgent) (bus : Bus),
    message_bus a = Some bus ->
    pending_messages (Life.send_all ms a) = pending_messages a /\
    message_bus (Life.send_all ms a)
    = Some (mkBus (published bus ++ map (fun em => stamp a (snd em)) ms)) /\
    messages_sent (metrics (Life.send_all ms a))
    = messages_sent (metrics a) + Z.of_nat (List.length ms).
Proof.
  induction ms as [|[e m] ms IH]; intros a bus Hbus.
  - cbn. rewrite app_nil_r, Hbus. destruct bus. repeat split. lia.
  - cbn [Life.send_all].
    assert (Hstep : message_bus (fst (fst (send_message e m a)))
                    = Some (mkBus (published bus ++ [stamp a m])) /\
                    pending_messages (fst (fst (send_message e m a)))
                    = pending_messages a /\
                    messages_sent (metrics (fst (fst (send_message e m a))))
                    = messages_sent (metrics a) + 1).
    { unfold send_message. rewrite Hbus. repeat split. }
    destruct Hstep as (Hb & Hp & Hs).
    destruct (IH _ _ Hb) as (IHp & IHb & IHs).
    rewrite IHp, IHb, IHs, Hp, Hs.
    split; [reflexivity |]. split.
    + rewrite (map_ext _ (fun em => stamp a (snd em)))
        by (intro em; apply send_message_stamp).
      cbn [published map snd]. now rewrite <- app_assoc.
    + cbn [List.length]. lia.
Qed.

Lemma send_all_without_bus (ms : list (Env * AgentMessage)) :
  forall a : BaseAgent,
    message_bus a = None ->
    pending_messages (Life.send_all ms a)
    = pending_messages a ++ map (fun em => stamp a (snd em)) ms /\
    message_bus (Life.send_all ms a) = None /\
    messages_sent (metrics (Life.send_all ms a))
    = messages_sent (metrics a) + Z.of_nat (List.length ms).
Proof.
  induction ms as [|[e m] ms IH]; intros a Hbus.
  - cbn. rewrite app_nil_r. repeat split; try assumption. lia.
  - cbn [Life.send_all].
    assert (Hstep : message_bus (fst (fst (send_message e m a))) = None /\
                    pending_messages (fst (fst (send_message e m a)))
                    = pending_messages a ++ [stamp a m] /\
                    messages_sent (metrics (fst (fst (send_message e m a))))
                    = messages_sent (metrics a) + 1).
    { unfold send_message. rewrite Hbus. cbn.
      repeat split; try reflexivity. exact Hbus. }
    destruct Hstep as (Hb & Hp & Hs).
    destruct (IH _ Hb) as (IHp & IHb & IHs).
    rewrite IHp, IHb, IHs, Hp, Hs.
    split; [| split; [reflexivity | cbn [List.length]; lia]].
    rewrite (map_ext _ (fun em => stamp a (snd em)))
      by (intro em; apply send_message_stamp).
    cbn [map snd]. now rewrite <- app_assoc.
Qed.

End BusMore.

(** X10.  Every message sent lands in exactly one place, and attaching a
    bus flushes nothing.  Without a bus, a run of sends appends the stamped
    messages to the pending queue, in order.  [set_message_bus] leaves the
    pending queue as it is, and every later send goes to the bus only: the
    messages queued before the bus was attached stay queued and are never
    published by the agent.  Each send raises the sent counter by one. *)
Theorem pending_messages_are_never_flushed
    (before after : list (Env * Base.AgentMessage))
    (bus : Base.Bus) (a : Base.BaseAgent) :
  Base.message_bus a = None ->
  let queued := Life.send_all before a in
  let attached := Base.attach_message_bus bus queued in
  let final := Life.send_all after attached in
  Base.pending_messages queued
    = Base.pending_messages a
      ++ map (fun em => Base.stamp a (snd em)) before /\
  Base.pending_messages attached = Base.pending_messages queued /\
  Base.pending_messages final = Base.pending_messages queued /\
  Base.message_bus final
    = Some (Base.mkBus
              (Base.published bus
               ++ map (fun em => Base.stamp a (snd em)) after)) /\
  Base.messages_sent (Base.metrics final)
    = Base.messages_sent (Base.metrics a)
      + Z.of_nat (List.length before + List.length after).
Proof.
  intro Hbus. cbv zeta.
  destruct (@send_all_without_bus before a Hbus) as (Hp & _ & Hs).
  destruct (@send_all_with_bus after
              (Base.attach_message_bus bus (Life.send_all before a)) bus
              eq_refl) as (Hp2 & Hb2 & Hs2).
  split; [exact Hp |]. split; [reflexivity |].
  split; [exact Hp2 |]. split.
  - rewrite Hb2.
    rewrite (map_ext _ (fun em => Base.stamp a (snd em))); [reflexivity |].
    intro em. change (Base.stamp (Base.attach_message_bus bus
                                    (Life.send_all before a)) (snd em))
      with (Base.stamp (Life.send_all before a) (snd em)).
    clear. revert a. induction before as [|[e0 m0] l IH]; intro a.
    + reflexivity.
    + cbn [Life.send_all]. rewrite IH. apply send_message_stamp.
  - rewrite Hs2. cbn [Base.attach_message_bus Base.set_message_bus
      Base.metrics]. rewrite Hs. lia.
Qed.

Lemma pending_messages_are_never_flushed_witness :
  let final :=
    Life.send_all [(Ex2.env1, Ex2.msg_command)]
      (Base.attach_message_bus (Base.mkBus [])
         (Life.send_all [(Ex.env0, Ex.msg_foreign)] Ex.agent0)) in
  map Base.message_id (Base.pending_messages final) = ["m-2"] /\
  option_map (fun b => map Base.message_id (Base.published b))
    (Base.message_bus final) = Some ["m-3"].
Proof.
  cbv zeta.
  destruct (@pending_messages_are_never_flushed
              [(Ex.env0, Ex.msg_foreign)] [(Ex2.env1, Ex2.msg_command)]
              (Base.mkBus []) Ex.agent0 eq_refl)
    as (_ & _ & Hp & Hb & _).
  cbv zeta in Hp, Hb. rewrite Hp, Hb. split; reflexivity.
Defined.

Section LifecycleMore.

Lemma life_status_eqb_eq (a b : Base.AgentStatus) :
  Life.status_eqb a b = true <-> a = b.
Proof.
  destruct a, b; unfold Life.status_eqb; simpl; split; intro H;
    congruence.
Qed.

End LifecycleMore.

(** X11.  The lifecycle.  [start] is refused with a RuntimeError unless the
    status is Idle, and a refused start leaves the agent as it was.
    [initialize] always ends in Idle or Error and [stop] in Completed or
    Error, according to whether the subclass hook returned or raised; so a
    start that directly follows a stop is always refused, while an
    [initialize] whose hook returns leaves the agent Idle. *)
Theorem start_needs_idle
    (impl impl' : Life.Hook) (elapsed_ms : Z) (a : Base.BaseAgent) :
  (Base.status a <> Base.IDLE ->
   fst (Life.start impl a) = a /\
   option_map Base.exn_type (snd (Life.start impl a)) = Some "RuntimeError") /\
  (Base.status a = Base.IDLE ->
   Life.start impl a
   = match impl (Life.set_status Base.ACTIVE a) with
     | (a1, None) => (a1, None)
     | (a1, Some ex) => (Life.set_status Base.ERROR a1, Some ex)
     end) /\
  (Base.status (fst (Life.stop impl a))
   = match snd (impl a) with
     | None => Base.COMPLETED
     | Some _ => Base.ERROR
     end) /\
  snd (Life.stop impl a) = snd (impl a) /\
  (fst (Life.start impl' (fst (Life.stop impl a))) = fst (Life.stop impl a) /\
   snd (Life.start impl' (fst (Life.stop impl a))) <> None) /\
  (snd (Life.initialize elapsed_ms impl a) = None ->
   Base.status (fst (Life.initialize elapsed_ms impl a)) = Base.IDLE) /\
  (snd (Life.initialize elapsed_ms impl a) <> None ->
   Base.status (fst (Life.initialize elapsed_ms impl a)) = Base.ERROR).
Proof.
  assert (Hrefuse : forall h b, Base.status b <> Base.IDLE ->
            fst (Life.start h b) = b /\
            option_map Base.exn_type (snd (Life.start h b))
            = Some "RuntimeError").
  { intros h b Hb. unfold Life.start.
    destruct (Life.status_eqb (Base.status b) Base.IDLE) eqn:E.
    - apply life_status_eqb_eq in E. contradiction.
    - split; reflexivity. }
  split; [apply Hrefuse |]. split.
  { intro Hidle. unfold Life.start. rewrite Hidle. reflexivity. }
  assert (Hstop : Base.status (fst (Life.stop impl a))
                  = match snd (impl a) with
                    | None => Base.COMPLETED
                    | Some _ => Base.ERROR
                    end).
  { unfold Life.stop. destruct (impl a) as [a1 [ex|]]; reflexivity. }
  split; [exact Hstop |]. split.
  { unfold Life.stop. destruct (impl a) as [a1 [ex|]]; reflexivity. }
  split.
  { assert (Hne : Base.status (fst (Life.stop impl a)) <> Base.IDLE).
    { rewrite Hstop. destruct (snd (impl a)); discriminate. }
    destruct (Hrefuse impl' _ Hne) as [H1 H2].
    split; [exact H1 |]. intro Hnone. rewrite Hnone in H2. discriminate. }
  unfold Life.initialize.
  clear Hstop.
  destruct (impl (Base.register_handler Base.ERROR_REPORT _ _))
    as [a4 [ex|]]; split; cbn; intro H;
    try reflexivity; try discriminate H; exfalso; apply H; reflexivity.
Qed.

(** Initialise, start, stop, and a second start that is refused. *)
Lemma start_needs_idle_witness :
  let ready := fst (Life.initialize 0 Ex2.hook_ok Ex.agent0) in
  let running := fst (Life.start Ex2.hook_ok ready) in
  let stopped := fst (Life.stop Ex2.hook_ok running) in
  Base.status ready = Base.IDLE /\
  Base.status running = Base.ACTIVE /\
  Base.status stopped = Base.COMPLETED /\
  fst (Life.start Ex2.hook_ok running) = running /\
  option_map Base.exn_type (snd (Life.start Ex2.hook_ok stopped))
    = Some "RuntimeError".
Proof.
  cbv zeta. split; [reflexivity |]. split; [reflexivity |].
  split; [reflexivity |].
  split.
  - apply (start_needs_idle Ex2.hook_ok Ex2.hook_ok 0). discriminate.
  - apply (start_needs_idle Ex2.hook_ok Ex2.hook_ok 0). discriminate.
Defined.

(** ** The coordination agent's workflow *)

Section CoordinationMore.

Import Sess.

Lemma update_first_names test f l l' :
  (forall a, agent_name (f a) = agent_name a) ->
  update_first test f l = Some l' ->
  map agent_name l' = map agent_name l.
Proof.
  intros Hf H.
  destruct (update_first_some _ _ _ H) as (pre & a & post & -> & -> & _ & _).
  rewrite !map_app. simpl. now rewrite Hf.
Qed.

Lemma update_at_names i f l :
  (forall a, agent_name (f a) = agent_name a) ->
  map agent_name (Coord.update_at i f l) = map agent_name l.
Proof.
  intro Hf. revert i.
  induction l as [|a l IH]; intros [|i]; simpl; try reflexivity.
  - now rewrite Hf.
  - now rewrite IH.
Qed.

Lemma update_first_app test f l l' r :
  update_first test f l = Some l' ->
  update_first test f (l ++ r) = Some (l' ++ r).
Proof.
  intro H.
  destruct (update_first_some _ _ _ H) as (pre & a & post & -> & -> & Ha & Hpre).
  rewrite <- !app_assoc. simpl. now apply update_first_at.
Qed.

Lemma update_first_found test f l x :
  In x l -> test x = true -> exists l', update_first test f l = Some l'.
Proof.
  intros Hin Hx. destruct (update_first test f l) as [l'|] eqn:U.
  - now exists l'.
  - apply update_first_none in U. rewrite Forall_forall in U.
    rewrite (U x Hin) in Hx. discriminate.
Qed.

(** What [_start_agent] leaves alone. *)
Lemma coord_start_frame e n t c :
  let s := Coord.coordination_session c in
  let s' := Coord.coordination_session (snd (Coord.start_agent e n t c)) in
  current_phase s' = current_phase s /\
  previous_phase s' = previous_phase s /\
  checkpoints s' = checkpoints s /\
  completed_agents s' = completed_agents s /\
  Coord.managed_agents (snd (Coord.start_agent e n t c))
    = Coord.managed_agents c /\
  map agent_name (active_agents s') = map agent_name (active_agents s).
Proof.
  cbv zeta. unfold Coord.start_agent.
  destruct (Py.dict_get n _); [| repeat split].
  destruct (Coord.managed c n); [| repeat split].
  destruct (Coord.check_dependencies _ _).
  - unfold Sess.start_agent.
    destruct (update_first _ _ _) eqn:U; [| repeat split].
    cbn. repeat split. eapply update_first_names; [| exact U]. reflexivity.
  - repeat split.
  - cbn. repeat split. apply update_at_names. reflexivity.
Qed.

Lemma start_phase_agents_frame e p c :
  let s := Coord.coordination_session c in
  let s' := Coord.coordination_session (Flow.start_phase_agents e p c) in
  current_phase s' = current_phase s /\
  previous_phase s' = previous_phase s /\
  checkpoints s' = checkpoints s /\
  completed_agents s' = completed_agents s /\
  Coord.managed_agents (Flow.start_phase_agents e p c)
    = Coord.managed_agents c /\
  map agent_name (active_agents s') = map agent_name (active_agents s).
Proof.
  cbv zeta. unfold Flow.start_phase_agents.
  destruct (Flow.phase_agent p) as [[n t]|]; [| repeat split].
  apply coord_start_frame.
Qed.

(** The automatic successor of a phase is a legal target, one step further
    in the sequence. *)
Lemma phase_transitions_legal (p q : CoordinationPhase) :
  Coord.phase_transitions p = Some q ->
  phase_in q (valid_transitions p) = true /\
  SessView.phase_rank q = S (SessView.phase_rank p).
Proof.
  destruct p; simpl; intro H; inversion H; subst; split; reflexivity.
Qed.

End CoordinationMore.

(** X12.  Any recorded completion moves the workflow on: when an agent with
    a non-empty name has an Active instance in the session and the current
    phase has an automatic successor, handling its [agent_completed] event
    records the completion and then enters that successor, whichever agent
    completed.  The successor is the next phase of the sequence, the
    previous phase is remembered, the name is appended to the completed
    agents and exactly one checkpoint is appended, taken in the new
    phase. *)
Theorem completion_advances_one_phase
    (e : Env) (name : string) (result : option (Py.Dict Py.Any))
    (c : Coord.CoordinationAgent) (x : Sess.AgentInstance)
    (q : Sess.CoordinationPhase) :
  name <> "" ->
  In x (Sess.active_agents (Coord.coordination_session c)) ->
  Sess.agent_name x = name -> Sess.status x = Sess.ACTIVE ->
  Coord.phase_transitions
    (Sess.current_phase (Coord.coordination_session c)) = Some q ->
  let s := Coord.coordination_session c in
  let s' :=
    Coord.coordination_session (Flow.on_agent_completed e name result c) in
  Sess.current_phase s' = q /\
  Sess.previous_phase s' = Some (Sess.current_phase s) /\
  SessView.phase_rank q = S (SessView.phase_rank (Sess.current_phase s)) /\
  Sess.completed_agents s' = Sess.completed_agents s ++ [name] /\
  exists cp,
    Sess.checkpoints s' = Sess.checkpoints s ++ [cp] /\ Sess.phase cp = q.
Proof.
  intros Hne Hin Hn Hs Hq. cbv zeta.
  destruct (phase_transitions_legal _ Hq) as [Hlegal Hrank].
  assert (Ht : Py.truthy_str name = true).
  { unfold Py.truthy_str. apply negb_true_iff. now apply String.eqb_neq. }
  assert (Hx : Sess.named name Sess.ACTIVE x = true)
    by (apply named_spec; split; assumption).
  unfold Flow.on_agent_completed, Coord.handle_agent_completion.
  rewrite Ht. unfold Sess.complete_agent.
  match goal with
  | |- context [Sess.update_first ?t ?f ?l] =>
      destruct (update_first_found t f l x Hin Hx) as [l' U]; rewrite U
  end.
  cbv beta iota zeta.
  unfold Flow.check_phase_completion.
  cbn [Coord.coordination_session Coord.persist Coord.set_session
       Sess.current_phase Sess.update_timestamp Sess.log_activity
       Sess.set_activity_log Sess.set_completed_agents
       Sess.set_active_agents].
  rewrite Hq. unfold Flow.transition_to_phase, Sess.transition_to_phase.
  cbn [Coord.coordination_session Coord.persist Coord.set_session
       Sess.current_phase Sess.update_timestamp Sess.log_activity
       Sess.set_activity_log Sess.set_completed_agents
       Sess.set_active_agents].
  rewrite Hlegal. cbv beta iota zeta. cbn [snd].
  match goal with
  | |- context [Flow.start_phase_agents e q ?c0] =>
      destruct (start_phase_agents_frame e q c0)
        as (F1 & F2 & F3 & F4 & _ & _)
  end.
  rewrite F1, F2, F3, F4.
  split; [reflexivity |]. split; [reflexivity |]. split; [exact Hrank |].
  split; [reflexivity |].
  eexists. split; reflexivity.
Qed.

(** With the participant agent running in the collection phase, its
    completion opens schedule coordination. *)
Lemma completion_advances_one_phase_witness :
  Sess.current_phase
    (Coord.coordination_session
       (Flow.on_agent_completed Ex2.env1 "participant_agent" None
          Ex2.coord_collecting))
  = Sess.SCHEDULE_COORDINATION.
Proof.
  destruct (@completion_advances_one_phase Ex2.env1 "participant_agent" None
              Ex2.coord_collecting
              (Sess.mkAgentInstance "participant_agent"
                 "00000000-0000-4000-8000-000000000001" Sess.ACTIVE
                 (Some 1700000000000000) None (Some 1700000000000000)
                 (Some "参加者収集") 0 [] 0)
              Sess.SCHEDULE_COORDINATION
              ltac:(discriminate) ltac:(left; reflexivity) eq_refl eq_refl
              eq_refl) as (H & _).
  exact H.
Defined.

(** X13.  [_start_agent] answers [True] only for an agent that was ready:
    the name is registered, every declared dependency is registered with
    status Completed, and the session tracked an Idle instance of the name,
    the first of which is the one that became Active.  A successful start
    writes the session to the repository once and sends one message. *)
Theorem start_success_means_ready
    (e : Env) (name : string) (task : option string)
    (c c' : Coord.CoordinationAgent) :
  Coord.start_agent e name task c = (true, c') ->
  Py.dict_contains name (Coord.managed_agents c) = true /\
  (forall dep, In dep (Coord.agent_dependencies name) ->
               Coord.status_of c dep = Some Sess.DONE) /\
  (exists pre x post x',
     Sess.active_agents (Coord.coordination_session c) = pre ++ x :: post /\
     Sess.active_agents (Coord.coordination_session c') = pre ++ x' :: post /\
     Sess.agent_name x = name /\ Sess.status x = Sess.IDLE /\
     Sess.agent_name x' = name /\ Sess.status x' = Sess.ACTIVE /\
     Forall (fun b => Sess.named name Sess.IDLE b = false) pre) /\
  Base.messages_sent (Base.metrics (Coord.base c'))
    = (Base.messages_sent (Base.metrics (Coord.base c)) + 1)%Z /\
  Coord.persisted c' = S (Coord.persisted c).
Proof.
  unfold Coord.start_agent, Py.dict_contains.
  destruct (Py.dict_get name (Coord.managed_agents c)) as [position|];
    [| discriminate].
  destruct (Coord.managed c name) as [a|]; [| discriminate].
  destruct (Coord.check_dependencies c (Coord.agent_dependencies name))
    eqn:D; try discriminate.
  pose proof
    (proj1 (@check_dependencies_satisfied c (Coord.agent_dependencies name))
       D) as Hdeps.
  unfold Sess.start_agent.
  destruct (Sess.update_first _ _ _) as [l|] eqn:U; [| discriminate].
  intro H. inversion H as [Hc]. clear H.
  destruct (update_first_some _ _ _ U)
    as (pre & x & post & Hl & Hl' & Hx & Hpre).
  apply named_spec in Hx. destruct Hx as [Hn Hs].
  split; [reflexivity |]. split; [exact Hdeps |]. split.
  - exists pre, x, post. eexists.
    split; [exact Hl |]. cbn. split; [exact Hl' |].
    cbn. repeat split; assumption.
  - unfold Base.send_message.
    destruct (Base.message_bus (Coord.base _)); cbn; split; reflexivity.
Qed.

(** The participant agent of [Ex.coord_registered] has no dependency and
    is Idle: its start succeeds, and so it was ready. *)
Lemma start_success_means_ready_witness :
  Py.dict_contains "participant_agent"
    (Coord.managed_agents Ex.coord_registered) = true /\
  Coord.persisted
    (snd (Coord.start_agent Ex.env0 "participant_agent" None
            Ex.coord_registered))
  = S (Coord.persisted Ex.coord_registered).
Proof.
  destruct (@start_success_means_ready Ex.env0 "participant_agent" None
              Ex.coord_registered
              (snd (Coord.start_agent Ex.env0 "participant_agent" None
                      Ex.coord_registered))
              eq_refl) as (H1 & _ & _ & _ & H2).
  split; [exact H1 | exact H2].
Defined.

Section RegistryMore.

Import Sess.

(** A step that keeps the registry and the names of the tracked instances
    keeps every registered name bound. *)
Lemma well_formed_frame c c' :
  Coord.managed_agents c' = Coord.managed_agents c ->
  map agent_name (active_agents (Coord.coordination_session c'))
    = map agent_name (active_agents (Coord.coordination_session c)) ->
  Flow.well_formed c -> Flow.well_formed c'.
Proof.
  unfold Flow.well_formed. intros Hm Hn H n i. rewrite Hm, Hn. apply H.
Qed.

Lemma completion_frame e n r c :
  Coord.managed_agents (snd (Coord.handle_agent_completion e n r c))
    = Coord.managed_agents c /\
  map agent_name
    (active_agents
       (Coord.coordination_session
          (snd (Coord.handle_agent_completion e n r c))))
    = map agent_name (active_agents (Coord.coordination_session c)).
Proof.
  unfold Coord.handle_agent_completion.
  destruct (Py.truthy_str n); [| split; reflexivity].
  unfold complete_agent.
  destruct (update_first _ _ _) eqn:U; [| split; reflexivity].
  cbn. split; [reflexivity |].
  eapply update_first_names; [| exact U]. reflexivity.
Qed.

Lemma flow_transition_frame e q c :
  Coord.managed_agents (snd (Flow.transition_to_phase e q c))
    = Coord.managed_agents c /\
  map agent_name
    (active_agents
       (Coord.coordination_session (snd (Flow.transition_to_phase e q c))))
    = map agent_name (active_agents (Coord.coordination_session c)).
Proof.
  unfold Flow.transition_to_phase, transition_to_phase.
  destruct (phase_in _ _); [| split; reflexivity].
  cbv beta iota zeta. cbn [snd].
  match goal with
  | |- context [Flow.start_phase_agents e q ?c0] =>
      destruct (start_phase_agents_frame e q c0) as (_ & _ & _ & _ & F5 & F6)
  end.
  rewrite F5, F6. split; reflexivity.
Qed.

Lemma stop_agents_frame e names :
  forall c,
    let c' :=
      fold_left (fun c0 n => snd (Flow.stop_agent e n c0)) names c in
    Coord.managed_agents c' = Coord.managed_agents c /\
    Coord.coordination_session c' = Coord.coordination_session c /\
    Coord.persisted c' = Coord.persisted c.
Proof.
  induction names as [|n names IH]; intro c; cbv zeta.
  - repeat split.
  - cbn [fold_left].
    destruct (IH (snd (Flow.stop_agent e n c))) as (H1 & H2 & H3).
    rewrite H1, H2, H3. unfold Flow.stop_agent.
    destruct (Py.dict_contains n _); repeat split.
Qed.

End RegistryMore.

(** X14.  Every name of [managed_agents] stays bound to an instance of the
    session's [active_agents] that carries that name: the binding holds
    after a registration, after [_start_agent] whatever its outcome, after
    an [agent_completed] event with the phase change it triggers, after an
    [agent_failed] event, and after the coordinator stops. *)
Theorem managed_names_stay_bound
    (e : Env) (name message : string) (task : option string)
    (result : option (Py.Dict Py.Any)) (c : Coord.CoordinationAgent) :
  Flow.well_formed c ->
  Flow.well_formed (snd (Coord.handle_agent_registration e name c)) /\
  Flow.well_formed (snd (Coord.start_agent e name task c)) /\
  Flow.well_formed (Flow.on_agent_completed e name result c) /\
  Flow.well_formed (Flow.on_agent_failed e name message c) /\
  Flow.well_formed (Flow.stop_impl e c).
Proof.
  intro W. split; [| split; [| split; [| split]]].
  - unfold Flow.well_formed. cbn. intros n i. rewrite dict_get_set.
    rewrite map_app. destruct (String.eqb n name) eqn:E.
    + apply String.eqb_eq in E. subst n. intro H. inversion H. subst i.
      rewrite nth_error_app2 by (rewrite length_map; lia).
      rewrite length_map, Nat.sub_diag. reflexivity.
    + intro H. pose proof (W n i H) as Hi.
      rewrite nth_error_app1; [exact Hi |].
      apply nth_error_Some. congruence.
  - destruct (coord_start_frame e name task c) as (_ & _ & _ & _ & F5 & F6).
    exact (well_formed_frame _ F5 F6 W).
  - unfold Flow.on_agent_completed.
    destruct (completion_frame e name result c) as [F1 F2].
    pose proof (well_formed_frame _ F1 F2 W) as W1.
    destruct (Coord.handle_agent_completion e name result c) as [[|] c1];
      cbn [snd] in *; [| exact W1].
    unfold Flow.check_phase_completion.
    destruct (Coord.phase_transitions _) as [q|]; [| exact W1].
    destruct (flow_transition_frame e q c1) as [G1 G2].
    exact (well_formed_frame _ G1 G2 W1).
  - unfold Flow.on_agent_failed.
    destruct (Py.truthy_str name); [| exact W].
    unfold Sess.fail_agent.
    destruct (Sess.update_first _ _ _) eqn:U; [| exact W].
    apply (well_formed_frame (c := c)); [reflexivity | | exact W].
    cbn. eapply update_first_names; [| exact U]. reflexivity.
  - unfold Flow.stop_impl.
    destruct (stop_agents_frame e (Py.dict_keys (Coord.managed_agents c)) c)
      as (H1 & H2 & _).
    apply (well_formed_frame (c := c)); [exact H1 | | exact W].
    cbn. rewrite H2. reflexivity.
Qed.

(** A coordinator that has just been initialised manages no agent; its
    first registration binds the name to the new instance. *)
Lemma managed_names_stay_bound_witness :
  Flow.well_formed Ex.coord0 /\
  Flow.well_formed
    (snd (Coord.handle_agent_registration Ex.env0 "participant_agent"
            Ex.coord0)).
Proof.
  assert (W : Flow.well_formed Ex.coord0)
    by (intros n i H; discriminate H).
  split; [exact W |].
  destruct (@managed_names_stay_bound Ex.env0 "participant_agent" "" None
              None Ex.coord0 W) as (H & _).
  exact H.
Defined.

(** X15.  A second registration of a name shadows the first instance
    without removing it.  When the session already tracks an Idle instance
    of the name and the name is registered again, a later [_start_agent]
    (its dependencies being Completed) succeeds, but it starts the older
    instance, which the session's list holds first: the instance that
    [managed_agents] now binds to the name is still Idle afterwards. *)
Theorem second_registration_shadows_first
    (e1 e2 : Env) (name : string) (task : option string)
    (c : Coord.CoordinationAgent) (x : Sess.AgentInstance) :
  In x (Sess.active_agents (Coord.coordination_session c)) ->
  Sess.agent_name x = name -> Sess.status x = Sess.IDLE ->
  (forall dep, In dep (Coord.agent_dependencies name) ->
     Coord.status_of (snd (Coord.handle_agent_registration e1 name c)) dep
       = Some Sess.DONE) ->
  let c1 := snd (Coord.handle_agent_registration e1 name c) in
  fst (Coord.start_agent e2 name task c1) = true /\
  Coord.status_of (snd (Coord.start_agent e2 name task c1)) name
    = Some Sess.IDLE /\
  List.length
    (Sess.active_agents
       (Coord.coordination_session (snd (Coord.start_agent e2 name task c1))))
    = S (List.length (Sess.active_agents (Coord.coordination_session c))).
Proof.
  intros Hin Hn Hs Hdeps. cbv zeta.
  pose proof
    (proj2 (@check_dependencies_satisfied _ (Coord.agent_dependencies name))
       Hdeps) as D.
  assert (Hx : Sess.named name Sess.IDLE x = true)
    by (apply named_spec; split; assumption).
  set (fresh :=
         Sess.mkAgentInstance name (uuid e1) Sess.IDLE None None None None 0
           [] 0).
  set (l := Sess.active_agents (Coord.coordination_session c)) in *.
  assert (Hpos :
            Py.dict_get name
              (Coord.managed_agents
                 (snd (Coord.handle_agent_registration e1 name c)))
            = Some (List.length l)).
  { cbn. rewrite dict_get_set, String.eqb_refl. reflexivity. }
  assert (Hm :
            Coord.managed (snd (Coord.handle_agent_registration e1 name c))
              name = Some fresh).
  { unfold Coord.managed. rewrite Hpos. cbn. fold l.
    rewrite nth_error_app2 by lia. rewrite Nat.sub_diag. reflexivity. }
  unfold Coord.start_agent. rewrite Hpos, Hm, D.
  unfold Sess.start_agent.
  cbn [Coord.coordination_session Coord.handle_agent_registration snd
       Coord.persist Coord.set_managed_agents Coord.set_session
       Sess.active_agents Sess.set_active_agents].
  fold l. fold fresh.
  match goal with
  | |- context [Sess.update_first ?t ?f (l ++ [fresh])] =>
      destruct (update_first_found t f l x Hin Hx) as [l' U];
      rewrite (update_first_app t f l [fresh] U);
      pose proof (update_first_names t f l (fun a => eq_refl) U) as Hnames
  end.
  assert (Hlen : List.length l' = List.length l).
  { rewrite <- (length_map Sess.agent_name l'), Hnames. apply length_map. }
  cbv beta iota zeta. split; [reflexivity |]. split.
  - unfold Coord.status_of, Coord.managed.
    cbn [snd Coord.set_base Coord.managed_agents Coord.persist
         Coord.set_session Coord.coordination_session Sess.active_agents
         Sess.update_timestamp Sess.log_activity Sess.set_activity_log
         Sess.set_active_agents Coord.handle_agent_registration
         Coord.set_managed_agents].
    rewrite dict_get_set, String.eqb_refl. fold l.
    rewrite <- Hlen. rewrite nth_error_app2 by lia.
    rewrite Nat.sub_diag. reflexivity.
  - cbn [snd Coord.set_base Coord.managed_agents Coord.persist
         Coord.set_session Coord.coordination_session Sess.active_agents
         Sess.update_timestamp Sess.log_activity Sess.set_activity_log
         Sess.set_active_agents].
    rewrite length_app, Hlen. cbn. lia.
Qed.

(** The participant agent registers twice with the coordinator before it
    is started. *)
Lemma second_registration_shadows_first_witness :
  fst (Coord.start_agent Ex2.env2 "participant_agent" None
         (snd (Coord.handle_agent_registration Ex2.env1 "participant_agent"
                 Ex.coord_registered))) = true /\
  Coord.status_of
    (snd (Coord.start_agent Ex2.env2 "participant_agent" None
            (snd (Coord.handle_agent_registration Ex2.env1
                    "participant_agent" Ex.coord_registered))))
    "participant_agent" = Some Sess.IDLE.
Proof.
  destruct (@second_registration_shadows_first Ex2.env1 Ex2.env2
              "participant_agent" None Ex.coord_registered
              (Sess.mkAgentInstance "participant_agent"
                 "00000000-0000-4000-8000-000000000001" Sess.IDLE None None
                 None None 0 [] 0)
              ltac:(left; reflexivity) eq_refl eq_refl
              ltac:(intros dep []))
    as (H1 & H2 & _).
  split; [exact H1 | exact H2].
Defined.

Section StopMore.

Lemma dict_keys_contained {V : Type} (d : Py.Dict V) (k : string) :
  In k (Py.dict_keys d) -> Py.dict_contains k d = true.
Proof.
  unfold Py.dict_contains, Py.dict_keys.
  induction d as [|[k0 v0] d IH]; simpl; intro H.
  - destruct H.
  - destruct (String.eqb k k0) eqn:E; [reflexivity |].
    destruct H as [H | H]; [| now apply IH].
    subst k0. rewrite String.eqb_refl in E. discriminate.
Qed.

(** Each stop in the loop of [_stop_impl] is sent. *)
Lemma stop_agents_sent e names :
  forall c,
    (forall n, In n names ->
               Py.dict_contains n (Coord.managed_agents c) = true) ->
    Base.messages_sent
      (Base.metrics
         (Coord.base
            (fold_left (fun c0 n => snd (Flow.stop_agent e n c0)) names c)))
    = (Base.messages_sent (Base.metrics (Coord.base c))
       + Z.of_nat (List.length names))%Z.
Proof.
  induction names as [|n names IH]; intros c Hall.
  - cbn. lia.
  - cbn [fold_left]. rewrite IH.
    + unfold Flow.stop_agent. rewrite (Hall n (or_introl eq_refl)).
      unfold Base.send_message.
      destruct (Base.message_bus (Coord.base c));
        cbn [snd fst Coord.base Coord.set_base Base.metrics Base.set_metrics
             Base.record_message_sent Base.messages_sent
             Base.set_message_bus Base.set_pending_messages];
        rewrite length_cons; lia.
    + intros m Hm. unfold Flow.stop_agent.
      rewrite (Hall n (or_introl eq_refl)). cbn.
      apply Hall. now right.
Qed.

End StopMore.

(** X16.  Stopping the coordinator closes the session by assignment, not
    by a transition: whatever the current phase, [_stop_impl] leaves the
    session in phase Completed without consulting the table of legal
    transitions, without touching [previous_phase], without a checkpoint
    or an activity-log line, and without changing any tracked agent (an
    Active agent stays Active).  It sends one stop message per managed
    name and writes the session to the repository once. *)
Theorem stop_closes_session_directly
    (e : Env) (c : Coord.CoordinationAgent) :
  let s := Coord.coordination_session c in
  let s' := Coord.coordination_session (Flow.stop_impl e c) in
  Sess.current_phase s' = Sess.COMPLETED /\
  Sess.previous_phase s' = Sess.previous_phase s /\
  Sess.checkpoints s' = Sess.checkpoints s /\
  Sess.activity_log s' = Sess.activity_log s /\
  Sess.active_agents s' = Sess.active_agents s /\
  Base.messages_sent (Base.metrics (Coord.base (Flow.stop_impl e c)))
    = (Base.messages_sent (Base.metrics (Coord.base c))
       + Z.of_nat (List.length (Coord.managed_agents c)))%Z /\
  Coord.persisted (Flow.stop_impl e c) = S (Coord.persisted c).
Proof.
  cbv zeta. unfold Flow.stop_impl.
  destruct (stop_agents_frame e (Py.dict_keys (Coord.managed_agents c)) c)
    as (_ & H2 & H3).
  cbn [Coord.coordination_session Coord.persist Coord.set_session
       Coord.base Coord.persisted Sess.set_phases Sess.current_phase
       Sess.previous_phase Sess.checkpoints Sess.activity_log
       Sess.active_agents].
  rewrite H2, H3.
  repeat (split; [reflexivity |]). split; [| reflexivity].
  rewrite stop_agents_sent.
  - unfold Py.dict_keys. now rewrite length_map.
  - intros n Hn. now apply dict_keys_contained.
Qed.

Section StatusMore.

Import Sess.

Lemma update_first_nth test f l l' i a :
  update_first test f l = Some l' -> nth_error l i = Some a ->
  nth_error l' i = Some a \/ (test a = true /\ nth_error l' i = Some (f a)).
Proof.
  revert l' i. induction l as [|b l IH]; simpl; intros l' i U Hi.
  - discriminate.
  - destruct (test b) eqn:Hb.
    + inversion U; subst. destruct i as [|i]; simpl in *.
      * inversion Hi; subst. right. split; [assumption | reflexivity].
      * now left.
    + destruct (update_first test f l) as [l''|]; [| discriminate].
      inversion U; subst. destruct i as [|i]; simpl in *.
      * now left.
      * now apply IH.
Qed.

(** One call moves the status of a tracked instance along Idle to Active,
    Active to Completed, or anything to Error, and keeps its place, name
    and id. *)
Lemma apply_op_status (eo : Env * Op) (s : CoordinationSession) i a :
  nth_error (active_agents s) i = Some a ->
  exists a',
    nth_error (active_agents (apply_op eo s)) i = Some a' /\
    agent_name a' = agent_name a /\ agent_id a' = agent_id a /\
    (status a' = status a \/
     (status a = IDLE /\ status a' = ACTIVE) \/
     (status a = ACTIVE /\ status a' = DONE) \/
     status a' = ERROR).
Proof.
  intro Hi. destruct eo as [e o].
  assert (Same : exists a',
             nth_error (active_agents s) i = Some a' /\
             agent_name a' = agent_name a /\ agent_id a' = agent_id a /\
             (status a' = status a \/
              (status a = IDLE /\ status a' = ACTIVE) \/
              (status a = ACTIVE /\ status a' = DONE) \/
              status a' = ERROR))
    by (exists a; repeat split; auto).
  destruct o; simpl; try exact Same.
  - unfold transition_to_phase. destruct (phase_in _ _); exact Same.
  - exists a. split; [| repeat split; auto].
    rewrite nth_error_app1; [exact Hi |].
    apply nth_error_Some. congruence.
  - unfold start_agent.
    destruct (update_first _ _ _) as [l|] eqn:U; [| exact Same]. cbn.
    destruct (update_first_nth _ _ _ _ U Hi) as [H | [Ht H]].
    + exists a. repeat split; auto.
    + apply named_spec in Ht. destruct Ht as [_ Hs].
      eexists. split; [exact H |]. cbn. repeat split; auto.
  - unfold complete_agent.
    destruct (update_first _ _ _) as [l|] eqn:U; [| exact Same]. cbn.
    destruct (update_first_nth _ _ _ _ U Hi) as [H | [Ht H]].
    + exists a. repeat split; auto.
    + apply named_spec in Ht. destruct Ht as [_ Hs].
      eexists. split; [exact H |]. cbn. repeat split; auto.
  - unfold fail_agent.
    destruct (update_first _ _ _) as [l|] eqn:U; [| exact Same]. cbn.
    destruct (update_first_nth _ _ _ _ U Hi) as [H | [Ht H]].
    + exists a. repeat split; auto.
    + eexists. split; [exact H |]. cbn. repeat split; auto.
  - unfold update_agent_progress.
    destruct (update_first _ _ _) as [l|] eqn:U; [| exact Same]. cbn.
    destruct (update_first_nth _ _ _ _ U Hi) as [H | [Ht H]].
    + exists a. repeat split; auto.
    + eexists. split; [exact H |]. cbn. repeat split; auto.
Qed.

End StatusMore.

(** X17.  The session's methods never bring an instance back: a tracked
    instance whose status is neither Idle nor Active (Completed, Error,
    Waiting or Timeout) keeps its place in [active_agents], its name and
    its id through any sequence of the session's methods, and its status
    either stays what it was or becomes Error.  In particular a Completed
    agent is never Active again, and an agent that was marked Waiting is
    never started by [start_agent]. *)
Theorem settled_instances_are_not_restarted
    (ops : list (Env * Sess.Op)) (s : Sess.CoordinationSession)
    (i : nat) (a : Sess.AgentInstance) :
  nth_error (Sess.active_agents s) i = Some a ->
  Sess.status a <> Sess.IDLE -> Sess.status a <> Sess.ACTIVE ->
  exists a',
    nth_error (Sess.active_agents (Sess.run ops s)) i = Some a' /\
    Sess.agent_name a' = Sess.agent_name a /\
    Sess.agent_id a' = Sess.agent_id a /\
    (Sess.status a' = Sess.status a \/ Sess.status a' = Sess.ERROR).
Proof.
  revert s a. induction ops as [|eo ops IH]; intros s a Hi Hidle Hact.
  - exists a. repeat split; auto.
  - change (Sess.run (eo :: ops) s) with (Sess.run ops (Sess.apply_op eo s)).
    destruct (apply_op_status eo s i Hi) as (b & Hb & Hn & Hid & Hst).
    assert (Hb' : Sess.status b = Sess.status a \/ Sess.status b = Sess.ERROR).
    { destruct Hst as [H | [[H _] | [[H _] | H]]]; auto; contradiction. }
    destruct (IH (Sess.apply_op eo s) b Hb) as (a' & Ha' & Hn' & Hid' & Hst').
    + destruct Hb' as [H | H]; rewrite H; [assumption | discriminate].
    + destruct Hb' as [H | H]; rewrite H; [assumption | discriminate].
    + exists a'. split; [exact Ha' |].
      split; [congruence |]. split; [congruence |].
      destruct Hst' as [H | H]; [| now right].
      destruct Hb' as [H' | H']; [left | right]; congruence.
Qed.

(** The participant agent has completed; neither a new start nor a new
    completion changes that. *)
Lemma settled_instances_are_not_restarted_witness :
  exists a',
    nth_error
      (Sess.active_agents
         (Sess.run
            [(Ex2.env1, Sess.OpStartAgent "participant_agent" None);
             (Ex2.env2, Sess.OpCompleteAgent "participant_agent" None)]
            (Coord.coordination_session Ex.coord_participant_done))) 0
    = Some a' /\
    (Sess.status a' = Sess.DONE \/ Sess.status a' = Sess.ERROR).
Proof.
  edestruct (@settled_instances_are_not_restarted
               [(Ex2.env1, Sess.OpStartAgent "participant_agent" None);
                (Ex2.env2, Sess.OpCompleteAgent "participant_agent" None)]
               (Coord.coordination_session Ex.coord_participant_done) 0)
    as (a' & H1 & _ & _ & H2).
  - reflexivity.
  - discriminate.
  - discriminate.
  - exists a'. split; [exact H1 | exact H2].
Defined.

(** ** The scheduling agent's candidates and scores *)

Section CandidateMore.

Import Sched.

Lemma midnight_multiple (t : Z) :
  midnight t = (us_per_day * (t / us_per_day))%Z.
Proof.
  unfold midnight, us_per_day. Z.div_mod_to_equations. lia.
Qed.

Lemma preferred_hours_range (t : EventType) (h : Z) :
  In h (preferred_hours (event_type_preferences t)) -> (9 <= h <= 20)%Z.
Proof. destruct t; simpl; intuition lia. Qed.

Lemma duration_positive (t : EventType) :
  (0 < duration_minutes (event_type_preferences t))%Z.
Proof. destruct t; simpl; lia. Qed.

(** The hour and the weekday of an hour of a day. *)
Lemma hour_of_slot_start (k h : Z) :
  (0 <= h < 24)%Z ->
  hour_of (us_per_day * k + h * us_per_hour) = h.
Proof.
  intro Hh. unfold hour_of, us_per_day, us_per_hour.
  Z.div_mod_to_equations. lia.
Qed.

Lemma weekday_of_slot_start (k h : Z) :
  (0 <= h < 24)%Z ->
  weekday (us_per_day * k + h * us_per_hour) = ((k + 3) mod 7)%Z.
Proof.
  intro Hh. unfold weekday, us_per_day, us_per_hour.
  f_equal. f_equal. Z.div_mod_to_equations. lia.
Qed.

Lemma weekday_of_day (k : Z) :
  weekday (us_per_day * k) = ((k + 3) mod 7)%Z.
Proof.
  unfold weekday, us_per_day. f_equal. f_equal.
  Z.div_mod_to_equations. lia.
Qed.

Lemma generate_by_day (e : Env) (t : EventType) :
  generate_potential_time_slots e t
  = flat_map (SchedView.day_candidates e t) (seq 1 14).
Proof. reflexivity. Qed.

Lemma day_candidates_length (e : Env) (t : EventType) (day : nat) :
  List.length (SchedView.day_candidates e t day)
  = if (5 <=? (weekday (midnight (now e)) + Z.of_nat day) mod 7)%Z then 0%nat
    else List.length (preferred_hours (event_type_preferences t)).
Proof.
  unfold SchedView.day_candidates. cbv zeta.
  replace (weekday (midnight (now e) + Z.of_nat day * us_per_day))
    with ((weekday (midnight (now e)) + Z.of_nat day) mod 7)%Z.
  - destruct (5 <=? _)%Z; [reflexivity | apply length_map].
  - rewrite midnight_multiple.
    replace (us_per_day * (now e / us_per_day) + Z.of_nat day * us_per_day)%Z
      with (us_per_day * (now e / us_per_day + Z.of_nat day))%Z by lia.
    rewrite !weekday_of_day.
    rewrite Zplus_mod_idemp_l. f_equal. lia.
Qed.

Lemma flat_map_length_sum {A B : Type} (f : A -> list B) (l : list A) :
  List.length (flat_map f l)
  = fold_right (fun x n => (List.length (f x) + n)%nat) 0%nat l.
Proof.
  induction l as [|x l IH]; simpl; [reflexivity |].
  now rewrite length_app, IH.
Qed.

End CandidateMore.

(** X18.  The candidates the scheduling agent generates.  Every candidate
    starts after the call, on a weekday of the fourteen days that follow
    the current day, at a preferred hour of the event type; it lasts the
    duration of the event type and carries preference level 2.  Its
    event-type fitness is therefore always 1.  Fourteen consecutive days
    hold ten weekdays, so the number of candidates is ten times the number
    of preferred hours, whatever the day of the call. *)
Theorem generated_candidates_fit_event_type
    (e : Env) (t : Sched.EventType) :
  (forall slot,
      In slot (Sched.generate_potential_time_slots e t) ->
      (now e < Sched.start_time slot)%Z /\
      (Sched.start_time slot
       < Sched.midnight (now e) + 15 * Sched.us_per_day)%Z /\
      (Sched.end_time slot - Sched.start_time slot
       = Sched.duration_minutes (Sched.event_type_preferences t)
         * Sched.us_per_minute)%Z /\
      (Sched.start_time slot < Sched.end_time slot)%Z /\
      Sched.preference_level slot = 2%Z /\
      (0 <= Sched.weekday (Sched.start_time slot) < 5)%Z /\
      In (Sched.hour_of (Sched.start_time slot))
        (Sched.preferred_hours (Sched.event_type_preferences t)) /\
      Sched.calculate_event_type_fitness t slot = 1%Q) /\
  List.length (Sched.generate_potential_time_slots e t)
  = (10 * List.length
            (Sched.preferred_hours (Sched.event_type_preferences t)))%nat.
Proof.
  split.
  - intros slot Hin. rewrite generate_by_day in Hin.
    apply in_flat_map in Hin. destruct Hin as (day & Hday & Hin).
    apply in_seq in Hday. unfold SchedView.day_candidates in Hin.
    cbv zeta in Hin.
    destruct (5 <=? Sched.weekday _)%Z eqn:W; [destruct Hin |].
    apply in_map_iff in Hin. destruct Hin as (hour & <- & Hhour).
    pose proof (preferred_hours_range t hour Hhour) as Hr.
    pose proof (duration_positive t) as Hd.
    apply Z.leb_gt in W.
    rewrite midnight_multiple in *.
    set (k := (now e / Sched.us_per_day)%Z) in *.
    replace (Sched.us_per_day * k + Z.of_nat day * Sched.us_per_day)%Z
      with (Sched.us_per_day * (k + Z.of_nat day))%Z in * by lia.
    cbn [Sched.start_time Sched.end_time Sched.preference_level].
    assert (Hh : Sched.hour_of
                   (Sched.us_per_day * (k + Z.of_nat day)
                    + hour * Sched.us_per_hour) = hour)
      by (apply hour_of_slot_start; lia).
    assert (Hnow : (Sched.us_per_day * k <= now e
                    < Sched.us_per_day * k + Sched.us_per_day)%Z).
    { unfold k, Sched.us_per_day. Z.div_mod_to_equations. lia. }
    split; [unfold Sched.us_per_day, Sched.us_per_hour in *; lia |].
    split; [unfold Sched.us_per_day, Sched.us_per_hour in *; lia |].
    split; [lia |].
    split; [unfold Sched.us_per_minute; lia |].
    split; [reflexivity |].
    split.
    { rewrite weekday_of_slot_start by lia.
      rewrite weekday_of_day in W.
      pose proof (Z.mod_pos_bound (k + Z.of_nat day + 3) 7 ltac:(lia)).
      lia. }
    split; [rewrite Hh; exact Hhour |].
    unfold Sched.calculate_event_type_fitness.
    cbn [Sched.start_time]. rewrite Hh.
    replace (Sched.int_in hour _) with true; [reflexivity |].
    symmetry. apply int_in_In. exact Hhour.
  - rewrite generate_by_day, flat_map_length_sum.
    cbn [seq fold_right]. rewrite !day_candidates_length.
    pose proof (Z.mod_pos_bound (Sched.midnight (now e) / Sched.us_per_day + 3)
                  7 ltac:(lia)) as Hw.
    unfold Sched.weekday at 1 2 3 4 5 6 7 8 9 10 11 12 13 14.
    set (w := ((Sched.midnight (now e) / Sched.us_per_day + 3) mod 7)%Z) in *.
    set (n := List.length
                (Sched.preferred_hours (Sched.event_type_preferences t))).
    assert (Hcase : (w = 0 \/ w = 1 \/ w = 2 \/ w = 3 \/ w = 4 \/ w = 5
                     \/ w = 6)%Z) by lia.
    clearbody w n.
    destruct Hcase as [-> | [-> | [-> | [-> | [-> | [-> | ->]]]]]];
      cbn; lia.
Qed.

Section BoundsMore.

Import Sched.
Local Open Scope Q_scope.

Lemma sum_unit_bounds (l : list Q) :
  Forall (fun x => 0 <= x <= 1) l ->
  0 <= SchedSpec.sum_Q l <= inject_Z (Z.of_nat (List.length l)).
Proof.
  induction 1 as [|x l Hx _ IH]; cbn [SchedSpec.sum_Q fold_right List.length].
  - split; apply Qle_refl.
  - fold (SchedSpec.sum_Q l).
    rewrite Nat2Z.inj_succ. unfold Z.succ. rewrite inject_Z_plus.
    change (inject_Z 1) with 1. lra.
Qed.

Lemma ratio_nonneg (a b : nat) :
  0 <= inject_Z (Z.of_nat a) / inject_Z (Z.of_nat b).
Proof.
  unfold Qdiv. apply Qmult_le_0_compat.
  - change 0 with (inject_Z 0). rewrite <- Zle_Qle. lia.
  - apply Qinv_le_0_compat.
    change 0 with (inject_Z 0). rewrite <- Zle_Qle. lia.
Qed.

Lemma ratio_le_1 (a b : nat) :
  (a <= b)%nat -> (0 < b)%nat ->
  inject_Z (Z.of_nat a) / inject_Z (Z.of_nat b) <= 1.
Proof.
  intros Hab Hb. apply Qle_shift_div_r.
  - change 0 with (inject_Z 0). rewrite <- Zlt_Qlt. lia.
  - rewrite Qmult_1_l. rewrite <- Zle_Qle. lia.
Qed.

Lemma preference_score_unit (a : TimeSlotAnalysis) :
  Forall (fun kv : string * Q => 0 <= snd kv <= 1) (preference_weights a) ->
  0 <= calculate_preference_score a <= 1.
Proof.
  intro H. rewrite calculate_preference_score_mean.
  assert (Hv : Forall (fun x => 0 <= x <= 1)
                 (Py.dict_values (preference_weights a))).
  { unfold Py.dict_values. apply Forall_map. exact H. }
  pose proof (sum_unit_bounds Hv) as [Hlo Hhi].
  assert (Hlen : List.length (Py.dict_values (preference_weights a))
                 = List.length (preference_weights a))
    by apply length_map.
  rewrite Hlen in Hhi. clear Hlen.
  destruct (preference_weights a) as [|w ws].
  - cbn. split; [apply Qle_refl | discriminate].
  - set (n := inject_Z (Z.of_nat (List.length (w :: ws)))) in *.
    assert (Hn : 0 < n).
    { unfold n. change 0 with (inject_Z 0). rewrite <- Zlt_Qlt.
      cbn [List.length]. lia. }
    split.
    + apply Qle_shift_div_l; [exact Hn | lra].
    + apply Qle_shift_div_r; [exact Hn | lra].
Qed.

Lemma conflict_score_unit (a : TimeSlotAnalysis) :
  0 <= calculate_conflict_score a <= 1.
Proof.
  unfold calculate_conflict_score.
  destruct (conflict_details a) as [|d ds]; [split; lra |].
  destruct (Nat.eqb _ 0); [split; lra |].
  unfold py_min.
  destruct (Qle_bool _ 1) eqn:E; [| split; lra].
  apply Qle_bool_iff in E. split; [apply ratio_nonneg | exact E].
Qed.

Lemma availability_score_unit (a : TimeSlotAnalysis) :
  0 <= get_availability_score a <= 1.
Proof.
  unfold get_availability_score.
  destruct (Nat.eqb _ 0) eqn:E; [split; lra |].
  apply Nat.eqb_neq in E.
  split; [apply ratio_nonneg | apply ratio_le_1; lia].
Qed.

Lemma min_of_abs_nonneg (hour : Z) (hours : list Z) :
  (0 <= min_of (map (fun pref_hour => Z.abs (hour - pref_hour)) hours))%Z.
Proof.
  unfold min_of. destruct hours as [|h hs]; cbn [map]; [lia |].
  assert (G : forall l m, (0 <= m)%Z ->
                (0 <= fold_left Z.min
                        (map (fun pref_hour => Z.abs (hour - pref_hour)) l)
                        m)%Z).
  { induction l as [|x l IH]; cbn [map fold_left]; intros m Hm;
      [exact Hm | apply IH; lia]. }
  apply G. lia.
Qed.

Lemma event_type_fitness_unit (t : EventType) (slot : TimeSlot) :
  0 <= calculate_event_type_fitness t slot <= 1.
Proof.
  unfold calculate_event_type_fitness. cbv zeta.
  destruct (int_in _ _); [split; lra |].
  pose proof (min_of_abs_nonneg (hour_of (start_time slot))
                (preferred_hours (event_type_preferences t))) as Hd.
  rewrite Zle_Qle in Hd. change (inject_Z 0) with 0 in Hd.
  set (d := inject_Z (min_of _)) in *.
  assert (Hq : 0 <= d / 12) by (apply Qle_shift_div_l; lra).
  unfold py_max.
  destruct (Qle_bool (1 - d / 12) 0) eqn:E; [split; lra |].
  assert (Hpos : ~ 1 - d / 12 <= 0).
  { intro Hle. apply Qle_bool_iff in Hle. congruence. }
  apply Qnot_le_lt in Hpos. split; lra.
Qed.

Lemma dict_set_values {V : Type} (P : V -> Prop) (k : string) (v : V)
    (d : Py.Dict V) :
  Forall (fun kv => P (snd kv)) d -> P v ->
  Forall (fun kv => P (snd kv)) (Py.dict_set k v d).
Proof.
  intros Hd Hv. induction Hd as [|[k0 v0] d H0 Hd IH]; cbn [Py.dict_set].
  - constructor; [exact Hv | constructor].
  - destruct (String.eqb k k0); constructor; auto.
Qed.

Lemma scan_user_max_bound (candidate : TimeSlot) (user_id : string)
    (user_slots : list TimeSlot) :
  (forall s, In s user_slots -> (preference_level s <= 3)%Z) ->
  (0 <= max_preference (scan_user candidate user_id user_slots) <= 3)%Z.
Proof.
  intro H.
  destruct (scan_user_spec candidate user_id user_slots) as (_ & -> & _).
  unfold SchedSpec.best_level.
  induction user_slots as [|s l IH]; cbn [filter map fold_right]; [lia |].
  assert (Hl : forall s', In s' l -> (preference_level s' <= 3)%Z)
    by (intros s' Hs'; apply H; now right).
  specialize (IH Hl).
  destruct (slots_overlap candidate s); cbn [map fold_right]; [| exact IH].
  pose proof (H s (or_introl eq_refl)). lia.
Qed.

Lemma analysis_weights_unit (candidate : TimeSlot)
    (declared : Py.Dict (list TimeSlot)) :
  (forall user_id user_slots s,
      In (user_id, user_slots) declared -> In s user_slots ->
      (preference_level s <= 3)%Z) ->
  Forall (fun kv : string * Q => 0 <= snd kv <= 1)
    (preference_weights (analyze_single_time_slot candidate declared)).
Proof.
  unfold analyze_single_time_slot.
  assert (G : forall acc,
             (forall user_id user_slots s,
                 In (user_id, user_slots) declared -> In s user_slots ->
                 (preference_level s <= 3)%Z) ->
             Forall (fun kv : string * Q => 0 <= snd kv <= 1)
               (preference_weights acc) ->
             Forall (fun kv : string * Q => 0 <= snd kv <= 1)
               (preference_weights
                  (fold_left (analyze_step candidate) declared acc))).
  { induction declared as [|[user_id user_slots] rest IH];
      intros acc Hlev Hacc; cbn [fold_left]; [exact Hacc |].
    apply IH.
    - intros u us s Hin. apply (Hlev u us s). now right.
    - unfold analyze_step.
      destruct (is_available _); cbn [preference_weights]; [| exact Hacc].
      apply (dict_set_values (fun x : Q => 0 <= x <= 1)); [exact Hacc |].
      pose proof (scan_user_max_bound candidate user_id user_slots
                    (fun s Hs => Hlev user_id user_slots s
                                   (or_introl eq_refl) Hs)) as [Hlo Hhi].
      rewrite Zle_Qle in Hlo, Hhi.
      change (inject_Z 0) with 0 in Hlo. change (inject_Z 3) with 3 in Hhi.
      split.
      + apply Qle_shift_div_l; lra.
      + apply Qle_shift_div_r; lra. }
  intro Hlev. apply G; [exact Hlev | constructor].
Qed.

End BoundsMore.

(** X19.  The scores are normalised.  For a candidate analysed against
    participants whose declared slots carry a preference level of at most
    3 (the validator of [TimeSlot] admits 1, 2 and 3), the preference
    score, the conflict score, the attendance rate and the event-type
    fitness of the option all lie between 0 and 1, and so does its total
    score. *)
Theorem scores_stay_in_unit_interval
    (t : Sched.EventType) (id : string) (candidate : Sched.TimeSlot)
    (declared : Py.Dict (list Sched.TimeSlot)) :
  (forall user_id user_slots s,
      In (user_id, user_slots) declared -> In s user_slots ->
      (Sched.preference_level s <= 3)%Z) ->
  let analysis := Sched.analyze_single_time_slot candidate declared in
  let o := Sched.create_schedule_option t id analysis in
  (0 <= Sched.preference_score o <= 1)%Q /\
  (0 <= Sched.conflict_score o <= 1)%Q /\
  (0 <= Sched.get_availability_score analysis <= 1)%Q /\
  (0 <= Sched.calculate_event_type_fitness t (Sched.time_slot analysis) <= 1)%Q
  /\ (0 <= Sched.total_score o <= 1)%Q.
Proof.
  intro Hlev. cbv zeta.
  pose proof (preference_score_unit _
                (analysis_weights_unit candidate declared Hlev)) as Hp.
  pose proof (conflict_score_unit
                (Sched.analyze_single_time_slot candidate declared)) as Hc.
  pose proof (availability_score_unit
                (Sched.analyze_single_time_slot candidate declared)) as Ha.
  pose proof (event_type_fitness_unit t
                (Sched.time_slot
                   (Sched.analyze_single_time_slot candidate declared)))
    as Hf.
  cbn [Sched.create_schedule_option Sched.preference_score
       Sched.conflict_score Sched.total_score].
  split; [exact Hp |]. split; [exact Hc |]. split; [exact Ha |].
  split; [exact Hf |].
  set (p := Sched.calculate_preference_score _) in *.
  set (c := Sched.calculate_conflict_score _) in *.
  set (r := Sched.get_availability_score _) in *.
  set (f := Sched.calculate_event_type_fitness _ _) in *.
  split; lra.
Qed.

(** One participant who declared the Tuesday evening with level 1, and
    the same evening as the candidate. *)
Lemma scores_stay_in_unit_interval_witness :
  (Sched.total_score
     (Sched.create_schedule_option Sched.DINING "o-1"
        (Sched.analyze_single_time_slot Ex.tuesday_evening
           [("U1", [Ex.tuesday_evening])])) <= 1)%Q.
Proof.
  destruct (@scores_stay_in_unit_interval Sched.DINING "o-1"
              Ex.tuesday_evening [("U1", [Ex.tuesday_evening])])
    as (_ & _ & _ & _ & _ & H).
  - intros user_id user_slots s [Hin | []] Hs.
    inversion Hin; subst. destruct Hs as [<- | []]. cbn. lia.
  - exact H.
Defined.

Section RankingMore.

Variable A : Type.
Variable key : A -> Q.

Lemma insert_desc_perm (x : A) (l : list A) :
  Permutation (Py.insert_desc key x l) (x :: l).
Proof.
  induction l as [|y l IH]; cbn [Py.insert_desc]; [reflexivity |].
  destruct (Qle_bool (key y) (key x)); [reflexivity |].
  rewrite IH. apply perm_swap.
Qed.

Lemma sort_desc_perm (l : list A) : Permutation (Py.sort_desc key l) l.
Proof.
  unfold Py.sort_desc. induction l as [|x l IH]; cbn [fold_right].
  - reflexivity.
  - rewrite insert_desc_perm. now constructor.
Qed.

(** An element is put in front of the elements of its own key. *)
Lemma insert_desc_stable (v : Q) (x : A) (l : list A) :
  filter (fun y => Qeq_bool (key y) v) (Py.insert_desc key x l)
  = filter (fun y => Qeq_bool (key y) v) (x :: l).
Proof.
  induction l as [|y l IH]; cbn [Py.insert_desc]; [reflexivity |].
  destruct (Qle_bool (key y) (key x)) eqn:E; [reflexivity |].
  cbn [filter] in *. rewrite IH.
  destruct (Qeq_bool (key y) v) eqn:Ey; [| reflexivity].
  destruct (Qeq_bool (key x) v) eqn:Ex; [| reflexivity].
  apply Qeq_bool_iff in Ex, Ey.
  assert (H : (key y <= key x)%Q) by (rewrite Ex, Ey; apply Qle_refl).
  apply Qle_bool_iff in H. congruence.
Qed.

Lemma sort_desc_stable (v : Q) (l : list A) :
  filter (fun y => Qeq_bool (key y) v) (Py.sort_desc key l)
  = filter (fun y => Qeq_bool (key y) v) l.
Proof.
  unfold Py.sort_desc. induction l as [|x l IH]; cbn [fold_right].
  - reflexivity.
  - rewrite insert_desc_stable. cbn [filter]. now rewrite IH.
Qed.

Lemma sorted_head_is_best (x : A) (l : list A) (y : A) :
  StronglySorted (Py.desc key) (x :: l) -> In y (x :: l) ->
  (key y <= key x)%Q.
Proof.
  intros HS [<- | Hin]; [apply Qle_refl |].
  apply StronglySorted_inv in HS. destruct HS as [_ Hx].
  rewrite Forall_forall in Hx. exact (Hx y Hin).
Qed.

End RankingMore.

(** X20.  The ranking of [_optimize_schedule].  The options are the
    candidates with at least two available participants, sorted by
    descending total score and cut to five.  The sort loses and adds
    nothing and is stable: options of equal total score keep the order in
    which the candidates were generated, the earlier date first.  The
    first option returned has the greatest total score of all the options
    built, and no option is returned exactly when none was built. *)
Theorem ranking_is_stable_and_best_first
    (e : Env) (ids : nat -> string) (a : Sched.SchedulingAgent) :
  let options :=
    Sched.collect_options (Sched.current_event_type a) ids 0
      (Sched.analyze_time_slots e a) in
  let sorted := Py.sort_desc Sched.total_score options in
  let out := fst (Sched.optimize_schedule e ids a) in
  out = firstn 5 sorted /\
  Permutation sorted options /\
  (forall v,
      filter (fun o => Qeq_bool (Sched.total_score o) v) sorted
      = filter (fun o => Qeq_bool (Sched.total_score o) v) options) /\
  (forall best o,
      nth_error out 0 = Some best -> In o options ->
      (Sched.total_score o <= Sched.total_score best)%Q) /\
  (out = [] <-> options = []).
Proof.
  cbv zeta. unfold Sched.optimize_schedule. cbn [fst].
  set (options := Sched.collect_options _ _ _ _).
  pose proof (sort_desc_perm Sched.total_score options) as Hperm.
  pose proof (@sort_desc_sorted _ Sched.total_score options) as Hsorted.
  split; [reflexivity |]. split; [exact Hperm |].
  split; [intro v; apply sort_desc_stable |]. split.
  - intros best o Hbest Ho.
    destruct (Py.sort_desc Sched.total_score options) as [|x l] eqn:E;
      [discriminate Hbest |].
    cbn in Hbest. inversion Hbest; subst best.
    apply (sorted_head_is_best Hsorted).
    apply (Permutation_in o (Permutation_sym Hperm) Ho).
  - split; intro H.
    + destruct (Py.sort_desc Sched.total_score options) as [|x l];
        [| discriminate H].
      now apply Permutation_nil in Hperm.
    + rewrite H. reflexivity.
Qed.

Section OverlapMore.

Import Sched.
Local Open Scope Q_scope.

Lemma dict_entry_unique {V : Type} (d : Py.Dict V) (k : string) (v v' : V) :
  NoDup (Py.dict_keys d) -> In (k, v) d -> In (k, v') d -> v = v'.
Proof.
  unfold Py.dict_keys.
  induction d as [|[k0 v0] d IH]; cbn [map]; intros Hnd H1 H2.
  - destruct H1.
  - inversion Hnd as [|? ? Hnot Hnd']; subst.
    destruct H1 as [H1 | H1], H2 as [H2 | H2].
    + congruence.
    + inversion H1; subst. exfalso. apply Hnot.
      apply (in_map fst) in H2. exact H2.
    + inversion H2; subst. exfalso. apply Hnot.
      apply (in_map fst) in H1. exact H1.
    + now apply IH.
Qed.

Lemma list_sum_ge (l : list nat) (x : nat) :
  In x l -> (x <= list_sum l)%nat.
Proof.
  induction l as [|y l IH]; intro H; [destruct H |].
  unfold list_sum in *. cbn [fold_right].
  destruct H as [<- | H]; [lia |].
  specialize (IH H). lia.
Qed.

Lemma positive_overlap (candidate s : TimeSlot) :
  (start_time candidate < end_time s)%Z ->
  (start_time s < end_time candidate)%Z ->
  slots_overlap candidate s = true.
Proof.
  intros H1 H2. unfold slots_overlap.
  apply negb_true_iff. apply orb_false_iff.
  split; apply Z.leb_gt; assumption.
Qed.

End OverlapMore.

(** X21.  A participant is available for a candidate as soon as one
    declared slot shares some time with it; the slot need not cover the
    candidate.  Such a participant is listed as available and not as
    unavailable.  When that slot does not contain the whole candidate, a
    conflict detail is recorded and the conflict score of the candidate is
    positive: the participant is counted as attending a slot they
    declared only in part. *)
Theorem partial_overlap_counts_as_available
    (candidate : Sched.TimeSlot) (declared : Py.Dict (list Sched.TimeSlot))
    (user_id : string) (user_slots : list Sched.TimeSlot)
    (s : Sched.TimeSlot) :
  NoDup (Py.dict_keys declared) ->
  In (user_id, user_slots) declared -> In s user_slots ->
  (Sched.start_time candidate < Sched.end_time s)%Z ->
  (Sched.start_time s < Sched.end_time candidate)%Z ->
  let r := Sched.analyze_single_time_slot candidate declared in
  In user_id (Sched.participants_available r) /\
  ~ In user_id (Sched.participants_unavailable r) /\
  (Sched.slot_fully_contains s candidate = false ->
   Sched.conflict_details r <> [] /\
   (0 < Sched.calculate_conflict_score r)%Q).
Proof.
  intros Hnd Hentry Hs H1 H2. cbv zeta.
  pose proof (positive_overlap candidate s H1 H2) as Hov.
  destruct (analyze_single_time_slot_spec candidate declared Hnd)
    as (_ & Hav & Hun & _ & Hcount).
  assert (Havail : SchedSpec.available candidate (user_id, user_slots) = true).
  { unfold SchedSpec.available. cbn [snd]. apply existsb_exists.
    exists s. split; assumption. }
  split; [| split].
  - rewrite Hav. apply (in_map fst _ (user_id, user_slots)).
    apply filter_In. split; assumption.
  - rewrite Hun. intro Hin. apply in_map_iff in Hin.
    destruct Hin as ([k slots'] & Hk & Hin). cbn [fst] in Hk. subst k.
    apply filter_In in Hin. destruct Hin as [Hin Hneg].
    rewrite (@dict_entry_unique _ declared user_id slots' user_slots Hnd Hin
               Hentry) in Hneg.
    rewrite Havail in Hneg. discriminate.
  - intro Hpart.
    assert (Hpos : (1 <= List.length
                          (Sched.conflict_details
                             (Sched.analyze_single_time_slot candidate
                                declared)))%nat).
    { rewrite Hcount. unfold SchedSpec.conflict_detail_count.
      eapply Nat.le_trans;
        [| apply list_sum_ge;
           apply (in_map
                    (fun entry : string * list Sched.TimeSlot =>
                       List.length
                         (filter (SchedSpec.partial_overlap candidate)
                            (snd entry)))
                    _ _ Hentry)].
      cbn [snd].
      assert (Hf : In s (filter (SchedSpec.partial_overlap candidate)
                           user_slots)).
      { apply filter_In. split; [exact Hs |].
        unfold SchedSpec.partial_overlap. rewrite Hov, Hpart. reflexivity. }
      destruct (filter _ user_slots); [destruct Hf | cbn; lia]. }
    split.
    + intro Hnil. rewrite Hnil in Hpos. cbn in Hpos. lia.
    + unfold Sched.calculate_conflict_score.
      destruct (Sched.conflict_details _) as [|d ds] eqn:Ed;
        [cbn in Hpos; lia |].
      destruct (Nat.eqb _ 0) eqn:Et; [reflexivity |].
      apply Nat.eqb_neq in Et.
      unfold Sched.py_min.
      destruct (Qle_bool _ 1); [| reflexivity].
      apply Qlt_shift_div_l.
      * change 0%Q with (inject_Z 0). rewrite <- Zlt_Qlt. lia.
      * rewrite Qmult_0_l. change 0%Q with (inject_Z 0).
        rewrite <- Zlt_Qlt. cbn [List.length]. lia.
Qed.

(** The candidate 18:00 to 20:00 and a participant free from 19:00 to
    21:00 only. *)
Lemma partial_overlap_counts_as_available_witness :
  In "U1"
    (Sched.participants_available
       (Sched.analyze_single_time_slot Ex.tuesday_evening
          [("U1", [Ex2.late_evening])])) /\
  (0 < Sched.calculate_conflict_score
         (Sched.analyze_single_time_slot Ex.tuesday_evening
            [("U1", [Ex2.late_evening])]))%Q.
Proof.
  destruct (@partial_overlap_counts_as_available Ex.tuesday_evening
              [("U1", [Ex2.late_evening])] "U1" [Ex2.late_evening]
              Ex2.late_evening)
    as (H1 & _ & H2).
  - constructor; [intros [] | constructor].
  - left; reflexivity.
  - left; reflexivity.
  - cbn. lia.
  - cbn. lia.
  - split; [exact H1 |]. apply H2. reflexivity.
Defined.

(** ** The venue agent: the breaker over several rounds *)

Section BreakerMore.

Import Venue.
Context {U : Py.Unicode}.

(** With a key configured, the first source is judged by its recent
    failures alone. *)
Lemma should_use_google_places e a :
  Py.truthy_opt_str (google_places_api_key a) = true ->
  should_use_api e a "google_places"
  = negb (Nat.leb 3
            (List.length
               (filter (recent_failure e "google_places") (api_failures a)))).
Proof.
  intro Hkey. unfold should_use_api. cbv zeta.
  destruct (Nat.leb 3 _); [reflexivity |].
  rewrite Hkey. reflexivity.
Qed.

(** The recent failures of a source are those of its failures that are
    less than 300 seconds old. *)
Lemma recent_by_source e api (l : list APIFailureRecord) :
  filter (recent_failure e api) l
  = filter (fun f => (now e - failure_time f <? failure_window)%Z)
      (filter (fun f => String.eqb (api_name f) api) l).
Proof.
  induction l as [|f l IH]; cbn [filter]; [reflexivity |].
  unfold recent_failure at 1.
  destruct (String.eqb (api_name f) api); cbn [andb filter];
    now rewrite IH.
Qed.

(** Fewer than three recorded failures never trip the breaker. *)
Lemma eligible_below_three e a :
  Py.truthy_opt_str (google_places_api_key a) = true ->
  (List.length
     (filter (fun f => String.eqb (api_name f) "google_places")
        (api_failures a)) < 3)%nat ->
  should_use_api e a "google_places" = true.
Proof.
  intros Hkey Hlen. rewrite should_use_google_places by exact Hkey.
  rewrite recent_by_source. apply negb_true_iff. apply Nat.leb_gt.
  eapply Nat.le_lt_trans; [apply filter_length_le | exact Hlen].
Qed.

End BreakerMore.

(** X22.  The breaker over four rounds.  An agent with a key for the first
    source and no recorded failure runs that source in each of three
    rounds in which its provider raises: after them the failures recorded
    against it are those three, each with the clock and the text of its
    round.  When the three are all less than 300 seconds old in the fourth
    round, that round does not run the source: it is the same whatever the
    provider would answer, returns no result of the source and records no
    failure against it.  As soon as one of the three is 300 seconds old or
    more, the fourth round runs the source again: its results are the
    venues the provider converted, and a new exception is recorded. *)
Theorem three_failed_rounds_trip_the_breaker {U : Py.Unicode}
    (e1 e2 e3 e4 : Env) (ids1 ids2 ids3 ids4 : nat -> string)
    (s1 s2 s3 s4 : Venue.Sources) (m1 m2 m3 : string)
    (a : Venue.VenueAgent) :
  Py.truthy_opt_str (Venue.google_places_api_key a) = true ->
  Venue.api_failures a = [] ->
  Venue.raised (Venue.run_google_places s1 (Venue.search_criteria a))
    = Some m1 ->
  Venue.raised (Venue.run_google_places s2 (Venue.search_criteria a))
    = Some m2 ->
  Venue.raised (Venue.run_google_places s3 (Venue.search_criteria a))
    = Some m3 ->
  let a1 := Venue.agent_after (Venue.search_venues e1 ids1 s1 a) in
  let a2 := Venue.agent_after (Venue.search_venues e2 ids2 s2 a1) in
  let a3 := Venue.agent_after (Venue.search_venues e3 ids3 s3 a2) in
  let round4 := Venue.search_venues e4 ids4 s4 a3 in
  let recorded :=
    [Venue.mkFailure "google_places" (now e1) "type" m1 0;
     Venue.mkFailure "google_places" (now e2) "type" m2 0;
     Venue.mkFailure "google_places" (now e3) "type" m3 0] in
  filter (fun f => String.eqb (Venue.api_name f) "google_places")
    (Venue.api_failures a3) = recorded /\
  ((now e4 - now e1 < Venue.failure_window /\
    now e4 - now e2 < Venue.failure_window /\
    now e4 - now e3 < Venue.failure_window) ->
   (forall provider,
       Venue.search_venues e4 ids4
         (Venue.mkSources provider (Venue.run_gurume s4)) a3 = round4) /\
   filter (fun x => String.eqb (Venue.source_api x) "google_places")
     (Venue.returned round4) = [] /\
   filter (fun f => String.eqb (Venue.api_name f) "google_places")
     (Venue.api_failures (Venue.agent_after round4)) = recorded) /\
  ((Venue.failure_window <= now e4 - now e1 \/
    Venue.failure_window <= now e4 - now e2 \/
    Venue.failure_window <= now e4 - now e3) ->
   filter (fun x => String.eqb (Venue.source_api x) "google_places")
     (Venue.returned round4)
   = map (Venue.source_result a3 "google_places")
       (Venue.converted
          (Venue.run_google_places s4 (Venue.search_criteria a))) /\
   filter (fun f => String.eqb (Venue.api_name f) "google_places")
     (Venue.api_failures (Venue.agent_after round4))
   = recorded
     ++ match
          Venue.raised (Venue.run_google_places s4 (Venue.search_criteria a))
        with
        | Some m => [Venue.mkFailure "google_places" (now e4) "type" m 0]
        | None => []
        end).
Proof.
  intros Hkey Hnone H1 H2 H3. cbv zeta.
  destruct (search_venues_after e1 ids1 s1 a)
    as (_ & _ & _ & K1 & _ & _ & C1 & _).
  destruct (search_venues_by_source e1 ids1 s1 a) as (_ & _ & F1 & _).
  cbv zeta in K1, C1, F1.
  set (a1 := Venue.agent_after (Venue.search_venues e1 ids1 s1 a)) in *.
  destruct (search_venues_after e2 ids2 s2 a1)
    as (_ & _ & _ & K2 & _ & _ & C2 & _).
  destruct (search_venues_by_source e2 ids2 s2 a1) as (_ & _ & F2 & _).
  cbv zeta in K2, C2, F2.
  set (a2 := Venue.agent_after (Venue.search_venues e2 ids2 s2 a1)) in *.
  destruct (search_venues_after e3 ids3 s3 a2)
    as (_ & _ & _ & K3 & _ & _ & C3 & _).
  destruct (search_venues_by_source e3 ids3 s3 a2) as (_ & _ & F3 & _).
  cbv zeta in K3, C3, F3.
  set (a3 := Venue.agent_after (Venue.search_venues e3 ids3 s3 a2)) in *.
  destruct (search_venues_by_source e4 ids4 s4 a3) as (R4 & _ & F4 & _).
  cbv zeta in R4, F4.
  rewrite K1 in K2. rewrite K2 in K3. rewrite C1 in C2. rewrite C2 in C3.
  rewrite C1 in F2. rewrite C2 in F3. rewrite C3 in R4, F4.
  assert (E1 : Venue.should_use_api e1 a "google_places" = true).
  { apply eligible_below_three; [exact Hkey |]. rewrite Hnone. cbn. lia. }
  rewrite E1, H1, Hnone in F1. cbn [filter app] in F1.
  assert (E2 : Venue.should_use_api e2 a1 "google_places" = true).
  { apply eligible_below_three; [rewrite K1; exact Hkey |].
    rewrite F1. cbn. lia. }
  rewrite E2, H2, F1 in F2. cbn [app] in F2.
  assert (E3 : Venue.should_use_api e3 a2 "google_places" = true).
  { apply eligible_below_three; [rewrite K2; exact Hkey |].
    rewrite F2. cbn. lia. }
  rewrite E3, H3, F2 in F3. cbn [app] in F3.
  rewrite F3 in F4.
  assert (U4 : Venue.should_use_api e4 a3 "google_places"
               = negb ((now e4 - now e1 <? Venue.failure_window)
                       && (now e4 - now e2 <? Venue.failure_window)
                       && (now e4 - now e3 <? Venue.failure_window))%bool).
  { rewrite should_use_google_places by (rewrite K3; exact Hkey).
    rewrite recent_by_source, F3.
    cbn [filter Venue.failure_time].
    destruct (now e4 - now e1 <? Venue.failure_window);
      destruct (now e4 - now e2 <? Venue.failure_window);
      destruct (now e4 - now e3 <? Venue.failure_window); reflexivity. }
  split; [exact F3 |]. split.
  - intros (T1 & T2 & T3).
    apply Z.ltb_lt in T1, T2, T3. rewrite T1, T2, T3 in U4.
    cbn [andb negb] in U4. rewrite U4 in R4, F4.
    rewrite app_nil_r in F4.
    split; [| split; assumption].
    intro provider. unfold Venue.search_venues. rewrite U4. reflexivity.
  - intro Hold.
    assert (Hon : Venue.should_use_api e4 a3 "google_places" = true).
    { rewrite U4. apply negb_true_iff.
      destruct Hold as [T | [T | T]]; apply Z.ltb_ge in T; rewrite T;
        rewrite ?andb_false_r; reflexivity. }
    rewrite Hon in R4, F4. split; assumption.
Qed.

(** Three rounds a minute apart in which both providers are down; a
    minute later the first source is not run: the round with the
    providers up is the round with the first provider down. *)
Lemma three_failed_rounds_trip_the_breaker_witness :
  Venue.search_venues (U := Ex.unicode0) Ex2.env3 Ex.ids0
    (Venue.mkSources (Venue.run_google_places Ex.sources_down)
       (Venue.run_gurume Ex.sources_up))
    Ex2.venue_agent_thrice_failed
  = Venue.search_venues (U := Ex.unicode0) Ex2.env3 Ex.ids0 Ex.sources_up
      Ex2.venue_agent_thrice_failed /\
  map Venue.failure_time
    (filter (fun f => String.eqb (Venue.api_name f) "google_places")
       (Venue.api_failures Ex2.venue_agent_thrice_failed))
  = [1700000000000000; 1700000060000000; 1700000120000000].
Proof.
  destruct (@three_failed_rounds_trip_the_breaker Ex.unicode0 Ex.env0
              Ex2.env1 Ex2.env2 Ex2.env3 Ex.ids0 Ex.ids0 Ex.ids0 Ex.ids0
              Ex.sources_down Ex.sources_down Ex.sources_down Ex.sources_up
              "connection refused" "connection refused"
              "connection refused" Ex2.venue_agent_keyed
              eq_refl eq_refl eq_refl eq_refl eq_refl)
    as (Hrec & Htrip & _).
  split.
  - destruct Htrip as (Hsame & _).
    + unfold Venue.failure_window.
      cbn [now Ex.env0 Ex2.env1 Ex2.env2 Ex2.env3]. repeat split; lia.
    + exact (Hsame (Venue.run_google_places Ex.sources_down)).
  - unfold Ex2.venue_agent_thrice_failed. rewrite Hrec. reflexivity.
Defined.

(** ** The venue agent: evaluation and selection *)

Section EvaluationMore.

Import Venue.
Local Open Scope Q_scope.

Variable time_suitable : Venue -> bool.
Variable c : VenueSearchCriteria.

(** The penalties of a result depend on its venue and its estimated cost
    only, and the evaluation changes neither: the same factor and the same
    notes apply to every result that shares them. *)
Lemma evaluate_result_factor (r : VenueSearchResult) :
  exists (f : Q) (extra : list string),
    (504 # 1000) <= f /\ f <= 1 /\
    (extra <> [] -> f <= (9 # 10)) /\
    forall r0,
      venue r0 = venue r ->
      estimated_total_cost r0 = estimated_total_cost r ->
      let r1 := VenueView.evaluate_result time_suitable c r0 in
      suitability_score r1 == suitability_score r0 * f /\
      notes r1 = notes r0 ++ extra /\
      venue r1 = venue r0 /\
      source_api r1 = source_api r0 /\
      estimated_total_cost r1 = estimated_total_cost r0.
Proof.
  set (b1 := negb (time_suitable (venue r))).
  set (b2 := (truthy_int (estimated_total_cost r)
              && truthy_int (budget_per_person c)
              && (value_or_zero (budget_per_person c) * participant_count c
                  <? value_or_zero (estimated_total_cost r))%Z)%bool).
  set (b3 := (accessibility_required c
              && negb (wheelchair_accessible (venue r)))%bool).
  exists ((if b1 then 8 # 10 else 1) * (if b2 then 9 # 10 else 1)
          * (if b3 then 7 # 10 else 1)).
  exists ((if b1 then ["営業時間が合わない可能性"] else [])
          ++ (if b2 then ["予算超過の可能性"] else [])
          ++ (if b3 then ["バリアフリー対応未確認"] else []))%list.
  split; [destruct b1, b2, b3; unfold Qle; cbn; lia |].
  split; [destruct b1, b2, b3; unfold Qle; cbn; lia |].
  split.
  { destruct b1, b2, b3; intro Hne; try (unfold Qle; cbn; lia).
    exfalso. apply Hne. reflexivity. }
  intros r0 Hv Hc. cbv zeta. unfold VenueView.evaluate_result.
  assert (E1 : negb (time_suitable (venue r0)) = b1)
    by (rewrite Hv; reflexivity).
  rewrite E1.
  assert (E2 : forall x,
             venue x = venue r0 ->
             estimated_total_cost x = estimated_total_cost r0 ->
             (truthy_int (estimated_total_cost x)
              && truthy_int (budget_per_person c)
              && (value_or_zero (budget_per_person c) * participant_count c
                  <? value_or_zero (estimated_total_cost x))%Z)%bool = b2)
    by (intros x _ Hx; rewrite Hx, Hc; reflexivity).
  assert (E3 : forall x,
             venue x = venue r0 ->
             (accessibility_required c
              && negb (wheelchair_accessible (venue x)))%bool = b3)
    by (intros x Hx; rewrite Hx, Hv; reflexivity).
  destruct b1; cbv zeta;
    rewrite E2 by reflexivity; destruct b2;
    rewrite E3 by reflexivity; destruct b3;
    cbn [VenueView.penalise suitability_score notes venue source_api
         estimated_total_cost app];
    rewrite <- ?app_assoc; cbn [app]; rewrite ?app_nil_r;
    (split; [ring |]); repeat split; reflexivity.
Qed.

End EvaluationMore.

(** X23.  The evaluation of the search results.  After
    [_evaluate_search_results] the stored results are sorted by descending
    score and are the same venues as before, each with the source it came
    from.  A score is only ever lowered: every result carries its former
    score times a factor between 0.504 (the three penalties together) and
    1.  This holds whatever the time check answers. *)
Theorem evaluation_sorts_and_only_lowers
    (time_suitable : Venue.Venue -> bool) (a : Venue.VenueAgent) :
  let before := Venue.search_results a in
  let after :=
    Venue.search_results
      (VenueView.evaluate_search_results time_suitable a) in
  StronglySorted (Py.desc Venue.suitability_score) after /\
  Permutation (map (fun r => (Venue.venue r, Venue.source_api r)) after)
    (map (fun r => (Venue.venue r, Venue.source_api r)) before) /\
  (forall r',
      In r' after ->
      exists r f,
        In r before /\
        Venue.venue r' = Venue.venue r /\
        (Venue.suitability_score r' == Venue.suitability_score r * f)%Q /\
        ((504 # 1000) <= f)%Q /\ (f <= 1)%Q).
Proof.
  cbv zeta. unfold VenueView.evaluate_search_results.
  cbn [Venue.search_results Venue.set_search_results].
  set (c := Venue.search_criteria a).
  set (l := Venue.search_results a).
  pose proof (sort_desc_perm Venue.suitability_score
                (map (VenueView.evaluate_result time_suitable c) l))
    as Hperm.
  split; [apply sort_desc_sorted |]. split.
  - rewrite (Permutation_map _ Hperm). rewrite map_map.
    erewrite map_ext; [reflexivity |].
    intro r. cbv beta.
    destruct (evaluate_result_factor time_suitable c r)
      as (f & extra & _ & _ & _ & H).
    destruct (H r eq_refl eq_refl) as (_ & _ & Hv & Hs & _).
    cbv zeta in Hv, Hs. now rewrite Hv, Hs.
  - intros r' Hin.
    apply (Permutation_in _ Hperm) in Hin.
    apply in_map_iff in Hin. destruct Hin as (r & <- & Hr).
    destruct (evaluate_result_factor time_suitable c r)
      as (f & extra & Hlo & Hhi & _ & H).
    destruct (H r eq_refl eq_refl) as (Hscore & _ & Hv & _).
    exists r, f. repeat split; assumption.
Qed.

(** X24.  The evaluation is not idempotent.  The penalties are applied to
    the stored results in place, so evaluating a second time applies them
    again: every result then carries its original score times the square
    of its factor, and each of its notes twice.  A result that drew a note
    the first time has a factor of at most 0.9. *)
Theorem evaluation_compounds_when_repeated
    (time_suitable : Venue.Venue -> bool) (a : Venue.VenueAgent) :
  let once := VenueView.evaluate_search_results time_suitable a in
  let twice := VenueView.evaluate_search_results time_suitable once in
  forall r',
    In r' (Venue.search_results twice) ->
    exists r f extra,
      In r (Venue.search_results a) /\
      Venue.venue r' = Venue.venue r /\
      (Venue.suitability_score r'
       == Venue.suitability_score r * f * f)%Q /\
      Venue.notes r' = Venue.notes r ++ extra ++ extra /\
      (extra <> [] -> (f <= (9 # 10))%Q).
Proof.
  cbv zeta. unfold VenueView.evaluate_search_results.
  cbn [Venue.search_results Venue.set_search_results Venue.search_criteria].
  set (c := Venue.search_criteria a).
  set (l := Venue.search_results a).
  intros r' Hin.
  apply (Permutation_in _ (sort_desc_perm _ _)) in Hin.
  apply in_map_iff in Hin. destruct Hin as (r1 & <- & Hr1).
  apply (Permutation_in _ (sort_desc_perm _ _)) in Hr1.
  apply in_map_iff in Hr1. destruct Hr1 as (r & <- & Hr).
  destruct (evaluate_result_factor time_suitable c r)
    as (f & extra & _ & _ & Hnote & H).
  destruct (H r eq_refl eq_refl) as (S1 & N1 & V1 & _ & C1).
  cbv zeta in S1, N1, V1, C1.
  destruct (H (VenueView.evaluate_result time_suitable c r) V1 C1)
    as (S2 & N2 & V2 & _).
  cbv zeta in S2, N2, V2.
  exists r, f, extra. split; [exact Hr |].
  split; [congruence |]. split; [now rewrite S2, S1 |].
  split; [rewrite N2, N1; now rewrite <- app_assoc | exact Hnote].
Qed.

(** The restaurant lacks step-free access: evaluated twice, its result has
    the note twice and its score is penalised twice. *)
Lemma evaluation_compounds_when_repeated_witness :
  exists r' r f extra,
    In r'
      (Venue.search_results
         (VenueView.evaluate_search_results (fun _ => true)
            (VenueView.evaluate_search_results (fun _ => true)
               Ex2.venue_agent_found))) /\
    In r (Venue.search_results Ex2.venue_agent_found) /\
    (Venue.suitability_score r' == Venue.suitability_score r * f * f)%Q /\
    Venue.notes r' = Venue.notes r ++ extra ++ extra.
Proof.
  assert (Hin : In (VenueView.evaluate_result (fun _ => true)
                      Ex2.criteria_accessible
                      (VenueView.evaluate_result (fun _ => true)
                         Ex2.criteria_accessible
                         (Venue.source_result (U := Ex.unicode0)
                            Ex2.venue_agent_found "google_places"
                            Ex.a_restaurant)))
                  (Venue.search_results
                     (VenueView.evaluate_search_results (fun _ => true)
                        (VenueView.evaluate_search_results (fun _ => true)
                           Ex2.venue_agent_found)))).
  { vm_compute. left. reflexivity. }
  destruct (@evaluation_compounds_when_repeated (fun _ => true)
              Ex2.venue_agent_found _ Hin)
    as (r & f & extra & H1 & _ & H2 & H3 & _).
  eexists. exists r, f, extra.
  split; [exact Hin |]. split; [exact H1 |]. split; [exact H2 | exact H3].
Defined.

Section SelectionMore.

Import Venue.
Local Open Scope Q_scope.
Context {U : Py.Unicode}.

(** The results of one source carry its name. *)
Lemma source_step_results e api run a (use : bool) :
  Forall (fun x => source_api x = api)
    (fst (if use then search_source e api run a else ([], a))).
Proof.
  destruct use; cbn [fst]; [| constructor].
  unfold search_source.
  assert (H : Forall (fun x => source_api x = api)
                (map (source_result a api) (converted run))).
  { apply Forall_forall. intros x Hx. apply in_map_iff in Hx.
    destruct Hx as (v & <- & _). reflexivity. }
  destruct (raised run); exact H.
Qed.

(** A round always stores at least one result; its results are all
    fallback candidates or all from the sources. *)
Lemma search_venues_results e ids s a :
  let r := search_venues e ids s a in
  search_results (agent_after r) = returned r /\
  returned r <> [] /\
  Forall (fun x => String.eqb (source_api x) "manual_fallback"
                   = used_fallback r) (returned r).
Proof.
  cbv zeta. unfold search_venues.
  pose proof (source_step_results e "google_places"
                (run_google_places s (search_criteria a)) a
                (should_use_api e a "google_places")) as P1.
  remember (if should_use_api e a "google_places"
            then search_source e "google_places"
                   (run_google_places s (search_criteria a)) a
            else ([], a)) as r1 eqn:E1.
  destruct r1 as [places_results a1]. clear E1. cbn [fst] in P1.
  pose proof (source_step_results e "gurume"
                (run_gurume s (search_criteria a1)) a1
                (should_use_api e a "gurume")) as P2.
  remember (if should_use_api e a "gurume"
            then search_source e "gurume"
                   (run_gurume s (search_criteria a1)) a1
            else ([], a1)) as r2 eqn:E2.
  destruct r2 as [gurume_results a2]. clear E2. cbn [fst] in P2.
  assert (P : Forall (fun x => String.eqb (source_api x) "manual_fallback"
                               = false)
                (places_results ++ gurume_results)).
  { apply Forall_app. split; eapply Forall_impl; try eassumption;
      cbv beta; intros x ->; reflexivity. }
  destruct (places_results ++ gurume_results) as [|x l];
    cbn [agent_after returned used_fallback set_search_results
         search_results].
  - split; [reflexivity |]. split; [discriminate |].
    unfold fallback_search, fallback_venues.
    cbn [fallback_loop]. repeat constructor.
  - split; [reflexivity |]. split; [discriminate | exact P].
Qed.

End SelectionMore.

(** X25.  Search, evaluation and selection together.  Whatever the
    sources answer and whatever the evaluation penalises, a round followed
    by the evaluation and by [_select_best_venue] always selects a venue:
    the venue of the result with the highest evaluated score.  Its booking
    status is set to manual-required exactly when the round fell back to
    the built-in candidates, and to pending otherwise, also when it was
    something else before; and since the selected venue is the venue
    object of the first result, that result shows the new status too. *)
Theorem selection_follows_the_search {U : Py.Unicode}
    (e e' : Env) (ids : nat -> string) (s : Venue.Sources)
    (time_suitable : Venue.Venue -> bool) (a : Venue.VenueAgent) :
  let round := Venue.search_venues e ids s a in
  let evaluated :=
    VenueView.evaluate_search_results time_suitable
      (Venue.agent_after round) in
  let sel := VenueView.select_best_venue e' evaluated in
  exists best rest,
    Venue.search_results evaluated = best :: rest /\
    (forall r, In r rest ->
               (Venue.suitability_score r <= Venue.suitability_score best)%Q)
    /\
    let v :=
      VenueView.set_booking_status
        (if Venue.used_fallback round then Venue.MANUAL_REQUIRED
         else Venue.PENDING)
        (Venue.venue best) in
    fst sel = Some v /\
    Venue.selected_venue (snd sel) = Some v /\
    map Venue.venue (Venue.search_results (snd sel))
      = v :: map Venue.venue rest /\
    Base.messages_sent (Base.metrics (Venue.base (snd sel)))
      = (Base.messages_sent (Base.metrics (Venue.base evaluated)) + 1)%Z.
Proof.
  cbv zeta.
  destruct (search_venues_results e ids s a) as (Hstored & Hne & Hsrc).
  cbv zeta in Hstored, Hne, Hsrc.
  set (round := Venue.search_venues e ids s a) in *.
  set (c := Venue.search_criteria (Venue.agent_after round)).
  assert (Hres : Venue.search_results
                   (VenueView.evaluate_search_results time_suitable
                      (Venue.agent_after round))
                 = Py.sort_desc Venue.suitability_score
                     (map (VenueView.evaluate_result time_suitable c)
                        (Venue.returned round))).
  { unfold VenueView.evaluate_search_results.
    cbn [Venue.search_results Venue.set_search_results].
    rewrite Hstored. reflexivity. }
  pose proof (sort_desc_perm Venue.suitability_score
                (map (VenueView.evaluate_result time_suitable c)
                   (Venue.returned round))) as Hperm.
  pose proof (@sort_desc_sorted _ Venue.suitability_score
                (map (VenueView.evaluate_result time_suitable c)
                   (Venue.returned round))) as Hsorted.
  unfold VenueView.select_best_venue. rewrite Hres.
  destruct (Py.sort_desc Venue.suitability_score _) as [|best rest] eqn:E.
  - exfalso. apply Permutation_nil in Hperm.
    apply map_eq_nil in Hperm. contradiction.
  - exists best, rest. split; [reflexivity |]. split.
    + intros r Hr.
      apply (sorted_head_is_best Hsorted). now right.
    + assert (Hbest : String.eqb (Venue.source_api best) "manual_fallback"
                      = Venue.used_fallback round).
      { assert (Hin : In best (best :: rest)) by now left.
        apply (Permutation_in _ Hperm) in Hin.
        apply in_map_iff in Hin. destruct Hin as (r & <- & Hr).
        destruct (evaluate_result_factor time_suitable c r)
          as (f & extra & _ & _ & _ & H).
        destruct (H r eq_refl eq_refl) as (_ & _ & _ & Hs & _).
        cbv zeta in Hs. rewrite Hs.
        rewrite Forall_forall in Hsrc. exact (Hsrc r Hr). }
      cbv zeta. rewrite Hbest.
      cbn [fst snd Venue.selected_venue Venue.search_results Venue.base
           map VenueView.set_venue Venue.venue].
      repeat (split; [reflexivity |]).
      unfold VenueView.notify_venue_selection, Base.send_message.
      destruct (Base.message_bus _); reflexivity.
Qed.

Section SuitabilityMore.

Import Venue.
Local Open Scope Q_scope.

Lemma py_max0_bounds (x m : Q) :
  0 <= m -> x <= m -> 0 <= Sched.py_max 0 x <= m.
Proof.
  intros Hm Hx. unfold Sched.py_max.
  destruct (Qle_bool x 0) eqn:E; [split; [apply Qle_refl | exact Hm] |].
  split; [| exact Hx].
  apply Qlt_le_weak. apply Qnot_le_lt. intro H.
  apply Qle_bool_iff in H. congruence.
Qed.

(** The final clamp of [calculate_suitability_score]. *)
Lemma clamp_bounds (x m : Q) :
  0 <= m -> m <= 1 -> x <= m ->
  0 <= Sched.py_min 1 (Sched.py_max 0 x) <= m.
Proof.
  intros Hm Hm1 Hx.
  destruct (py_max0_bounds Hm Hx) as [Hlo Hhi].
  unfold Sched.py_min.
  destruct (Qle_bool 1 (Sched.py_max 0 x)) eqn:E; [| split; assumption].
  apply Qle_bool_iff in E. split; lra.
Qed.

End SuitabilityMore.

(** X26.  Capacity is scored, not enforced.  A venue that cannot hold the
    party (its capacity is below the number of participants, or the party
    is below its minimum) loses the 40 per cent of the capacity factor and
    nothing more: with a budget that is not negative and a rating of at
    most 5, its suitability score lies between 0 and 0.6. *)
Theorem unfit_capacity_only_caps_the_score {U : Py.Unicode}
    (v : Venue.Venue) (participant_count : Z) (budget : option Z)
    (required : list string) :
  (Venue.capacity v < participant_count
   \/ exists m, Venue.minimum_capacity v = Some m /\ m <> 0
                /\ participant_count < m)%Z ->
  (forall b, budget = Some b -> (0 <= b)%Z) ->
  (forall r, Venue.rating v = Some r -> (r <= 5)%Q) ->
  (0 <= Venue.calculate_suitability_score v participant_count budget required
   <= 6 # 10)%Q.
Proof.
  intros Hcap Hbudget Hrating.
  unfold Venue.calculate_suitability_score. cbv zeta.
  match goal with
  | |- (0 <= Sched.py_min 1
              (Sched.py_max 0
                 (0 + ?cs * _ + ?bs * _ + ?fs * _ + ?rs * _)) <= _)%Q =>
      assert (Hcs : cs = 0%Q);
      [| assert (Hbs : (0 <= bs <= 1)%Q);
         [| assert (Hfs : (0 <= fs <= 1)%Q);
            [| assert (Hrs : (rs <= 1)%Q);
               [| rewrite Hcs; set (b := bs) in *; set (f := fs) in *;
                  set (r := rs) in * ]]]]
  end.
  - destruct Hcap as [Hsmall | (m & Hm & Hm0 & Hlow)].
    + apply Z.ltb_lt in Hsmall. rewrite Hsmall.
      destruct (Venue.truthy_int _ && _)%bool; reflexivity.
    + rewrite Hm. cbn [Venue.truthy_int Venue.value_or_zero].
      apply Z.eqb_neq in Hm0. rewrite Hm0.
      apply Z.ltb_lt in Hlow. rewrite Hlow. reflexivity.
  - destruct (Venue.truthy_int budget
              && Venue.truthy_int (Venue.estimated_cost_per_person v))%bool
      eqn:Eb; [| split; lra].
    destruct (_ <=? _)%Z eqn:Ec; [split; lra |].
    apply andb_true_iff in Eb. destruct Eb as [Eb _].
    destruct budget as [bz|]; [| discriminate Eb].
    cbn [Venue.truthy_int Venue.value_or_zero] in *.
    apply negb_true_iff in Eb. apply Z.eqb_neq in Eb.
    pose proof (Hbudget bz eq_refl) as Hb0.
    apply Z.leb_gt in Ec.
    set (cost := Venue.value_or_zero (Venue.estimated_cost_per_person v))
      in *.
    assert (Hratio : (1 <= inject_Z cost / inject_Z bz)%Q).
    { apply Qle_shift_div_l.
      - change 0%Q with (inject_Z 0). rewrite <- Zlt_Qlt. lia.
      - rewrite Qmult_1_l. rewrite <- Zle_Qle. lia. }
    apply py_max0_bounds; lra.
  - destruct required as [|w ws]; [split; lra |].
    split; [apply ratio_nonneg |].
    apply ratio_le_1; [apply filter_length_le | cbn; lia].
  - destruct (Venue.truthy_float (Venue.rating v)); [| lra].
    destruct (Venue.rating v) as [q|] eqn:Er; [| lra].
    pose proof (Hrating q eq_refl) as Hq.
    apply Qle_shift_div_r; lra.
  - apply clamp_bounds; lra.
Qed.

(** The restaurant of the examples seats 20; for a party of 25 with a
    budget of 3000 its score is at most 0.6. *)
Lemma unfit_capacity_only_caps_the_score_witness :
  (Venue.calculate_suitability_score (U := Ex.unicode0) Ex.a_restaurant
     25%Z (Some 3000%Z) ["食事提供"] <= 6 # 10)%Q.
Proof.
  destruct (@unfit_capacity_only_caps_the_score Ex.unicode0 Ex.a_restaurant
              25%Z (Some 3000%Z) ["食事提供"]) as [_ H].
  - left. cbn. lia.
  - intros b Hb. inversion Hb. lia.
  - intros r Hr. discriminate Hr.
  - exact H.
Defined.

(** ** Requests and replies *)

Section ReplyMore.

Import Base.

(** What the stamp of [send_message] keeps, and when it keeps the event
    and session ids. *)
Lemma stamp_keeps a m :
  message_id (stamp a m) = message_id m /\
  correlation_id (stamp a m) = correlation_id m /\
  expires_at (stamp a m) = expires_at m /\
  (Py.truthy_opt_str (event_id m) = true ->
   event_id (stamp a m) = event_id m) /\
  (Py.truthy_opt_str (session_id m) = true ->
   session_id (stamp a m) = session_id m).
Proof.
  unfold stamp. cbn [set_sender_id event_id session_id].
  destruct (Py.truthy_opt_str (event_id m)) eqn:Ee;
    destruct (Py.truthy_opt_str (session_id m)) eqn:Es;
    cbn [negb andb];
    repeat match goal with
           | |- context [if Py.truthy_opt_str ?x then _ else _] =>
               destruct (Py.truthy_opt_str x)
           end;
    cbn; rewrite ?Es; cbn; repeat split; intros; try reflexivity;
    try discriminate;
    destruct (Py.truthy_opt_str (agent_session_id a)); reflexivity.
Qed.

Lemma sent_message_is_stamped e m a :
  snd (fst (send_message e m a)) = stamp a m.
Proof. unfold send_message. destruct (message_bus a); reflexivity. Qed.

End ReplyMore.

(** X27.  A reply finds its way back.  Whatever sender a request was built
    with, the message that [send_message] hands on names the sending agent,
    so the reply made from it by [create_response] and sent by the
    responder is addressed to the agent that really sent the request.  The
    reply is a RESPONSE from the responder, correlated with the id of the
    request, never expires, and keeps the event and session ids of the
    request when the request has them. *)
Theorem reply_returns_to_the_real_sender
    (e1 e2 e3 : Env) (m : Base.AgentMessage)
    (requester responder : Base.BaseAgent)
    (payload : Py.Dict Py.Any) (subject : option string) :
  let request := snd (fst (Base.send_message e1 m requester)) in
  let reply :=
    Life.create_response e2 request (Base.agent_id responder) payload
      subject in
  let sent_reply := snd (fst (Base.send_message e3 reply responder)) in
  Base.sender_id request = Base.agent_id requester /\
  Base.recipient_id sent_reply = Some (Base.agent_id requester) /\
  Base.sender_id sent_reply = Base.agent_id responder /\
  Base.message_type sent_reply = Base.RESPONSE /\
  Base.correlation_id sent_reply = Some (Base.message_id m) /\
  Base.payload sent_reply = payload /\
  (forall e, Base.is_expired e sent_reply = false) /\
  (Py.truthy_opt_str (Base.event_id request) = true ->
   Base.event_id sent_reply = Base.event_id request) /\
  (Py.truthy_opt_str (Base.session_id request) = true ->
   Base.session_id sent_reply = Base.session_id request).
Proof.
  cbv zeta. rewrite !sent_message_is_stamped.
  destruct (stamp_frame requester m) as (Hs & _ & _ & _).
  destruct (stamp_keeps requester m) as (Hid & _ & _ & _ & _).
  set (request := Base.stamp requester m) in *.
  set (reply := Life.create_response e2 request (Base.agent_id responder)
                  payload subject).
  destruct (stamp_frame responder reply) as (Rs & Rt & Rr & Rp).
  destruct (stamp_keeps responder reply) as (_ & Rc & Rx & Re & Rn).
  split; [exact Hs |].
  split; [rewrite Rr; cbn; now rewrite Hs |].
  split; [exact Rs |].
  split; [rewrite Rt; reflexivity |].
  split; [rewrite Rc; cbn; now rewrite Hid |].
  split; [rewrite Rp; reflexivity |].
  split; [intro e; unfold Base.is_expired; rewrite Rx; reflexivity |].
  split; intro H; [apply Re | apply Rn]; exact H.
Qed.

(** ** Features of a venue *)

Section FeatureMore.

Import Venue.
Local Open Scope Q_scope.
Context {U : Py.Unicode}.

Lemma has_feature_added (v : Venue) (n w : string) (av : bool)
    (d : option string) :
  has_feature (VenueView.add_feature n av d v) w
  = (has_feature v w
     || (String.eqb (Py.str_lower n) (Py.str_lower w) && av))%bool.
Proof.
  unfold has_feature, VenueView.add_feature. cbn [features].
  rewrite existsb_app. cbn [existsb feature_name available].
  now rewrite orb_false_r.
Qed.

Lemma clamp_mono (x y : Q) :
  x <= y ->
  Sched.py_min 1 (Sched.py_max 0 x) <= Sched.py_min 1 (Sched.py_max 0 y).
Proof.
  intro Hxy.
  assert (M : Sched.py_max 0 x <= Sched.py_max 0 y).
  { unfold Sched.py_max.
    destruct (Qle_bool x 0) eqn:Ex; destruct (Qle_bool y 0) eqn:Ey;
      try apply Qle_bool_iff in Ex; try apply Qle_bool_iff in Ey;
      try lra.
    assert (H : ~ y <= 0) by (intro H; apply Qle_bool_iff in H; congruence).
    apply Qnot_le_lt in H. lra. }
  set (p := Sched.py_max 0 x) in *. set (q := Sched.py_max 0 y) in *.
  unfold Sched.py_min.
  destruct (Qle_bool 1 p) eqn:Ep; destruct (Qle_bool 1 q) eqn:Eq;
    try apply Qle_bool_iff in Ep; try apply Qle_bool_iff in Eq; try lra.
  assert (H : ~ 1 <= p) by (intro H; apply Qle_bool_iff in H; congruence).
  apply Qnot_le_lt in H. lra.
Qed.

End FeatureMore.

(** X28.  Features of a venue.  [has_feature] compares the lowered names:
    two names that [str.lower()] maps to the same string get the same
    answer.  After [add_feature], the venue has the features it had and,
    when the new one is marked available, the new one under any name with
    the same lowering; a feature added as unavailable is not found.
    Adding a feature never lowers the suitability score of the venue. *)
Theorem added_feature_is_found {U : Py.Unicode}
    (v : Venue.Venue) (feature_name wanted : string) (available : bool)
    (description : option string) (participant_count : Z)
    (budget : option Z) (required : list string) :
  let v' := VenueView.add_feature feature_name available description v in
  (forall other,
      Py.str_lower other = Py.str_lower wanted ->
      Venue.has_feature v other = Venue.has_feature v wanted) /\
  Venue.has_feature v' wanted
  = (Venue.has_feature v wanted
     || (String.eqb (Py.str_lower feature_name) (Py.str_lower wanted)
         && available))%bool /\
  Venue.has_feature
    (VenueView.add_feature feature_name true description v) feature_name
  = true /\
  Venue.has_feature
    (VenueView.add_feature feature_name false description v) wanted
  = Venue.has_feature v wanted /\
  (Venue.calculate_suitability_score v participant_count budget required
   <= Venue.calculate_suitability_score v' participant_count budget
        required)%Q.
Proof.
  cbv zeta. split; [| split; [| split; [| split]]].
  - intros other Hsame. unfold Venue.has_feature. now rewrite Hsame.
  - apply has_feature_added.
  - rewrite has_feature_added, String.eqb_refl. apply orb_true_r.
  - rewrite has_feature_added, andb_false_r. apply orb_false_r.
  - unfold Venue.calculate_suitability_score. cbv zeta.
    cbn [VenueView.add_feature Venue.minimum_capacity Venue.capacity
         Venue.estimated_cost_per_person Venue.rating].
    apply clamp_mono.
    match goal with
    | |- (0 + ?cs * _ + ?bs * _ + ?fs * _ + ?rs * _
          <= 0 + _ * _ + _ * _ + ?fs' * _ + _ * _)%Q =>
        assert (Hf : (fs <= fs')%Q);
        [| set (x1 := cs); set (x2 := bs); set (x3 := rs);
           set (f := fs) in *; set (f' := fs') in *; lra]
    end.
    destruct required as [|w ws]; [apply Qle_refl |].
    unfold Qdiv. apply Qmult_le_compat_r.
    + rewrite <- Zle_Qle. apply inj_le.
      apply filter_length_mono. intros x Hx.
      fold (VenueView.add_feature feature_name available description v).
      rewrite has_feature_added, Hx. reflexivity.
    + apply Qinv_le_0_compat. change 0%Q with (inject_Z 0).
      rewrite <- Zle_Qle. lia.
Qed.

(** ** A failed agent *)

Section FailureMore.

Import Sess.

Lemma names_after_first pre a post name :
  NoDup (map agent_name (pre ++ a :: post)) -> agent_name a = name ->
  forall b, In b post -> agent_name b <> name.
Proof.
  intros Hnd Ha b Hb Hn.
  rewrite map_app in Hnd. cbn [map] in Hnd.
  apply NoDup_remove_2 in Hnd. apply Hnd.
  apply in_or_app. right. rewrite Ha, <- Hn. now apply in_map.
Qed.

End FailureMore.

(** X29.  A failure stalls the workflow.  When every tracked name has one
    instance, the [agent_failed] event of a tracked agent marks its
    instance Error and writes the session to the repository, but sends
    nothing and leaves the phase and the checkpoints as they are; and a
    later [agent_completed] event of the same agent is ignored, so that
    agent no longer moves the workflow to the next phase. *)
Theorem failed_agent_cannot_complete
    (e e' : Env) (name message : string) (result : option (Py.Dict Py.Any))
    (c : Coord.CoordinationAgent) :
  name <> "" ->
  NoDup
    (map Sess.agent_name
       (Sess.active_agents (Coord.coordination_session c))) ->
  In name
    (map Sess.agent_name
       (Sess.active_agents (Coord.coordination_session c))) ->
  let c1 := Flow.on_agent_failed e name message c in
  Sess.current_phase (Coord.coordination_session c1)
    = Sess.current_phase (Coord.coordination_session c) /\
  Sess.checkpoints (Coord.coordination_session c1)
    = Sess.checkpoints (Coord.coordination_session c) /\
  Coord.base c1 = Coord.base c /\
  Coord.persisted c1 = S (Coord.persisted c) /\
  (exists x,
      In x (Sess.active_agents (Coord.coordination_session c1)) /\
      Sess.agent_name x = name /\ Sess.status x = Sess.ERROR) /\
  Flow.on_agent_completed e' name result c1 = c1.
Proof.
  intros Hne Hnd Hin. cbv zeta.
  assert (Ht : Py.truthy_str name = true).
  { unfold Py.truthy_str. apply negb_true_iff. now apply String.eqb_neq. }
  apply in_map_iff in Hin. destruct Hin as (x & Hx & Hxin).
  unfold Flow.on_agent_failed. rewrite Ht. unfold Sess.fail_agent.
  match goal with
  | |- context [Sess.update_first ?t ?f ?l] =>
      destruct (update_first_found t f l x Hxin) as [l' U];
      [apply String.eqb_eq; exact Hx | rewrite U];
      destruct (update_first_some _ _ _ U)
        as (pre & a & post & Hl & Hl' & Ha & Hpre)
  end.
  apply String.eqb_eq in Ha.
  cbv beta iota zeta.
  split; [reflexivity |]. split; [reflexivity |]. split; [reflexivity |].
  split; [reflexivity |]. split.
  - eexists. split.
    + cbn. rewrite Hl'. apply in_or_app. right. left. reflexivity.
    + cbn. split; [exact Ha | reflexivity].
  - unfold Flow.on_agent_completed, Coord.handle_agent_completion.
    rewrite Ht. unfold Sess.complete_agent.
    cbn [Coord.coordination_session Coord.persist Coord.set_session
         Sess.active_agents Sess.update_timestamp Sess.log_error
         Sess.log_activity Sess.set_activity_log Sess.set_error_log
         Sess.set_active_agents].
    match goal with
    | |- context [Sess.update_first ?t ?f l'] =>
        assert (N : Sess.update_first t f l' = None)
    end.
    { apply update_first_none. rewrite Hl'. apply Forall_app. split.
      - eapply Forall_impl; [| exact Hpre]. cbv beta. intros b Hb.
        unfold Sess.named. now rewrite Hb.
      - constructor.
        + unfold Sess.named. cbn. apply andb_false_r.
        + apply Forall_forall. intros b Hb.
          rewrite Hl in Hnd.
          pose proof (names_after_first pre a post Hnd Ha b Hb) as Hb'.
          unfold Sess.named. apply String.eqb_neq in Hb'.
          now rewrite Hb'. }
    rewrite N. reflexivity.
Qed.

(** The venue agent of [Ex.coord_registered] fails before it has run. *)
Lemma failed_agent_cannot_complete_witness :
  Flow.on_agent_completed Ex2.env2 "venue_agent" None
    (Flow.on_agent_failed Ex2.env1 "venue_agent" "timeout"
       Ex.coord_registered)
  = Flow.on_agent_failed Ex2.env1 "venue_agent" "timeout"
      Ex.coord_registered.
Proof.
  destruct (@failed_agent_cannot_complete Ex2.env1 Ex2.env2 "venue_agent"
              "timeout" None Ex.coord_registered)
    as (_ & _ & _ & _ & _ & H).
  - discriminate.
  - cbn. repeat constructor; cbn; intuition discriminate.
  - cbn. right. right. left. reflexivity.
  - exact H.
Defined.
